(** * File cleaner and comparator (app.py): embedding and properties

    The development follows src/app.py: the identifier normaliser
    [clean_isbn], the header scan [detect_header], the schema step
    [process_file], the exclusion loader [extract_isbns], the cleaner
    [clean_file] and the key comparison made by the application body
    ([compare]).

    Python values are modelled as follows.
    - A [str] is a list of Unicode code points ([pystr]); [len] is the
      number of code points, as in Python 3.
    - The character classes used by [str.strip], [str.isnumeric],
      [str.upper] and by the regular expression classes [\w] and [\s] are
      the tables of the Unicode Character Database 14.0.0 (the one shipped
      with CPython 3.11), written out as ranges.
    - A cell read with [dtype=str] is a string or missing ([option pystr]);
      after [pd.to_numeric] a cell may also hold a number ([cell]).
    - A table is a list of column labels and a list of rows.
    - Exceptions are values of [exn]; fallible code returns a [result].
    - The readers and the number parser of pandas are not modelled: a file
      object carries what the readers return for it, and the reading of
      numbers is a parameter. Where pandas itself decides an outcome
      (duplicate labels, [astype(str)] on a missing cell), the behaviour
      is that of its 2.x releases. *)

From stdpp Require Import base option list gmap strings.
From Stdlib Require Import NArith Ascii.

Local Open Scope string_scope.
Local Open Scope nat_scope.
Local Open Scope list_scope.

(** ** Python strings *)

Abbreviation char := N (only parsing).
Abbreviation pystr := (list N) (only parsing).

(** A literal of ASCII characters, as written in the source. *)
Definition py (s : string) : pystr :=
  (λ a, N_of_ascii a) <$> String.list_ascii_of_string s.
Arguments py : simpl never.

Definition ZWSP : char := 8203%N.   (* U+200B, zero width space *)
Definition NBSP : char := 160%N.    (* U+00A0, no-break space *)
Definition BOM : char := 65279%N.   (* U+FEFF, byte order mark *)
Definition SPACE : char := 32%N.    (* " " *)

(** ** Character tables (Unicode 14.0.0) *)

Definition in_ranges (tbl : list (N * N)) (c : char) : bool :=
  existsb (λ r, (r.1 <=? c)%N && (c <=? r.2)%N) tbl.

Definition space_table : list (N * N) :=
  [
   (9, 13); (28, 32); (133, 133); (160, 160); (5760, 5760); (8192, 8202); (8232, 8233);
   (8239, 8239); (8287, 8287); (12288, 12288)
  ]%N.

Definition numeric_table : list (N * N) :=
  [
   (48, 57); (178, 179); (185, 185); (188, 190); (1632, 1641); (1776, 1785); (1984, 1993);
   (2406, 2415); (2534, 2543); (2548, 2553); (2662, 2671); (2790, 2799); (2918, 2927);
   (2930, 2935); (3046, 3058); (3174, 3183); (3192, 3198); (3302, 3311); (3416, 3422);
   (3430, 3448); (3558, 3567); (3664, 3673); (3792, 3801); (3872, 3891); (4160, 4169);
   (4240, 4249); (4969, 4988); (5870, 5872); (6112, 6121); (6128, 6137); (6160, 6169);
   (6470, 6479); (6608, 6618); (6784, 6793); (6800, 6809); (6992, 7001); (7088, 7097);
   (7232, 7241); (7248, 7257); (8304, 8304); (8308, 8313); (8320, 8329); (8528, 8578);
   (8581, 8585); (9312, 9371); (9450, 9471); (10102, 10131); (11517, 11517); (12295,
   12295); (12321, 12329); (12344, 12346); (12690, 12693); (12832, 12841); (12872, 12879);
   (12881, 12895); (12928, 12937); (12977, 12991); (13317, 13317); (13443, 13443); (14378,
   14378); (15181, 15181); (19968, 19968); (19971, 19971); (19975, 19975); (19977, 19977);
   (20061, 20061); (20108, 20108); (20116, 20116); (20118, 20118); (20159, 20160); (20191,
   20191); (20200, 20200); (20237, 20237); (20336, 20336); (20740, 20740); (20806, 20806);
   (20841, 20841); (20843, 20843); (20845, 20845); (21313, 21313); (21315, 21317); (21324,
   21324); (21441, 21444); (22235, 22235); (22769, 22769); (22777, 22777); (24186, 24186);
   (24318, 24319); (24332, 24334); (24336, 24336); (25342, 25342); (25420, 25420); (26578,
   26578); (28422, 28422); (29590, 29590); (30334, 30334); (32902, 32902); (33836, 33836);
   (36014, 36014); (36019, 36019); (36144, 36144); (38433, 38433); (38470, 38470); (38476,
   38476); (38520, 38520); (38646, 38646); (42528, 42537); (42726, 42735); (43056, 43061);
   (43216, 43225); (43264, 43273); (43472, 43481); (43504, 43513); (43600, 43609); (44016,
   44025); (63851, 63851); (63859, 63859); (63864, 63864); (63922, 63922); (63953, 63953);
   (63955, 63955); (63997, 63997); (65296, 65305); (65799, 65843); (65856, 65912); (65930,
   65931); (66273, 66299); (66336, 66339); (66369, 66369); (66378, 66378); (66513, 66517);
   (66720, 66729); (67672, 67679); (67705, 67711); (67751, 67759); (67835, 67839); (67862,
   67867); (68028, 68029); (68032, 68047); (68050, 68095); (68160, 68168); (68221, 68222);
   (68253, 68255); (68331, 68335); (68440, 68447); (68472, 68479); (68521, 68527); (68858,
   68863); (68912, 68921); (69216, 69246); (69405, 69414); (69457, 69460); (69573, 69579);
   (69714, 69743); (69872, 69881); (69942, 69951); (70096, 70105); (70113, 70132); (70384,
   70393); (70736, 70745); (70864, 70873); (71248, 71257); (71360, 71369); (71472, 71483);
   (71904, 71922); (72016, 72025); (72784, 72812); (73040, 73049); (73120, 73129); (73664,
   73684); (74752, 74862); (92768, 92777); (92864, 92873); (93008, 93017); (93019, 93025);
   (93824, 93846); (119520, 119539); (119648, 119672); (120782, 120831); (123200, 123209);
   (123632, 123641); (125127, 125135); (125264, 125273); (126065, 126123); (126125,
   126127); (126129, 126132); (126209, 126253); (126255, 126269); (127232, 127244);
   (130032, 130041); (131073, 131073); (131172, 131172); (131298, 131298); (131361,
   131361); (133418, 133418); (133507, 133507); (133516, 133516); (133532, 133532);
   (133866, 133866); (133885, 133885); (133913, 133913); (140176, 140176); (141720,
   141720); (146203, 146203); (156269, 156269); (194704, 194704)
  ]%N.

Definition word_table : list (N * N) :=
  [
   (48, 57); (65, 90); (95, 95); (97, 122); (170, 170); (178, 179); (181, 181); (185, 186);
   (188, 190); (192, 214); (216, 246); (248, 705); (710, 721); (736, 740); (748, 748);
   (750, 750); (880, 884); (886, 887); (890, 893); (895, 895); (902, 902); (904, 906);
   (908, 908); (910, 929); (931, 1013); (1015, 1153); (1162, 1327); (1329, 1366); (1369,
   1369); (1376, 1416); (1488, 1514); (1519, 1522); (1568, 1610); (1632, 1641); (1646,
   1647); (1649, 1747); (1749, 1749); (1765, 1766); (1774, 1788); (1791, 1791); (1808,
   1808); (1810, 1839); (1869, 1957); (1969, 1969); (1984, 2026); (2036, 2037); (2042,
   2042); (2048, 2069); (2074, 2074); (2084, 2084); (2088, 2088); (2112, 2136); (2144,
   2154); (2160, 2183); (2185, 2190); (2208, 2249); (2308, 2361); (2365, 2365); (2384,
   2384); (2392, 2401); (2406, 2415); (2417, 2432); (2437, 2444); (2447, 2448); (2451,
   2472); (2474, 2480); (2482, 2482); (2486, 2489); (2493, 2493); (2510, 2510); (2524,
   2525); (2527, 2529); (2534, 2545); (2548, 2553); (2556, 2556); (2565, 2570); (2575,
   2576); (2579, 2600); (2602, 2608); (2610, 2611); (2613, 2614); (2616, 2617); (2649,
   2652); (2654, 2654); (2662, 2671); (2674, 2676); (2693, 2701); (2703, 2705); (2707,
   2728); (2730, 2736); (2738, 2739); (2741, 2745); (2749, 2749); (2768, 2768); (2784,
   2785); (2790, 2799); (2809, 2809); (2821, 2828); (2831, 2832); (2835, 2856); (2858,
   2864); (2866, 2867); (2869, 2873); (2877, 2877); (2908, 2909); (2911, 2913); (2918,
   2927); (2929, 2935); (2947, 2947); (2949, 2954); (2958, 2960); (2962, 2965); (2969,
   2970); (2972, 2972); (2974, 2975); (2979, 2980); (2984, 2986); (2990, 3001); (3024,
   3024); (3046, 3058); (3077, 3084); (3086, 3088); (3090, 3112); (3114, 3129); (3133,
   3133); (3160, 3162); (3165, 3165); (3168, 3169); (3174, 3183); (3192, 3198); (3200,
   3200); (3205, 3212); (3214, 3216); (3218, 3240); (3242, 3251); (3253, 3257); (3261,
   3261); (3293, 3294); (3296, 3297); (3302, 3311); (3313, 3314); (3332, 3340); (3342,
   3344); (3346, 3386); (3389, 3389); (3406, 3406); (3412, 3414); (3416, 3425); (3430,
   3448); (3450, 3455); (3461, 3478); (3482, 3505); (3507, 3515); (3517, 3517); (3520,
   3526); (3558, 3567); (3585, 3632); (3634, 3635); (3648, 3654); (3664, 3673); (3713,
   3714); (3716, 3716); (3718, 3722); (3724, 3747); (3749, 3749); (3751, 3760); (3762,
   3763); (3773, 3773); (3776, 3780); (3782, 3782); (3792, 3801); (3804, 3807); (3840,
   3840); (3872, 3891); (3904, 3911); (3913, 3948); (3976, 3980); (4096, 4138); (4159,
   4169); (4176, 4181); (4186, 4189); (4193, 4193); (4197, 4198); (4206, 4208); (4213,
   4225); (4238, 4238); (4240, 4249); (4256, 4293); (4295, 4295); (4301, 4301); (4304,
   4346); (4348, 4680); (4682, 4685); (4688, 4694); (4696, 4696); (4698, 4701); (4704,
   4744); (4746, 4749); (4752, 4784); (4786, 4789); (4792, 4798); (4800, 4800); (4802,
   4805); (4808, 4822); (4824, 4880); (4882, 4885); (4888, 4954); (4969, 4988); (4992,
   5007); (5024, 5109); (5112, 5117); (5121, 5740); (5743, 5759); (5761, 5786); (5792,
   5866); (5870, 5880); (5888, 5905); (5919, 5937); (5952, 5969); (5984, 5996); (5998,
   6000); (6016, 6067); (6103, 6103); (6108, 6108); (6112, 6121); (6128, 6137); (6160,
   6169); (6176, 6264); (6272, 6276); (6279, 6312); (6314, 6314); (6320, 6389); (6400,
   6430); (6470, 6509); (6512, 6516); (6528, 6571); (6576, 6601); (6608, 6618); (6656,
   6678); (6688, 6740); (6784, 6793); (6800, 6809); (6823, 6823); (6917, 6963); (6981,
   6988); (6992, 7001); (7043, 7072); (7086, 7141); (7168, 7203); (7232, 7241); (7245,
   7293); (7296, 7304); (7312, 7354); (7357, 7359); (7401, 7404); (7406, 7411); (7413,
   7414); (7418, 7418); (7424, 7615); (7680, 7957); (7960, 7965); (7968, 8005); (8008,
   8013); (8016, 8023); (8025, 8025); (8027, 8027); (8029, 8029); (8031, 8061); (8064,
   8116); (8118, 8124); (8126, 8126); (8130, 8132); (8134, 8140); (8144, 8147); (8150,
   8155); (8160, 8172); (8178, 8180); (8182, 8188); (8304, 8305); (8308, 8313); (8319,
   8329); (8336, 8348); (8450, 8450); (8455, 8455); (8458, 8467); (8469, 8469); (8473,
   8477); (8484, 8484); (8486, 8486); (8488, 8488); (8490, 8493); (8495, 8505); (8508,
   8511); (8517, 8521); (8526, 8526); (8528, 8585); (9312, 9371); (9450, 9471); (10102,
   10131); (11264, 11492); (11499, 11502); (11506, 11507); (11517, 11517); (11520, 11557);
   (11559, 11559); (11565, 11565); (11568, 11623); (11631, 11631); (11648, 11670); (11680,
   11686); (11688, 11694); (11696, 11702); (11704, 11710); (11712, 11718); (11720, 11726);
   (11728, 11734); (11736, 11742); (11823, 11823); (12293, 12295); (12321, 12329); (12337,
   12341); (12344, 12348); (12353, 12438); (12445, 12447); (12449, 12538); (12540, 12543);
   (12549, 12591); (12593, 12686); (12690, 12693); (12704, 12735); (12784, 12799); (12832,
   12841); (12872, 12879); (12881, 12895); (12928, 12937); (12977, 12991); (13312, 19903);
   (19968, 42124); (42192, 42237); (42240, 42508); (42512, 42539); (42560, 42606); (42623,
   42653); (42656, 42735); (42775, 42783); (42786, 42888); (42891, 42954); (42960, 42961);
   (42963, 42963); (42965, 42969); (42994, 43009); (43011, 43013); (43015, 43018); (43020,
   43042); (43056, 43061); (43072, 43123); (43138, 43187); (43216, 43225); (43250, 43255);
   (43259, 43259); (43261, 43262); (43264, 43301); (43312, 43334); (43360, 43388); (43396,
   43442); (43471, 43481); (43488, 43492); (43494, 43518); (43520, 43560); (43584, 43586);
   (43588, 43595); (43600, 43609); (43616, 43638); (43642, 43642); (43646, 43695); (43697,
   43697); (43701, 43702); (43705, 43709); (43712, 43712); (43714, 43714); (43739, 43741);
   (43744, 43754); (43762, 43764); (43777, 43782); (43785, 43790); (43793, 43798); (43808,
   43814); (43816, 43822); (43824, 43866); (43868, 43881); (43888, 44002); (44016, 44025);
   (44032, 55203); (55216, 55238); (55243, 55291); (63744, 64109); (64112, 64217); (64256,
   64262); (64275, 64279); (64285, 64285); (64287, 64296); (64298, 64310); (64312, 64316);
   (64318, 64318); (64320, 64321); (64323, 64324); (64326, 64433); (64467, 64829); (64848,
   64911); (64914, 64967); (65008, 65019); (65136, 65140); (65142, 65276); (65296, 65305);
   (65313, 65338); (65345, 65370); (65382, 65470); (65474, 65479); (65482, 65487); (65490,
   65495); (65498, 65500); (65536, 65547); (65549, 65574); (65576, 65594); (65596, 65597);
   (65599, 65613); (65616, 65629); (65664, 65786); (65799, 65843); (65856, 65912); (65930,
   65931); (66176, 66204); (66208, 66256); (66273, 66299); (66304, 66339); (66349, 66378);
   (66384, 66421); (66432, 66461); (66464, 66499); (66504, 66511); (66513, 66517); (66560,
   66717); (66720, 66729); (66736, 66771); (66776, 66811); (66816, 66855); (66864, 66915);
   (66928, 66938); (66940, 66954); (66956, 66962); (66964, 66965); (66967, 66977); (66979,
   66993); (66995, 67001); (67003, 67004); (67072, 67382); (67392, 67413); (67424, 67431);
   (67456, 67461); (67463, 67504); (67506, 67514); (67584, 67589); (67592, 67592); (67594,
   67637); (67639, 67640); (67644, 67644); (67647, 67669); (67672, 67702); (67705, 67742);
   (67751, 67759); (67808, 67826); (67828, 67829); (67835, 67867); (67872, 67897); (67968,
   68023); (68028, 68047); (68050, 68096); (68112, 68115); (68117, 68119); (68121, 68149);
   (68160, 68168); (68192, 68222); (68224, 68255); (68288, 68295); (68297, 68324); (68331,
   68335); (68352, 68405); (68416, 68437); (68440, 68466); (68472, 68497); (68521, 68527);
   (68608, 68680); (68736, 68786); (68800, 68850); (68858, 68899); (68912, 68921); (69216,
   69246); (69248, 69289); (69296, 69297); (69376, 69415); (69424, 69445); (69457, 69460);
   (69488, 69505); (69552, 69579); (69600, 69622); (69635, 69687); (69714, 69743); (69745,
   69746); (69749, 69749); (69763, 69807); (69840, 69864); (69872, 69881); (69891, 69926);
   (69942, 69951); (69956, 69956); (69959, 69959); (69968, 70002); (70006, 70006); (70019,
   70066); (70081, 70084); (70096, 70106); (70108, 70108); (70113, 70132); (70144, 70161);
   (70163, 70187); (70272, 70278); (70280, 70280); (70282, 70285); (70287, 70301); (70303,
   70312); (70320, 70366); (70384, 70393); (70405, 70412); (70415, 70416); (70419, 70440);
   (70442, 70448); (70450, 70451); (70453, 70457); (70461, 70461); (70480, 70480); (70493,
   70497); (70656, 70708); (70727, 70730); (70736, 70745); (70751, 70753); (70784, 70831);
   (70852, 70853); (70855, 70855); (70864, 70873); (71040, 71086); (71128, 71131); (71168,
   71215); (71236, 71236); (71248, 71257); (71296, 71338); (71352, 71352); (71360, 71369);
   (71424, 71450); (71472, 71483); (71488, 71494); (71680, 71723); (71840, 71922); (71935,
   71942); (71945, 71945); (71948, 71955); (71957, 71958); (71960, 71983); (71999, 71999);
   (72001, 72001); (72016, 72025); (72096, 72103); (72106, 72144); (72161, 72161); (72163,
   72163); (72192, 72192); (72203, 72242); (72250, 72250); (72272, 72272); (72284, 72329);
   (72349, 72349); (72368, 72440); (72704, 72712); (72714, 72750); (72768, 72768); (72784,
   72812); (72818, 72847); (72960, 72966); (72968, 72969); (72971, 73008); (73030, 73030);
   (73040, 73049); (73056, 73061); (73063, 73064); (73066, 73097); (73112, 73112); (73120,
   73129); (73440, 73458); (73648, 73648); (73664, 73684); (73728, 74649); (74752, 74862);
   (74880, 75075); (77712, 77808); (77824, 78894); (82944, 83526); (92160, 92728); (92736,
   92766); (92768, 92777); (92784, 92862); (92864, 92873); (92880, 92909); (92928, 92975);
   (92992, 92995); (93008, 93017); (93019, 93025); (93027, 93047); (93053, 93071); (93760,
   93846); (93952, 94026); (94032, 94032); (94099, 94111); (94176, 94177); (94179, 94179);
   (94208, 100343); (100352, 101589); (101632, 101640); (110576, 110579); (110581, 110587);
   (110589, 110590); (110592, 110882); (110928, 110930); (110948, 110951); (110960,
   111355); (113664, 113770); (113776, 113788); (113792, 113800); (113808, 113817);
   (119520, 119539); (119648, 119672); (119808, 119892); (119894, 119964); (119966,
   119967); (119970, 119970); (119973, 119974); (119977, 119980); (119982, 119993);
   (119995, 119995); (119997, 120003); (120005, 120069); (120071, 120074); (120077,
   120084); (120086, 120092); (120094, 120121); (120123, 120126); (120128, 120132);
   (120134, 120134); (120138, 120144); (120146, 120485); (120488, 120512); (120514,
   120538); (120540, 120570); (120572, 120596); (120598, 120628); (120630, 120654);
   (120656, 120686); (120688, 120712); (120714, 120744); (120746, 120770); (120772,
   120779); (120782, 120831); (122624, 122654); (123136, 123180); (123191, 123197);
   (123200, 123209); (123214, 123214); (123536, 123565); (123584, 123627); (123632,
   123641); (124896, 124902); (124904, 124907); (124909, 124910); (124912, 124926);
   (124928, 125124); (125127, 125135); (125184, 125251); (125259, 125259); (125264,
   125273); (126065, 126123); (126125, 126127); (126129, 126132); (126209, 126253);
   (126255, 126269); (126464, 126467); (126469, 126495); (126497, 126498); (126500,
   126500); (126503, 126503); (126505, 126514); (126516, 126519); (126521, 126521);
   (126523, 126523); (126530, 126530); (126535, 126535); (126537, 126537); (126539,
   126539); (126541, 126543); (126545, 126546); (126548, 126548); (126551, 126551);
   (126553, 126553); (126555, 126555); (126557, 126557); (126559, 126559); (126561,
   126562); (126564, 126564); (126567, 126570); (126572, 126578); (126580, 126583);
   (126585, 126588); (126590, 126590); (126592, 126601); (126603, 126619); (126625,
   126627); (126629, 126633); (126635, 126651); (127232, 127244); (130032, 130041);
   (131072, 173791); (173824, 177976); (177984, 178205); (178208, 183969); (183984,
   191456); (194560, 195101); (196608, 201546)
  ]%N.

Definition upper_table : list (N * N * N * N) :=
  [
   (97, 122, 1, 65); (181, 181, 1, 924); (224, 246, 1, 192); (248, 254, 1, 216); (255, 255,
   1, 376); (257, 303, 2, 256); (305, 305, 1, 73); (307, 311, 2, 306); (314, 328, 2, 313);
   (331, 375, 2, 330); (378, 382, 2, 377); (383, 383, 1, 83); (384, 384, 1, 579); (387,
   389, 2, 386); (392, 392, 1, 391); (396, 396, 1, 395); (402, 402, 1, 401); (405, 405, 1,
   502); (409, 409, 1, 408); (410, 410, 1, 573); (414, 414, 1, 544); (417, 421, 2, 416);
   (424, 424, 1, 423); (429, 429, 1, 428); (432, 432, 1, 431); (436, 438, 2, 435); (441,
   441, 1, 440); (445, 445, 1, 444); (447, 447, 1, 503); (453, 453, 1, 452); (454, 454, 1,
   452); (456, 456, 1, 455); (457, 457, 1, 455); (459, 459, 1, 458); (460, 460, 1, 458);
   (462, 476, 2, 461); (477, 477, 1, 398); (479, 495, 2, 478); (498, 498, 1, 497); (499,
   499, 1, 497); (501, 501, 1, 500); (505, 543, 2, 504); (547, 563, 2, 546); (572, 572, 1,
   571); (575, 576, 1, 11390); (578, 578, 1, 577); (583, 591, 2, 582); (592, 592, 1,
   11375); (593, 593, 1, 11373); (594, 594, 1, 11376); (595, 595, 1, 385); (596, 596, 1,
   390); (598, 599, 1, 393); (601, 601, 1, 399); (603, 603, 1, 400); (604, 604, 1, 42923);
   (608, 608, 1, 403); (609, 609, 1, 42924); (611, 611, 1, 404); (613, 613, 1, 42893);
   (614, 614, 1, 42922); (616, 616, 1, 407); (617, 617, 1, 406); (618, 618, 1, 42926);
   (619, 619, 1, 11362); (620, 620, 1, 42925); (623, 623, 1, 412); (625, 625, 1, 11374);
   (626, 626, 1, 413); (629, 629, 1, 415); (637, 637, 1, 11364); (640, 640, 1, 422); (642,
   642, 1, 42949); (643, 643, 1, 425); (647, 647, 1, 42929); (648, 648, 1, 430); (649, 649,
   1, 580); (650, 651, 1, 433); (652, 652, 1, 581); (658, 658, 1, 439); (669, 669, 1,
   42930); (670, 670, 1, 42928); (837, 837, 1, 921); (881, 883, 2, 880); (887, 887, 1,
   886); (891, 893, 1, 1021); (940, 940, 1, 902); (941, 943, 1, 904); (945, 961, 1, 913);
   (962, 962, 1, 931); (963, 971, 1, 931); (972, 972, 1, 908); (973, 974, 1, 910); (976,
   976, 1, 914); (977, 977, 1, 920); (981, 981, 1, 934); (982, 982, 1, 928); (983, 983, 1,
   975); (985, 1007, 2, 984); (1008, 1008, 1, 922); (1009, 1009, 1, 929); (1010, 1010, 1,
   1017); (1011, 1011, 1, 895); (1013, 1013, 1, 917); (1016, 1016, 1, 1015); (1019, 1019,
   1, 1018); (1072, 1103, 1, 1040); (1104, 1119, 1, 1024); (1121, 1153, 2, 1120); (1163,
   1215, 2, 1162); (1218, 1230, 2, 1217); (1231, 1231, 1, 1216); (1233, 1327, 2, 1232);
   (1377, 1414, 1, 1329); (4304, 4346, 1, 7312); (4349, 4351, 1, 7357); (5112, 5117, 1,
   5104); (7296, 7296, 1, 1042); (7297, 7297, 1, 1044); (7298, 7298, 1, 1054); (7299, 7300,
   1, 1057); (7301, 7301, 1, 1058); (7302, 7302, 1, 1066); (7303, 7303, 1, 1122); (7304,
   7304, 1, 42570); (7545, 7545, 1, 42877); (7549, 7549, 1, 11363); (7566, 7566, 1, 42950);
   (7681, 7829, 2, 7680); (7835, 7835, 1, 7776); (7841, 7935, 2, 7840); (7936, 7943, 1,
   7944); (7952, 7957, 1, 7960); (7968, 7975, 1, 7976); (7984, 7991, 1, 7992); (8000, 8005,
   1, 8008); (8017, 8023, 2, 8025); (8032, 8039, 1, 8040); (8048, 8049, 1, 8122); (8050,
   8053, 1, 8136); (8054, 8055, 1, 8154); (8056, 8057, 1, 8184); (8058, 8059, 1, 8170);
   (8060, 8061, 1, 8186); (8112, 8113, 1, 8120); (8126, 8126, 1, 921); (8144, 8145, 1,
   8152); (8160, 8161, 1, 8168); (8165, 8165, 1, 8172); (8526, 8526, 1, 8498); (8560, 8575,
   1, 8544); (8580, 8580, 1, 8579); (9424, 9449, 1, 9398); (11312, 11359, 1, 11264);
   (11361, 11361, 1, 11360); (11365, 11365, 1, 570); (11366, 11366, 1, 574); (11368, 11372,
   2, 11367); (11379, 11379, 1, 11378); (11382, 11382, 1, 11381); (11393, 11491, 2, 11392);
   (11500, 11502, 2, 11499); (11507, 11507, 1, 11506); (11520, 11557, 1, 4256); (11559,
   11559, 1, 4295); (11565, 11565, 1, 4301); (42561, 42605, 2, 42560); (42625, 42651, 2,
   42624); (42787, 42799, 2, 42786); (42803, 42863, 2, 42802); (42874, 42876, 2, 42873);
   (42879, 42887, 2, 42878); (42892, 42892, 1, 42891); (42897, 42899, 2, 42896); (42900,
   42900, 1, 42948); (42903, 42921, 2, 42902); (42933, 42947, 2, 42932); (42952, 42954, 2,
   42951); (42961, 42961, 1, 42960); (42967, 42969, 2, 42966); (42998, 42998, 1, 42997);
   (43859, 43859, 1, 42931); (43888, 43967, 1, 5024); (65345, 65370, 1, 65313); (66600,
   66639, 1, 66560); (66776, 66811, 1, 66736); (66967, 67003, 2, 66928); (66968, 66977, 1,
   66929); (66980, 66993, 1, 66941); (66996, 67001, 1, 66957); (67004, 67004, 1, 66965);
   (68800, 68850, 1, 68736); (71872, 71903, 1, 71840); (93792, 93823, 1, 93760); (125218,
   125251, 1, 125184)
  ]%N.

Definition upper_special : list (N * list N) :=
  [
   (223, [83; 83]); (329, [700; 78]); (496, [74; 780]); (912, [921; 776; 769]); (944, [933;
   776; 769]); (1415, [1333; 1362]); (7830, [72; 817]); (7831, [84; 776]); (7832, [87;
   778]); (7833, [89; 778]); (7834, [65; 702]); (8016, [933; 787]); (8018, [933; 787;
   768]); (8020, [933; 787; 769]); (8022, [933; 787; 834]); (8064, [7944; 921]); (8065,
   [7945; 921]); (8066, [7946; 921]); (8067, [7947; 921]); (8068, [7948; 921]); (8069,
   [7949; 921]); (8070, [7950; 921]); (8071, [7951; 921]); (8072, [7944; 921]); (8073,
   [7945; 921]); (8074, [7946; 921]); (8075, [7947; 921]); (8076, [7948; 921]); (8077,
   [7949; 921]); (8078, [7950; 921]); (8079, [7951; 921]); (8080, [7976; 921]); (8081,
   [7977; 921]); (8082, [7978; 921]); (8083, [7979; 921]); (8084, [7980; 921]); (8085,
   [7981; 921]); (8086, [7982; 921]); (8087, [7983; 921]); (8088, [7976; 921]); (8089,
   [7977; 921]); (8090, [7978; 921]); (8091, [7979; 921]); (8092, [7980; 921]); (8093,
   [7981; 921]); (8094, [7982; 921]); (8095, [7983; 921]); (8096, [8040; 921]); (8097,
   [8041; 921]); (8098, [8042; 921]); (8099, [8043; 921]); (8100, [8044; 921]); (8101,
   [8045; 921]); (8102, [8046; 921]); (8103, [8047; 921]); (8104, [8040; 921]); (8105,
   [8041; 921]); (8106, [8042; 921]); (8107, [8043; 921]); (8108, [8044; 921]); (8109,
   [8045; 921]); (8110, [8046; 921]); (8111, [8047; 921]); (8114, [8122; 921]); (8115,
   [913; 921]); (8116, [902; 921]); (8118, [913; 834]); (8119, [913; 834; 921]); (8124,
   [913; 921]); (8130, [8138; 921]); (8131, [919; 921]); (8132, [905; 921]); (8134, [919;
   834]); (8135, [919; 834; 921]); (8140, [919; 921]); (8146, [921; 776; 768]); (8147,
   [921; 776; 769]); (8150, [921; 834]); (8151, [921; 776; 834]); (8162, [933; 776; 768]);
   (8163, [933; 776; 769]); (8164, [929; 787]); (8166, [933; 834]); (8167, [933; 776;
   834]); (8178, [8186; 921]); (8179, [937; 921]); (8180, [911; 921]); (8182, [937; 834]);
   (8183, [937; 834; 921]); (8188, [937; 921]); (64256, [70; 70]); (64257, [70; 73]);
   (64258, [70; 76]); (64259, [70; 70; 73]); (64260, [70; 70; 76]); (64261, [83; 84]);
   (64262, [83; 84]); (64275, [1348; 1350]); (64276, [1348; 1333]); (64277, [1348; 1339]);
   (64278, [1358; 1350]); (64279, [1348; 1341])
  ]%N.

(** [c.isspace()]; also the class [\s] of [re] on [str] patterns and the
    characters removed by [str.strip()]. *)
Definition isspace (c : char) : bool := in_ranges space_table c.

(** [c.isnumeric()]: the characters with a Unicode numeric value. *)
Definition isnumeric_char (c : char) : bool := in_ranges numeric_table c.

(** The class [\w] of [re] on [str] patterns: [c.isalnum()] or ["_"]. *)
Definition isword (c : char) : bool := in_ranges word_table c.

(** [c.upper()] for one character; the result may have several characters
    (U+00DF, sharp s, becomes ["SS"]). *)
Definition upper_char (c : char) : pystr :=
  match list_find (λ e, e.1 = c) upper_special with
  | Some (_, (_, u)) => u
  | None =>
    match list_find (λ e : N * N * N * N,
                       (e.1.1.1 ≤ c)%N ∧ (c ≤ e.1.1.2)%N ∧
                       ((c - e.1.1.1) mod e.1.2 = 0)%N) upper_table with
    | Some (_, (lo, _, _, lo')) => [(lo' + (c - lo))%N]
    | None => [c]
    end
  end.

(** ** String methods *)

(** [s.upper()]: the mapping is applied character by character. *)
Definition upper (s : pystr) : pystr := s ≫= upper_char.

Fixpoint lstrip (s : pystr) : pystr :=
  match s with
  | c :: s' => if isspace c then lstrip s' else s
  | [] => []
  end.

Definition rstrip (s : pystr) : pystr := reverse (lstrip (reverse s)).

(** [s.strip()] *)
Definition strip (s : pystr) : pystr := rstrip (lstrip s).

(** [s.replace(old, new)] for a one-character [old]. *)
Definition replace_char (old : char) (new : pystr) (s : pystr) : pystr :=
  s ≫= (λ c, if decide (c = old) then new else [c]).

(** [s.isnumeric()]: at least one character and all of them numeric. *)
Definition isnumeric (s : pystr) : bool :=
  match s with
  | [] => false
  | _ => forallb isnumeric_char s
  end.

(** [s.zfill(width)]: zeros go after a leading sign. *)
Definition zfill (width : nat) (s : pystr) : pystr :=
  if decide (width ≤ length s) then s
  else
    let fill := replicate (width - length s) 48%N in
    match s with
    | c :: rest =>
      if decide (c = 43%N ∨ c = 45%N) then c :: fill ++ rest else fill ++ s
    | [] => fill
    end.

Fixpoint startswith (sub s : pystr) : bool :=
  match sub, s with
  | [], _ => true
  | a :: sub', b :: s' => bool_decide (a = b) && startswith sub' s'
  | _ :: _, [] => false
  end.

(** [sub in s] *)
Fixpoint contains (sub s : pystr) : bool :=
  startswith sub s ||
  match s with
  | [] => false
  | _ :: s' => contains sub s'
  end.

(** [s.endswith(suffix)] *)
Definition endswith (suffix s : pystr) : bool :=
  startswith (reverse suffix) (reverse s).

(** [re.sub(r"[^\w\s]", "", s)], what [.str.replace(r"[^\w\s]", "",
    regex=True)] does to each string. *)
Definition strip_punct (s : pystr) : pystr :=
  filter (λ c, isword c || isspace c) s.

(** ** IdentifierNormalizer: clean_isbn (app.py, lines 31-35) *)

(** The value of [x] on line 34, for a string [v]. *)
Definition strip_invisible (v : pystr) : pystr :=
  replace_char BOM (py "")
    (replace_char NBSP (py "") (replace_char ZWSP (py "") (strip v))).

(** The argument is a cell read with [dtype=str]: [None] stands for the
    missing value, on which [pd.isna] answers true. *)
Definition clean_isbn (isbn : option pystr) : pystr :=
  match isbn with
  | None => py ""
  | Some v =>
    let x := strip_invisible v in
    if isnumeric x && bool_decide (length x < 13) then zfill 13 x else x
  end.

(** ** Exceptions and logging *)

Inductive exn :=
  | KeyError (msg : string)
  | ValueError (msg : string)
  | TypeError (msg : string)
  | AttributeError (msg : string)
  | IndexError (msg : string)
  | OtherError (msg : string).

Inductive result (A : Type) :=
  | Ok (a : A)
  | Raise (e : exn).
Arguments Ok {A} a.
Arguments Raise {A} e.

#[global] Instance result_ret : MRet result := λ A a, Ok a.
#[global] Instance result_bind : MBind result := λ A B k m,
  match m with
  | Ok a => k a
  | Raise e => Raise e
  end.

#[global] Instance result_fmap : FMap result := λ A B g m,
  match m with
  | Ok a => Ok (g a)
  | Raise e => Raise e
  end.

(** A call of [logging.error]. *)
Inductive log_record :=
  | log_error (msg : string) (e : exn).

(** ** Tables *)

(** A column label: a string, or [None] for a label that is no string
    (the [Index.str] methods of line 61 turn such a label into the missing
    value). *)
Abbreviation label := (option (list N)) (only parsing).

Record DataFrame (A : Type) := mkDataFrame {
  columns : list label;
  rows : list (list A);
}.
Arguments mkDataFrame {A} columns rows.
Arguments columns {A} d.
Arguments rows {A} d.

(** Every row has one cell per column. *)
Definition rectangular {A} (df : DataFrame A) : Prop :=
  Forall (λ row, length row = length (columns df)) (rows df).

(** The cell of a row under the first column labelled [x]. *)
Fixpoint row_get {A} (x : label) (cols : list label) (row : list A) : option A :=
  match cols, row with
  | l :: cols', v :: row' => if decide (l = x) then Some v else row_get x cols' row'
  | _, _ => None
  end.

(** How often a label occurs among the columns. *)
Definition occurrences (x : label) (cols : list label) : nat :=
  length (filter (λ l, l = x) cols).

(** [df[mask]] for a boolean Series [mask]. *)
Definition select_rows {A} (mask : list bool) (df : DataFrame A) : DataFrame A :=
  mkDataFrame (columns df) ((λ p, p.1) <$> filter (λ p, p.2 = true) (zip (rows df) mask)).

(** ** Uploaded files

    A file object is modelled by what the pandas readers return for it:
    [sheet f rd] is the result of reading the whole buffer with
    [header=None, dtype=str] (the rows of cells, or the exception of the
    reader), and [table f rd h] the result of reading it with
    [header=h, dtype=str]. [nrows=n] keeps the first [n] rows. *)
Inductive reader := read_csv | read_excel.

Record file_obj := mkFile {
  name : option pystr;
  sheet : reader → result (list (list (option pystr)));
  table : reader → nat → result (DataFrame (option pystr));
}.

(** [s.lower()] on the ASCII letters. The result is only tested with
    [endswith(".csv")], and "C", "S", "V" are the only characters other
    than "c", "s", "v" whose lowercase form ends in these letters. *)
Definition lower (s : pystr) : pystr :=
  (λ c, if decide (65 ≤ c ∧ c ≤ 90)%N then (c + 32)%N else c) <$> s.

(** [file_obj.name.lower() if hasattr(file_obj, "name") else ""] *)
Definition filename (f : file_obj) : pystr :=
  match name f with
  | Some n => lower n
  | None => py ""
  end.

Definition reader_of (f : file_obj) : reader :=
  if endswith (py ".csv") (filename f) then read_csv else read_excel.

Definition read_rows (f : file_obj) (rd : reader) (nrows : option nat)
  : result (list (list (option pystr))) :=
  df ← sheet f rd;
  mret (match nrows with Some n => take n df | None => df end).

(** ** HeaderDetector: detect_header (app.py, lines 37-49) *)

(** [str(v)], also [astype(str)] on one cell: the missing value prints as
    [nan]. *)
Definition astype_str (v : option pystr) : pystr := default (py "nan") v.

(** ["ISBN13" in v.replace(" ", "") or "EAN" in v.replace(" ", "")] *)
Definition is_id_name (v : pystr) : bool :=
  contains (py "ISBN13") (replace_char SPACE (py "") v) ||
  contains (py "EAN") (replace_char SPACE (py "") v).

(** The test of line 47 on the cells of one row, after line 46. *)
Definition header_row (row : list (option pystr)) : bool :=
  existsb is_id_name ((λ v, strip_punct (upper (astype_str v))) <$> row).

(** The loop of lines 45-49 from row [i] on. *)
Fixpoint scan_rows (i : nat) (df : list (list (option pystr))) : result nat :=
  match df with
  | row :: rest => if header_row row then Ok i else scan_rows (S i) rest
  | [] => Raise (KeyError "No valid header row found.")
  end.

Definition detect_header (f : file_obj) : result nat :=
  df ← read_rows f (reader_of f) (Some 20);
  scan_rows 0 df.

(** ** ExclusionSetLoader: extract_isbns (app.py, lines 73-81)

    The value is the returned set, or the exception that leaves the
    function, together with the records written to the log. *)
Definition extract_isbns (f : file_obj) : result (gset pystr) * list log_record :=
  match
    df ← read_rows f read_excel None;
    let vals := concat df in
    mret (list_to_set (clean_isbn <$> filter (λ v, isnumeric (astype_str v) = true) vals))
  with
  | Ok rset => (Ok rset, [])
  | Raise e => (Ok ∅, [log_error "Error reading ISBN removal file" e])
  end.

(** ** Required columns (app.py, lines 22-29) *)

Definition REQUIRED_COLUMNS_ISBN : list pystr :=
  py <$> ["ISBN13"; "TITLE"; "AUTHOR"; "DISCOUNT"; "STOCK"; "CUR";
          "DIM1"; "DIM2"; "DIM3"; "WEIGHT"; "PUBLISHER"; "IMPRINT"].

Definition REQUIRED_COLUMNS_EAN : list pystr :=
  py <$> ["EAN #"; "TITLE"; "QTYAV"; "CUR"; "PRICE"; "AUTHOR";
          "PUBLISHER"; "WGT OZS"; "LENGTH"; "WIDTH"; "HEIGHT"; "CD"].

(** ** SchemaResolver: process_file (app.py, lines 51-71) *)

(** Line 61 on one label. *)
Definition clean_label (l : label) : label :=
  (λ s, strip_punct (upper (strip s))) <$> l.

(** ["STOCK" in col.replace(" ", "") or "QTYAV" in col.replace(" ", "")] *)
Definition is_qty_name (v : pystr) : bool :=
  contains (py "STOCK") (replace_char SPACE (py "") v) ||
  contains (py "QTYAV") (replace_char SPACE (py "") v).

(** [next((col for col in df.columns if p(col)), None)]. On a label that
    is no string, [col.replace] raises. *)
Fixpoint next_col (p : pystr → bool) (cols : list label) : result (option pystr) :=
  match cols with
  | Some col :: rest => if p col then Ok (Some col) else next_col p rest
  | None :: _ => Raise (AttributeError "'float' object has no attribute 'replace'")
  | [] => Ok None
  end.

(** Truth value of [c] in [if not c] and [if s]. *)
Definition truthy (c : option pystr) : bool :=
  match c with
  | Some (_ :: _) => true
  | _ => false
  end.

(** The cells of the columns labelled [x] rewritten by [g], the others by
    [h]. *)
Definition map_column {A B} (x : label) (g h : A → B) (df : DataFrame A) : DataFrame B :=
  mkDataFrame (columns df)
    ((λ row, zip_with (λ l v, if decide (l = x) then g v else h v) (columns df) row)
       <$> rows df).

(** [df[c] = df[c].apply(clean_isbn)]. When [c] labels several columns,
    [df[c]] is a frame and [clean_isbn] is called on whole columns, where
    [if pd.isna(isbn)] raises; a frame without rows is returned as it is. *)
Definition apply_clean_isbn (c : pystr) (df : DataFrame (option pystr))
  : result (DataFrame (option pystr)) :=
  if decide (occurrences (Some c) (columns df) = 1) then
    Ok (map_column (Some c) (λ v, Some (clean_isbn v)) id df)
  else if decide (rows df = []) then Ok df
  else Raise (ValueError "The truth value of a Series is ambiguous").

(** The entries of [xs] that stand under the labels [keep], in the order
    of [keep]; [xs] runs along the columns [cols]. *)
Definition pick {B} (keep : list pystr) (cols : list label) (xs : list B) : list B :=
  x ← keep; (λ p : label * B, p.2) <$> filter (λ p, p.1 = Some x) (zip cols xs).

Section Frames.
(** [pd.to_numeric] reads a number from a string; the numbers and the
    reading are those of pandas and are not fixed here. *)
Context {number : Type} `{!EqDecision number}.
Context (to_number : pystr → option number).

Inductive cell :=
  | Str (s : pystr)
  | NaN
  | Num (x : number).

#[global] Instance cell_eq_dec : EqDecision cell.
Proof. solve_decision. Defined.

Definition of_raw (v : option pystr) : cell :=
  match v with
  | Some s => Str s
  | None => NaN
  end.

(** A frame read with [dtype=str], seen as a frame of cells. *)
Definition as_cells (df : DataFrame (option pystr)) : DataFrame cell :=
  mkDataFrame (columns df) ((λ row : list (option pystr), of_raw <$> row) <$> rows df).

(** [pd.to_numeric(..., errors="coerce")] on one cell. *)
Definition to_numeric (v : option pystr) : cell :=
  match v ≫= to_number with
  | Some x => Num x
  | None => NaN
  end.

(** [df[s] = pd.to_numeric(df[s], errors="coerce")]; [pd.to_numeric]
    rejects the frame that [df[s]] is when [s] labels several columns. *)
Definition to_numeric_column (s : pystr) (df : DataFrame (option pystr))
  : result (DataFrame cell) :=
  if decide (occurrences (Some s) (columns df) = 1) then
    Ok (map_column (Some s) to_numeric of_raw df)
  else Raise (TypeError "arg must be a list, tuple, 1-d array, or Series").

Definition process_file (f : file_obj) : result (DataFrame cell * pystr) :=
  hdr ← detect_header f;
  df ← table f (reader_of f) hdr;
  let df := mkDataFrame (clean_label <$> columns df) (rows df) in
  c ← next_col is_id_name (columns df);
  match c with
  | Some c =>
    if negb (truthy (Some c)) then Raise (KeyError "No ISBN/EAN column found.")
    else
      df ← apply_clean_isbn c df;
      s ← next_col is_qty_name (columns df);
      match s with
      | Some s =>
        if truthy (Some s) then
          df ← to_numeric_column s df; mret (df, c)
        else mret (as_cells df, c)
      | None => mret (as_cells df, c)
      end
  | None => Raise (KeyError "No ISBN/EAN column found.")
  end.

(** ** FileCleaner: clean_file (app.py, lines 83-99) *)

(** [df[k]] as a Series: the cells under the column labelled [k]. The
    label occurs once wherever the source evaluates this on a frame that
    has rows. *)
Definition getitem (k : label) (df : DataFrame cell) : list cell :=
  (λ row, default NaN (row_get k (columns df) row)) <$> rows df.

(** Whether a cell is a member of a set of strings. *)
Definition in_set (rset : gset pystr) (v : cell) : bool :=
  match v with
  | Str s => bool_decide (s ∈ rset)
  | _ => false
  end.

(** [ser.isin(rset)] for a set of strings. *)
Definition isin_set (rset : gset pystr) (ser : list cell) : list bool :=
  in_set rset <$> ser.

(** [ser.isin(values)] for the values of another Series. *)
Definition isin (values : list cell) (ser : list cell) : list bool :=
  (λ v, bool_decide (v ∈ values)) <$> ser.

(** [df[[x for x in req if x in df.columns]]]: for each kept label, all
    columns that carry it. *)
Definition project (req : list pystr) (df : DataFrame cell) : DataFrame cell :=
  let keep := filter (λ x, Some x ∈ columns df) req in
  mkDataFrame (pick keep (columns df) (columns df))
              (pick keep (columns df) <$> rows df).

(** [df[x] = v] for a scalar [v]: every column labelled [x] is
    overwritten; when there is none, a column is added at the end. *)
Definition setitem (x : pystr) (v : cell) (df : DataFrame cell) : DataFrame cell :=
  if decide (Some x ∈ columns df) then map_column (Some x) (λ _, v) id df
  else mkDataFrame (columns df ++ [Some x]) ((λ row, row ++ [v]) <$> rows df).

(** [df.reindex(columns=req, fill_value=fill)]; pandas refuses to
    reindex an axis that has duplicate labels. *)
Definition reindex (req : list pystr) (fill : cell) (df : DataFrame cell)
  : result (DataFrame cell) :=
  if decide (NoDup (columns df)) then
    Ok (mkDataFrame (Some <$> req)
          ((λ row, (λ x, default fill (row_get (Some x) (columns df) row)) <$> req)
             <$> rows df))
  else Raise (ValueError "cannot reindex on an axis with duplicate labels").

(** Lines 93-97: the frame is cut down to the required columns it has,
    then the currency column is made, if there is none, and filled. *)
Definition keep_required (req : list pystr) (cur : pystr) (df : DataFrame cell)
  : DataFrame cell :=
  let df := project req df in
  let df := if decide (Some (py "CUR") ∉ columns df)
            then setitem (py "CUR") (Str (py "")) df else df in
  setitem (py "CUR") (Str cur) df.

(** A file object is truthy, so [if rem_obj] asks whether one was given.
    The value is the frame, or the exception, together with the records
    written to the log. *)
Definition clean_file (f : file_obj) (cur : pystr) (rem_obj : option file_obj)
  : result (DataFrame cell) * list log_record :=
  match process_file f with
  | Raise e => (Raise e, [])
  | Ok (df, c) =>
    let req := if decide (Some (py "ISBN13") ∈ columns df)
               then REQUIRED_COLUMNS_ISBN else REQUIRED_COLUMNS_EAN in
    let '(filtered, log) :=
      match rem_obj with
      | Some rem =>
        match extract_isbns rem with
        | (Ok rset, log) =>
          (Ok (select_rows (negb <$> isin_set rset (getitem (Some c) df)) df), log)
        | (Raise e, log) => (Raise e, log)
        end
      | None => (Ok df, [])
      end in
    (df ← filtered; reindex req (Str (py "")) (keep_required req cur df), log)
  end.

(** ** Comparator (app.py, lines 156-160) *)

(** [d.columns[0]] *)
Definition first_column (d : DataFrame cell) : result label :=
  match columns d with
  | k :: _ => Ok k
  | [] => Raise (IndexError "index 0 is out of bounds for axis 0 with size 0")
  end.

(** The pair [(new_items, inactive_items)]. *)
Definition compare (d1 d2 : DataFrame cell)
  : result (DataFrame cell * DataFrame cell) :=
  k1 ← first_column d1;
  k2 ← first_column d2;
  let new_items := select_rows (negb <$> isin (getitem k1 d1) (getitem k2 d2)) d2 in
  let inactive_items := select_rows (negb <$> isin (getitem k2 d2) (getitem k1 d1)) d1 in
  mret (new_items, inactive_items).

(** ** The comparison run (app.py, lines 148-160)

    Both uploads are cleaned with the same currency and the same removal
    file, then compared. The value holds the two cleaned tables and the
    pair of the comparison, or the exception that leaves the [try] block,
    together with the records written to the log up to there. *)
Definition clean_and_compare (file1 file2 : file_obj) (currency : pystr)
    (rem_file : option file_obj)
  : result (DataFrame cell * DataFrame cell * (DataFrame cell * DataFrame cell))
    * list log_record :=
  match clean_file file1 currency rem_file with
  | (Raise e, log1) => (Raise e, log1)
  | (Ok d1, log1) =>
    match clean_file file2 currency rem_file with
    | (Raise e, log2) => (Raise e, log1 ++ log2)
    | (Ok d2, log2) => ((λ p, (d1, d2, p)) <$> compare d1 d2, log1 ++ log2)
    end
  end.

End Frames.

Arguments cell : clear implicits.

(** ** Conditions in the words of the specification *)

(** [sub] is a substring of [s]. *)
Definition substring (sub s : pystr) : Prop := ∃ a b, s = a ++ sub ++ b.

(** Some cell of the row, uppercased, without punctuation and without
    blanks, contains "ISBN13" or "EAN". *)
Definition spec_header_row (row : list (option pystr)) : Prop :=
  ∃ v, v ∈ row ∧
    let t := filter (λ c, c ≠ SPACE) (strip_punct (upper (astype_str v))) in
    substring (py "ISBN13") t ∨ substring (py "EAN") t.

(** A cleaned table: the columns are those of one of the two templates
    and every row has a cell for each. *)
Definition CleanedTable {number} (d : DataFrame (cell number)) : Prop :=
  (columns d = Some <$> REQUIRED_COLUMNS_ISBN ∨
   columns d = Some <$> REQUIRED_COLUMNS_EAN) ∧
  Forall (λ row, length row = 12) (rows d).

(** ** Closed forms

    What the cells of a processed and of a cleaned frame are, written as
    functions of the parsed row; the properties below show that
    [process_file] and [clean_file] compute them. *)

(** The cell that stands under the label [l] after lines 66-70, where the
    parsed frame has [v]; [c] is the identifier column and [s] the quantity
    column, if there is one. *)
Definition processed_cell {number} (to_number : pystr → option number)
    (c : pystr) (s : option pystr) (l : label) (v : option pystr) : cell number :=
  let v := if decide (l = Some c) then Some (clean_isbn v) else v in
  match s with
  | Some q => if decide (l = Some q) then to_numeric to_number v else of_raw v
  | None => of_raw v
  end.

(** The cell under the identifier column, which line 88 looks up in the
    removal set. *)
Definition key_cell {number} (to_number : pystr → option number)
    (c : pystr) (s : option pystr) (src : list label) (row : list (option pystr))
  : cell number :=
  default NaN (processed_cell to_number c s (Some c) <$> row_get (Some c) src row).

(** A row of the cleaned table: one cell for each required column. *)
Definition cleaned_row {number} (to_number : pystr → option number)
    (req : list pystr) (cur c : pystr) (s : option pystr) (src : list label)
    (row : list (option pystr)) : list (cell number) :=
  (λ x, if decide (x = py "CUR") then Str cur
        else default (Str (py ""))
               (processed_cell to_number c s (Some x) <$> row_get (Some x) src row))
    <$> req.

(** The labels of the frame after lines 93-97, from the labels [cols]
    before them. *)
Definition kept_columns (req : list pystr) (cols : list label) : list label :=
  let cols1 := pick (filter (λ x, Some x ∈ cols) req) cols cols in
  if decide (Some (py "CUR") ∉ cols1) then cols1 ++ [Some (py "CUR")] else cols1.

(** The set that [clean_file] removes, and what the loading of it writes
    to the log. *)
Definition removal_set (rem_obj : option file_obj) : gset pystr :=
  match rem_obj with
  | Some rem => match (extract_isbns rem).1 with Ok rset => rset | Raise _ => ∅ end
  | None => ∅
  end.

Definition removal_log (rem_obj : option file_obj) : list log_record :=
  match rem_obj with
  | Some rem => (extract_isbns rem).2
  | None => []
  end.

(** The frame that is read below the detected header row has one cell per
    column in every row, as every frame of pandas has. *)
Definition parsed_rectangular (f : file_obj) : Prop :=
  ∀ h raw, detect_header f = Ok h → table f (reader_of f) h = Ok raw → rectangular raw.

(** ** Sample inputs *)

(** A stand-in for the reading of numbers by pandas, on strings of ASCII
    decimal digits. *)
Definition read_decimal (s : pystr) : option N :=
  if isnumeric s && forallb (λ c, (48 <=? c)%N && (c <=? 57)%N) s
  then Some (foldl (λ n c, 10 * n + (c - 48))%N 0%N s) else None.

(** A workbook with the rows [sh], as the readers see it when the cells
    of the header row are distinct non-empty strings: read with
    [header=h], row [h] gives the labels and the rows below it the data. *)
Definition workbook (sh : list (list (option pystr))) : file_obj :=
  mkFile (Some (py "upload.xlsx"))
    (λ _, Ok sh)
    (λ _ h, match sh !! h with
            | Some labels => Ok (mkDataFrame labels (drop (S h) sh))
            | None => Raise (ValueError "header row beyond the sheet")
            end).

(** A sheet whose header, in row 2, is written in lower case, with
    punctuation and a blank. *)
Definition sheet_lower_header : list (list (option pystr)) :=
  [ [Some (py "Stock list"); None];
    [None; None];
    [Some (py "price"); Some (py "isbn-13 (new)")];
    [Some (py "9.99"); Some (py "123")] ].

(** A removal sheet with numeric cells, cells that are no numbers and a
    missing cell. *)
Definition removal_mixed_sheet : list (list (option pystr)) :=
  [ [Some (py "123"); Some (py " 456")];
    [None; Some (py "abc")];
    [Some (py "9780134685991"); Some (py "12.5")] ].

(** An ISBN catalogue with two items and no currency column. *)
Definition isbn_book : list (list (option pystr)) :=
  [ [Some (py "ISBN13"); Some (py "Title")];
    [Some (py "0000000000123"); Some (py "First")];
    [Some (py "0000000000456"); Some (py "Second")] ].

(** An EAN catalogue with one item. *)
Definition ean_book : list (list (option pystr)) :=
  [ [Some (py "EAN #"); Some (py "Title")];
    [Some (py "123"); Some (py "A book")] ].

(** A catalogue whose first header names both the identifier and the
    quantity. *)
Definition overlap_book : list (list (option pystr)) :=
  [ [Some (py "EAN QTYAV"); Some (py "Title")];
    [Some (py "123"); Some (py "A book")] ].

(** A removal sheet with the single cell "123". *)
Definition removal_sheet : list (list (option pystr)) :=
  [ [Some (py "123")] ].

(** A cleaned ISBN table that holds the given keys and nothing else. *)
Definition catalogue (keys : list string) : DataFrame (cell N) :=
  mkDataFrame (Some <$> REQUIRED_COLUMNS_ISBN)
    ((λ k, Str (py k) :: replicate 11 (Str (py ""))) <$> keys).

(** A second ISBN catalogue: it shares the item 456 with the first and
    has the item 789 of its own. *)
Definition isbn_book2 : list (list (option pystr)) :=
  [ [Some (py "ISBN13"); Some (py "Title")];
    [Some (py "0000000000456"); Some (py "Second")];
    [Some (py "0000000000789"); Some (py "Third")] ].

(** A second EAN catalogue, with another item. *)
Definition ean_book2 : list (list (option pystr)) :=
  [ [Some (py "EAN #"); Some (py "Title")];
    [Some (py "456"); Some (py "Another book")] ].

(** A catalogue with a quantity column. *)
Definition stock_book : list (list (option pystr)) :=
  [ [Some (py "ISBN13"); Some (py "Title"); Some (py "Stock")];
    [Some (py "123"); Some (py "First"); Some (py "7")];
    [Some (py "456"); Some (py "Second"); Some (py "n/a")] ].


(** Two headers that are cleaned to the same identifier label. *)
Definition twin_id_book : list (list (option pystr)) :=
  [ [Some (py "ISBN13"); Some (py "isbn13 ")];
    [Some (py "123"); Some (py "456")] ].

(** Two headers that are cleaned to the same quantity label. *)
Definition twin_stock_book : list (list (option pystr)) :=
  [ [Some (py "ISBN13"); Some (py "Stock"); Some (py "STOCK.")];
    [Some (py "123"); Some (py "7"); Some (py "8")] ].


(** A file whose frame, read below the header row, carries other labels
    than the cells of that row. *)
Definition mislabelled_book : file_obj :=
  mkFile (Some (py "upload.xlsx"))
    (λ _, Ok isbn_book)
    (λ _ _, Ok (mkDataFrame [Some (py "Code"); Some (py "Title")]
                  [[Some (py "123"); Some (py "First")]])).

(** A removal file that the reader rejects. *)
Definition unreadable_file : file_obj :=
  mkFile (Some (py "removal.xlsx"))
    (λ _, Raise (ValueError "Excel file format cannot be determined"))
    (λ _ _, Raise (ValueError "Excel file format cannot be determined")).

(** * Properties *)

(** Closed goals about the samples are settled by evaluation. *)
Ltac evaluate := vm_compute; reflexivity.

(** ** Lists *)

Lemma filter_all {A} (P : A → Prop) `{!∀ x, Decision (P x)} (l : list A) :
  (∀ x, x ∈ l → P x) → filter P l = l.
Proof.
  induction l as [|a l IH]; intros Hall; [done|].
  rewrite filter_cons_True by (apply Hall; left).
  by rewrite IH by (intros x Hx; apply Hall; by right).
Qed.

Lemma filter_ext_in {A} (P1 P2 : A → Prop)
    `{!∀ x, Decision (P1 x), !∀ x, Decision (P2 x)} (l : list A) :
  (∀ x, x ∈ l → (P1 x ↔ P2 x)) → filter P1 l = filter P2 l.
Proof.
  induction l as [|a l IH]; intros Hiff; [done|]. rewrite !filter_cons.
  rewrite IH by (intros x Hx; apply Hiff; by right).
  destruct (Hiff a) as [H1 H2]; [left|]. by repeat case_decide; try tauto.
Qed.

Lemma filter_fmap_commute {A B} (g : A → B) (P : B → Prop)
    `{!∀ y, Decision (P y)} (l : list A) :
  filter P (g <$> l) = g <$> filter (λ x, P (g x)) l.
Proof.
  induction l as [|x l IH]; [done|]. cbn [fmap list_fmap]. rewrite !filter_cons.
  destruct (decide (P (g x))); cbn [fmap list_fmap]; by rewrite <- IH.
Qed.

Lemma elem_of_zip_same {A} (l : list A) a b : (a, b) ∈ zip l l → a = b ∧ a ∈ l.
Proof.
  induction l as [|c l IH]; cbn [zip_with]; [by intros ?%elem_of_nil|].
  intros [[= -> ->]|Hin]%elem_of_cons; [split; [done|left]|].
  destruct (IH Hin) as [-> ?]. split; [done|by right].
Qed.

(** ** Strings *)

Lemma in_ranges_spec tbl c :
  in_ranges tbl c = true ↔ ∃ r, r ∈ tbl ∧ (r.1 ≤ c)%N ∧ (c ≤ r.2)%N.
Proof.
  unfold in_ranges. rewrite existsb_exists. split.
  - intros (r & Hin & Hr). exists r. apply andb_true_iff in Hr as [H1 H2].
    apply N.leb_le in H1, H2. by rewrite list_elem_of_In.
  - intros (r & Hin & H1 & H2). exists r. rewrite <- list_elem_of_In.
    split; [done|]. apply andb_true_iff. by rewrite !N.leb_le.
Qed.

(** Two range tables without a common point. *)
Lemma in_ranges_disjoint t1 t2 c :
  forallb (λ r1, forallb (λ r2, (r1.2 <? r2.1)%N || (r2.2 <? r1.1)%N) t2) t1 = true →
  in_ranges t1 c = true → in_ranges t2 c = false.
Proof.
  intros Hd H1. apply in_ranges_spec in H1 as (r1 & Hin1 & Hlo1 & Hhi1).
  apply not_true_is_false. intros H2.
  apply in_ranges_spec in H2 as (r2 & Hin2 & Hlo2 & Hhi2).
  rewrite forallb_forall in Hd. apply list_elem_of_In, Hd in Hin1.
  rewrite forallb_forall in Hin1. apply list_elem_of_In, Hin1 in Hin2.
  apply orb_true_iff in Hin2 as [H|H]; apply N.ltb_lt in H; lia.
Qed.

Lemma numeric_not_space c : isnumeric_char c = true → isspace c = false.
Proof. apply in_ranges_disjoint. evaluate. Qed.

Lemma numeric_not_invisible c :
  isnumeric_char c = true → c ≠ ZWSP ∧ c ≠ NBSP ∧ c ≠ BOM.
Proof. intros H. repeat split; intros ->; vm_compute in H; discriminate. Qed.

Lemma numeric_not_sign c : isnumeric_char c = true → ¬ (c = 43%N ∨ c = 45%N).
Proof. intros H [-> | ->]; vm_compute in H; discriminate. Qed.

Lemma replace_char_filter old s :
  replace_char old (py "") s = filter (λ c, c ≠ old) s.
Proof.
  induction s as [|c s IH]; [done|].
  change (replace_char old (py "") (c :: s))
    with ((if decide (c = old) then [] else [c]) ++ replace_char old (py "") s).
  rewrite IH, filter_cons. by destruct (decide (c = old)); case_decide.
Qed.

Lemma replace_char_id old s : old ∉ s → replace_char old (py "") s = s.
Proof.
  intros H. rewrite replace_char_filter.
  induction s as [|c s IH]; [done|].
  apply not_elem_of_cons in H as [Hne Hs].
  rewrite filter_cons_True by done. by rewrite IH.
Qed.

Lemma lstrip_spec s :
  ∃ a, s = a ++ lstrip s ∧ Forall (λ c, isspace c = true) a ∧
       ∀ c, head (lstrip s) = Some c → isspace c = false.
Proof.
  induction s as [|c s (a & Hs & Ha & Hhead)]; [by exists []|].
  cbn [lstrip]. destruct (isspace c) eqn:Hc.
  - exists (c :: a). split; [by rewrite Hs at 1|]. split; [by constructor|done].
  - exists []. split; [done|]. split; [done|]. by intros c' [= <-].
Qed.

(** [strip] cuts a run of whitespace off each end, and what is left
    neither starts nor ends with whitespace. *)
Lemma strip_spec s :
  ∃ a b, s = a ++ strip s ++ b ∧
    Forall (λ c, isspace c = true) a ∧ Forall (λ c, isspace c = true) b ∧
    (∀ c, head (strip s) = Some c → isspace c = false) ∧
    (∀ c, last (strip s) = Some c → isspace c = false).
Proof.
  destruct (lstrip_spec s) as (a & Hs & Ha & Hhead).
  destruct (lstrip_spec (reverse (lstrip s))) as (b & Hr & Hb & Hlast).
  unfold strip, rstrip. set (u := lstrip (reverse (lstrip s))) in *.
  assert (lstrip s = reverse u ++ reverse b) as Ht.
  { by rewrite <- reverse_app, <- Hr, reverse_involutive. }
  exists a, (reverse b). split; [by rewrite <- Ht|]. split; [done|].
  split; [by apply Forall_reverse|]. split.
  - intros c Hc. apply Hhead. rewrite Ht.
    destruct (reverse u) as [|c' t]; [done|]. by injection Hc as ->.
  - intros c Hc. apply Hlast. by rewrite <- last_reverse, Hc.
Qed.

Lemma strip_id s : Forall (λ c, isspace c = false) s → strip s = s.
Proof.
  intros H. unfold strip, rstrip.
  assert (∀ t, Forall (λ c, isspace c = false) t → lstrip t = t) as Hl.
  { intros [|c t] Ht; [done|]. apply Forall_cons in Ht as [Hc _].
    cbn [lstrip]. by rewrite Hc. }
  rewrite (Hl s H), Hl; [apply reverse_involutive|].
  by apply Forall_reverse.
Qed.

Lemma isnumeric_spec s :
  isnumeric s = true ↔ s ≠ [] ∧ Forall (λ c, isnumeric_char c = true) s.
Proof.
  destruct s as [|c s]; [by split; [|intros [? _]]|].
  unfold isnumeric. rewrite forallb_forall, Forall_forall.
  setoid_rewrite list_elem_of_In. by split; [|intros [_ ?]].
Qed.

(** On a numeric string [zfill] only puts zeros in front. *)
Lemma zfill_numeric width s :
  isnumeric s = true → length s < width →
  zfill width s = replicate (width - length s) 48%N ++ s.
Proof.
  intros Hn Hlen. apply isnumeric_spec in Hn as [Hne Hall].
  unfold zfill. rewrite decide_False by lia.
  destruct s as [|c s]; [done|]. apply Forall_cons in Hall as [Hc _].
  by rewrite decide_False by by apply numeric_not_sign.
Qed.

Lemma strip_invisible_filter v :
  strip_invisible v =
    filter (λ c, c ≠ BOM) (filter (λ c, c ≠ NBSP) (filter (λ c, c ≠ ZWSP) (strip v))).
Proof. unfold strip_invisible. by rewrite !replace_char_filter. Qed.

Lemma strip_invisible_absent v c :
  c ∈ strip_invisible v → c ≠ ZWSP ∧ c ≠ NBSP ∧ c ≠ BOM.
Proof.
  rewrite strip_invisible_filter, !list_elem_of_filter. tauto.
Qed.

(** A string without surrounding whitespace and without the three
    invisible characters is left alone. *)
Lemma strip_invisible_id x :
  strip x = x → ZWSP ∉ x → NBSP ∉ x → BOM ∉ x → strip_invisible x = x.
Proof.
  intros Hs Hz Hn Hb. unfold strip_invisible. rewrite Hs.
  rewrite (replace_char_id ZWSP) by done.
  rewrite (replace_char_id NBSP) by done.
  by apply replace_char_id.
Qed.

Lemma strip_invisible_numeric x :
  Forall (λ c, isnumeric_char c = true) x → strip_invisible x = x.
Proof.
  intros H. rewrite Forall_forall in H.
  apply strip_invisible_id.
  - apply strip_id, Forall_forall. intros c Hc. by apply numeric_not_space, H.
  - intros Hin%H%numeric_not_invisible. tauto.
  - intros Hin%H%numeric_not_invisible. tauto.
  - intros Hin%H%numeric_not_invisible. tauto.
Qed.

(** What [clean_isbn] returns, with the padding written out. *)
Lemma clean_isbn_unfold v :
  clean_isbn (Some v) =
    let x := strip_invisible v in
    if isnumeric x && bool_decide (length x < 13)
    then replicate (13 - length x) 48%N ++ x else x.
Proof.
  unfold clean_isbn. cbv zeta.
  destruct (isnumeric _) eqn:Hn; [|done]. cbn [andb].
  case_bool_decide; [|done]. by apply zfill_numeric.
Qed.

(** A padded identifier is a fixed point. *)
Lemma clean_isbn_padded x :
  isnumeric x = true → length x < 13 →
  clean_isbn (Some (replicate (13 - length x) 48%N ++ x)) =
    replicate (13 - length x) 48%N ++ x.
Proof.
  intros Hn Hlen. apply isnumeric_spec in Hn as [_ Hall].
  assert (Forall (λ c, isnumeric_char c = true) (replicate (13 - length x) 48%N ++ x)) as Hr.
  { apply Forall_app. split; [|done]. by apply Forall_replicate. }
  rewrite clean_isbn_unfold. cbv zeta. rewrite (strip_invisible_numeric _ Hr).
  rewrite bool_decide_eq_false_2, andb_false_r; [done|].
  rewrite length_app, length_replicate. lia.
Qed.

(** Where a second pass changes nothing: the cleaned string has no
    whitespace left at its ends. *)
Lemma clean_isbn_stable v :
  strip (strip_invisible v) = strip_invisible v →
  clean_isbn (Some (clean_isbn (Some v))) = clean_isbn (Some v).
Proof.
  intros Hs. rewrite (clean_isbn_unfold v). cbv zeta.
  destruct (isnumeric (strip_invisible v)) eqn:Hn; cbn [andb].
  - case_bool_decide as Hlen; [by apply clean_isbn_padded|].
    rewrite clean_isbn_unfold. cbv zeta.
    rewrite strip_invisible_id; [by rewrite Hn, bool_decide_eq_false_2|done|..];
      intros Hin; apply strip_invisible_absent in Hin; tauto.
  - rewrite clean_isbn_unfold. cbv zeta.
    rewrite strip_invisible_id; [by rewrite Hn|done|..];
      intros Hin; apply strip_invisible_absent in Hin; tauto.
Qed.

(** A string that neither starts nor ends with whitespace is not changed
    by [strip]. *)
Lemma strip_fix t :
  (∀ c, head t = Some c → isspace c = false) →
  (∀ c, last t = Some c → isspace c = false) → strip t = t.
Proof.
  intros Hhead Hlast.
  assert (∀ u, (∀ c, head u = Some c → isspace c = false) → lstrip u = u) as Hl.
  { intros [|c u] Hu; [done|]. cbn [lstrip]. by rewrite (Hu c). }
  unfold strip, rstrip. rewrite (Hl t Hhead), Hl; [apply reverse_involutive|].
  intros c Hc. apply Hlast. by rewrite <- head_reverse.
Qed.

(** A filter that keeps every character other than whitespace leaves the
    ends of such a string in place. *)
Lemma strip_filter_fix (P : N → Prop) `{!∀ x, Decision (P x)} t :
  (∀ c, isspace c = false → P c) →
  (∀ c, head t = Some c → isspace c = false) →
  (∀ c, last t = Some c → isspace c = false) →
  strip (filter P t) = filter P t.
Proof.
  intros HP Hhead Hlast. apply strip_fix.
  - intros c Hc. destruct t as [|c' t]; [done|].
    rewrite filter_cons_True in Hc by (apply HP, Hhead; done).
    injection Hc as <-. by apply Hhead.
  - intros c Hc. rewrite <- head_reverse, <- filter_reverse in Hc.
    destruct (reverse t) as [|c' u] eqn:Hrev; [done|].
    assert (last t = Some c') as Hc' by by rewrite <- head_reverse, Hrev.
    rewrite filter_cons_True in Hc by (apply HP, Hlast; done).
    injection Hc as <-. by apply Hlast.
Qed.

(** On an input without U+200B and U+FEFF a second pass changes nothing. *)
Lemma clean_isbn_idempotent_plain v :
  ZWSP ∉ v → BOM ∉ v →
  clean_isbn (Some (clean_isbn (Some v))) = clean_isbn (Some v).
Proof.
  intros Hz Hb. apply clean_isbn_stable.
  destruct (strip_spec v) as (a & b & Hv & _ & _ & Hhead & Hlast).
  assert ((ZWSP ∉ strip v) ∧ (BOM ∉ strip v)) as [Hz' Hb'].
  { split; intros Hin; [apply Hz|apply Hb]; rewrite Hv;
      apply elem_of_app; right; apply elem_of_app; by left. }
  rewrite strip_invisible_filter.
  rewrite (filter_all (λ c, c ≠ ZWSP)) by (intros c Hc ->; done).
  rewrite (filter_all (λ c, c ≠ BOM)).
  - apply strip_filter_fix; [|done..]. intros c Hc ->. by vm_compute in Hc.
  - intros c [_ Hc]%list_elem_of_filter ->. done.
Qed.

(** The result holds none of the three invisible characters. *)
Lemma clean_isbn_visible v c :
  c ∈ clean_isbn (Some v) → c ≠ ZWSP ∧ c ≠ NBSP ∧ c ≠ BOM.
Proof.
  rewrite clean_isbn_unfold. cbv zeta.
  destruct (isnumeric (strip_invisible v) && _) eqn:Hn;
    [|apply strip_invisible_absent].
  apply andb_true_iff in Hn as [[_ Hall]%isnumeric_spec _].
  rewrite Forall_forall in Hall.
  intros [[-> _]%elem_of_replicate|Hin%Hall]%elem_of_app;
    by apply numeric_not_invisible.
Qed.

(** After two passes the identifier no longer changes. *)
Lemma clean_isbn_settles v :
  clean_isbn (Some (clean_isbn (Some (clean_isbn (Some v))))) =
    clean_isbn (Some (clean_isbn (Some v))).
Proof.
  apply clean_isbn_idempotent_plain; intros Hin%clean_isbn_visible; tauto.
Qed.

Lemma isspace_cases c :
  isspace c = true →
  c ∈ [9; 10; 11; 12; 13; 28; 29; 30; 31; 32; 133; 160; 5760; 8192; 8193; 8194;
       8195; 8196; 8197; 8198; 8199; 8200; 8201; 8202; 8232; 8233; 8239; 8287;
       12288]%N.
Proof.
  intros (r & Hr & Hlo & Hhi)%in_ranges_spec.
  match goal with |- c ∈ ?l => destruct (decide (c ∈ l)) as [|Hn]; [done|] end.
  exfalso. rewrite !not_elem_of_cons in Hn. unfold space_table in Hr.
  repeat (apply elem_of_cons in Hr as [->|Hr]); [cbn in Hlo, Hhi; lia..|].
  by apply elem_of_nil in Hr.
Qed.

(** The whitespace characters of [str.isspace], one by one. *)
Lemma isspace_points c :
  isspace c = true ↔
  c ∈ [9; 10; 11; 12; 13; 28; 29; 30; 31; 32; 133; 160; 5760; 8192; 8193; 8194;
       8195; 8196; 8197; 8198; 8199; 8200; 8201; 8202; 8232; 8233; 8239; 8287;
       12288]%N.
Proof.
  split; [apply isspace_cases|]. intros H.
  repeat (apply elem_of_cons in H as [->|H]); [by vm_compute..|].
  by apply elem_of_nil in H.
Qed.

(** A decidable property of the 128 ASCII code points is settled by
    running through them. *)
Lemma ascii_forall (P : N → Prop) `{!∀ c, Decision (P c)} :
  Forall P (N.of_nat <$> seq 0 128) → ∀ c, (c < 128)%N → P c.
Proof.
  intros Hall c Hc. rewrite Forall_forall in Hall. apply Hall.
  apply list_elem_of_fmap. exists (N.to_nat c). split; [by rewrite N2Nat.id|].
  apply elem_of_seq. lia.
Qed.

(** C5. [clean_isbn] is defined on every optional string; the missing
    value gives the empty string; any other input is stripped of
    surrounding whitespace and of U+200B, U+00A0 and U+FEFF, and the
    result is left-padded with zeros to 13 characters when it is purely
    numeric and shorter than 13, and returned as it is otherwise.

    The stripping is stated by what it does: [strip v] is what is left of
    [v] when a run of whitespace is cut off each end, and it neither starts
    nor ends with whitespace; the whitespace characters are listed. The
    samples have blanks, a tab and a line feed around the digits, each of
    the three invisible characters, and strings that are not numeric. *)
Theorem clean_isbn_spec :
  clean_isbn None = py "" ∧
  (∀ v : pystr,
     (∃ a b, v = a ++ strip v ++ b ∧
        Forall (λ c, isspace c = true) a ∧ Forall (λ c, isspace c = true) b ∧
        (∀ c, head (strip v) = Some c → isspace c = false) ∧
        (∀ c, last (strip v) = Some c → isspace c = false)) ∧
     let x := filter (λ c, c ≠ BOM)
                (filter (λ c, c ≠ NBSP) (filter (λ c, c ≠ ZWSP) (strip v))) in
     clean_isbn (Some v) =
       if isnumeric x && bool_decide (length x < 13)
       then replicate (13 - length x) 48%N ++ x else x) ∧
  (∀ c, isspace c = true ↔
     c ∈ [9; 10; 11; 12; 13; 28; 29; 30; 31; 32; 133; 160; 5760; 8192; 8193; 8194;
          8195; 8196; 8197; 8198; 8199; 8200; 8201; 8202; 8232; 8233; 8239; 8287;
          12288]%N) ∧
  clean_isbn (Some (py "123")) = py "0000000000123" ∧
  clean_isbn (Some (py "9780134685991")) = py "9780134685991" ∧
  clean_isbn (Some (py " 123 ")) = py "0000000000123" ∧
  clean_isbn (Some ([9%N] ++ py "9780134685991" ++ [13; 10]%N)) = py "9780134685991" ∧
  clean_isbn (Some (py "12" ++ [NBSP] ++ py "3")) = py "0000000000123" ∧
  clean_isbn (Some (ZWSP :: py "123")) = py "0000000000123" ∧
  clean_isbn (Some (BOM :: py "123" ++ [BOM])) = py "0000000000123" ∧
  clean_isbn (Some (py "12 3")) = py "12 3" ∧
  clean_isbn (Some (py " abc ")) = py "abc" ∧
  clean_isbn (Some (py "-123")) = py "-123" ∧
  clean_isbn (Some (py "12345678901234")) = py "12345678901234" ∧
  clean_isbn (Some (py "")) = py "".
Proof.
  split; [done|]. split; [|split; [apply isspace_points|by vm_compute]].
  intros v. split; [apply strip_spec|].
  rewrite clean_isbn_unfold. by rewrite strip_invisible_filter.
Qed.

(** C6. [clean_isbn] applied twice differs from [clean_isbn] applied once
    on U+200B followed by [" 123"]: the first pass strips nothing (U+200B
    is no whitespace), then removes U+200B and returns [" 123"]; the
    second pass strips the blank and pads. *)
Theorem clean_isbn_twice_differs :
  clean_isbn (Some (ZWSP :: py " 123")) = py " 123" ∧
  clean_isbn (Some (clean_isbn (Some (ZWSP :: py " 123")))) = py "0000000000123" ∧
  clean_isbn (Some (clean_isbn (Some (ZWSP :: py " 123")))) ≠
    clean_isbn (Some (ZWSP :: py " 123")).
Proof. by vm_compute. Qed.

(** C10, as the code has it. The numeric test is [str.isnumeric] on the
    cleaned string: a non-empty string of fewer than 13 Unicode numeric
    characters is left-padded with ASCII zeros to 13 characters (it has
    nothing to strip); when the cleaned string holds a character that is
    not numeric, the cleaned string is returned. The samples are the
    Arabic-Indic digits 1 2 3, the fullwidth digits 1 2 3, superscript one
    and circled one, then ["123-456"] and ["12.5"]. *)
Theorem clean_isbn_unicode_numeric (v : pystr) :
  (v ≠ [] → Forall (λ c, isnumeric_char c = true) v → length v < 13 →
   clean_isbn (Some v) = replicate (13 - length v) 48%N ++ v ∧
   length (clean_isbn (Some v)) = 13) ∧
  (Exists (λ c, isnumeric_char c = false) (strip_invisible v) →
   clean_isbn (Some v) = strip_invisible v) ∧
  clean_isbn (Some [1633; 1634; 1635]%N) = py "0000000000" ++ [1633; 1634; 1635]%N ∧
  clean_isbn (Some [65297; 65298; 65299]%N) = py "0000000000" ++ [65297; 65298; 65299]%N ∧
  clean_isbn (Some [185%N]) = py "000000000000" ++ [185%N] ∧
  clean_isbn (Some [9312%N]) = py "000000000000" ++ [9312%N] ∧
  clean_isbn (Some (py "123-456")) = py "123-456" ∧
  clean_isbn (Some (py "12.5")) = py "12.5".
Proof.
  split; [|split; [|by vm_compute]].
  - intros Hne Hall Hlen. rewrite clean_isbn_unfold. cbv zeta.
    rewrite strip_invisible_numeric by done.
    assert (isnumeric v = true) as -> by by apply isnumeric_spec.
    rewrite bool_decide_eq_true_2 by done. cbn [andb]. split; [done|].
    rewrite length_app, length_replicate. lia.
  - intros Hex. rewrite clean_isbn_unfold. cbv zeta.
    assert (isnumeric (strip_invisible v) = false) as ->; [|done].
    apply not_true_is_false. intros [_ Hall]%isnumeric_spec.
    apply Exists_exists in Hex as (c & Hin & Hc).
    rewrite Forall_forall in Hall. specialize (Hall c Hin). congruence.
Qed.

(** Circled one is padded; "12.5" comes back as it is. *)
Lemma clean_isbn_unicode_numeric_witness :
  clean_isbn (Some [9312%N]) = replicate 12 48%N ++ [9312%N] ∧
  clean_isbn (Some (py "12.5")) = py "12.5".
Proof.
  split.
  - destruct (clean_isbn_unicode_numeric [9312%N]) as [H _].
    destruct H as [H _]; [done|by repeat constructor|cbn; lia|exact H].
  - destruct (clean_isbn_unicode_numeric (py "12.5")) as (_ & H & _).
    apply H. apply Exists_cons_tl, Exists_cons_tl, Exists_cons_hd. by vm_compute.
Defined.

(** C10 as stated fails on [" 123"], which holds a character that is not
    numeric and is padded all the same, and on the empty string, which is
    not padded. *)
Lemma clean_isbn_unicode_numeric_blank :
  Exists (λ c, isnumeric_char c = false) (py " 123") ∧
  clean_isbn (Some (py " 123")) = py "0000000000123" ∧
  clean_isbn (Some (py " 123")) ≠ py " 123" ∧
  Forall (λ c, isnumeric_char c = true) (py "") ∧
  clean_isbn (Some (py "")) = py "".
Proof.
  split; [apply Exists_cons_hd; by vm_compute|].
  split; [by vm_compute|]. split; [by vm_compute|]. split; [constructor|by vm_compute].
Qed.

(** ** HeaderDetector *)

Lemma startswith_spec sub s : startswith sub s = true ↔ ∃ b, s = sub ++ b.
Proof.
  revert s. induction sub as [|a sub IH]; intros s; cbn.
  - split; [by exists s|done].
  - destruct s as [|c s]; [split; [done|by intros [? ?]]|].
    rewrite andb_true_iff, bool_decide_eq_true, IH. split.
    + intros [-> [b ->]]. by exists b.
    + intros [b [= -> ->]]. split; [done|by exists b].
Qed.

Lemma contains_spec sub s : contains sub s = true ↔ substring sub s.
Proof.
  unfold substring. induction s as [|c s IH]; cbn [contains].
  - rewrite orb_false_r, startswith_spec. split.
    + intros [b Hb]. by exists [], b.
    + intros (a & b & Hab). symmetry in Hab.
      apply app_eq_nil in Hab as [-> [-> ->]%app_eq_nil]. by exists [].
  - rewrite orb_true_iff, startswith_spec, IH. split.
    + intros [[b Hb] | (a & b & ->)]; [by exists [], b|by exists (c :: a), b].
    + intros ([|c' a] & b & Hab); [left; by exists b|right].
      injection Hab as -> ->. by exists a, b.
Qed.

Lemma is_id_name_spec v :
  is_id_name v = true ↔
    let t := filter (λ c, c ≠ SPACE) v in
    substring (py "ISBN13") t ∨ substring (py "EAN") t.
Proof.
  unfold is_id_name. by rewrite orb_true_iff, !contains_spec, replace_char_filter.
Qed.

Lemma header_row_spec row : header_row row = true ↔ spec_header_row row.
Proof.
  unfold header_row, spec_header_row. rewrite existsb_exists. split.
  - intros (t & Hin & Ht). apply list_elem_of_In, list_elem_of_fmap in Hin as (v & -> & Hv).
    exists v. split; [done|]. by apply is_id_name_spec.
  - intros (v & Hv & Ht). exists (strip_punct (upper (astype_str v))). split.
    + apply list_elem_of_In.
      by apply (list_elem_of_fmap_2 (λ v, strip_punct (upper (astype_str v)))).
    + by apply is_id_name_spec.
Qed.

(** The loop returns the first index whose row passes the test. *)
Lemma scan_rows_Ok df : ∀ i k,
  scan_rows i df = Ok k ↔
    ∃ j, k = i + j ∧ (∃ row, df !! j = Some row ∧ header_row row = true) ∧
         ∀ j' row, j' < j → df !! j' = Some row → header_row row = false.
Proof.
  induction df as [|r df IH]; intros i k; cbn [scan_rows].
  - split; [done|]. by intros (j & _ & (row & Hrow & _) & _).
  - destruct (header_row r) eqn:Hr.
    + split.
      * intros [= <-]. exists 0. split; [lia|]. split; [by exists r|]. lia.
      * intros (j & -> & (row & Hrow & Hm) & Hbefore).
        destruct j as [|j]; [f_equal; lia|].
        specialize (Hbefore 0 r). cbn in Hbefore. rewrite Hr in Hbefore.
        discriminate Hbefore; [lia|done].
    + rewrite IH. split.
      * intros (j & -> & Hj & Hbefore). exists (S j). split; [lia|]. split; [done|].
        intros [|j'] row Hlt; cbn; [by intros [= <-]|]. apply Hbefore. lia.
      * intros ([|j] & -> & (row & Hrow & Hm) & Hbefore); cbn in Hrow.
        { injection Hrow as ->. congruence. }
        exists j. split; [lia|]. split; [by exists row|].
        intros j' row' Hlt. apply (Hbefore (S j')). lia.
Qed.

Lemma scan_rows_Raise df : ∀ i e,
  scan_rows i df = Raise e ↔
    e = KeyError "No valid header row found." ∧
    ∀ j row, df !! j = Some row → header_row row = false.
Proof.
  induction df as [|r df IH]; intros i e; cbn [scan_rows].
  - split; [by intros [= <-]|by intros [-> _]].
  - destruct (header_row r) eqn:Hr.
    + split; [done|]. intros [_ H]. specialize (H 0 r eq_refl). congruence.
    + rewrite IH. split.
      * intros [-> H]. split; [done|]. intros [|j] row; cbn; [by intros [= <-]|apply H].
      * intros [-> H]. split; [done|]. intros j row. apply (H (S j)).
Qed.

(** C4. The header scan looks at the first 20 rows only. It returns the
    index of the first of them that has a cell which, uppercased, without
    punctuation and without blanks, contains "ISBN13" or "EAN"; it raises
    the header-not-found error exactly when none of them has one, and it
    raises nothing else once the rows are read.

    The uppercasing and the removal of punctuation work character by
    character, and are stated for every ASCII character: the letters a-z
    go to A-Z and nothing else changes; letters, digits, the underscore
    and whitespace are kept and every other character is removed. The
    samples are headers in lower case, with punctuation and with blanks
    inside the word, a cell that only contains "EAN" inside another word,
    rows without a match, a missing cell, and a header in row 19 and in
    row 20 of a sheet. A file whose name ends in ".csv", in any case, is
    read as CSV, any other as a workbook. *)
Theorem detect_header_first_match (f : file_obj) (df : list (list (option pystr))) :
  sheet f (reader_of f) = Ok df →
  (∀ i, detect_header f = Ok i ↔
        i < 20 ∧ (∃ row, df !! i = Some row ∧ spec_header_row row) ∧
        ∀ j row, j < i → df !! j = Some row → ¬ spec_header_row row) ∧
  (detect_header f = Raise (KeyError "No valid header row found.") ↔
        ∀ j row, j < 20 → df !! j = Some row → ¬ spec_header_row row) ∧
  (∀ e, detect_header f = Raise e → e = KeyError "No valid header row found.") ∧
  (∀ c, (c < 128)%N →
     upper [c] = [if decide (97 ≤ c ∧ c ≤ 122)%N then (c - 32)%N else c]) ∧
  (∀ c, (c < 128)%N →
     strip_punct [c] =
       if decide ((48 ≤ c ∧ c ≤ 57) ∨ (65 ≤ c ∧ c ≤ 90) ∨ (97 ≤ c ∧ c ≤ 122) ∨ c = 95 ∨
                  (9 ≤ c ∧ c ≤ 13) ∨ (28 ≤ c ∧ c ≤ 32))%N
       then [c] else []) ∧
  (∀ s t, upper (s ++ t) = upper s ++ upper t) ∧
  (∀ s t, strip_punct (s ++ t) = strip_punct s ++ strip_punct t) ∧
  detect_header (workbook sheet_lower_header) = Ok 2 ∧
  detect_header (workbook [[Some (py "Title"); Some (py "e.a.n")]]) = Ok 0 ∧
  detect_header (workbook [[Some (py "I S B N 1 3")]]) = Ok 0 ∧
  detect_header (workbook [[Some (py "Ocean freight")]]) = Ok 0 ∧
  detect_header (workbook [[Some (py "isbn"); None]; [Some (py "isbn 10"); Some (py "ea-")]]) =
    Raise (KeyError "No valid header row found.") ∧
  detect_header (workbook (replicate 19 [Some (py "x")] ++ [[Some (py "ean")]])) = Ok 19 ∧
  detect_header (workbook (replicate 20 [Some (py "x")] ++ [[Some (py "ean")]])) =
    Raise (KeyError "No valid header row found.") ∧
  detect_header (workbook []) = Raise (KeyError "No valid header row found.") ∧
  (∀ sh tb, reader_of (mkFile (Some (py "Stock.CSV")) sh tb) = read_csv ∧
            reader_of (mkFile (Some (py "stock.xlsx")) sh tb) = read_excel ∧
            reader_of (mkFile None sh tb) = read_excel).
Proof.
  intros Hsheet.
  assert (detect_header f = scan_rows 0 (take 20 df)) as ->.
  { unfold detect_header, read_rows. by rewrite Hsheet. }
  assert (∀ row, header_row row = false ↔ ¬ spec_header_row row) as Hneg.
  { intros row. rewrite <- header_row_spec. by destruct (header_row row). }
  split; [|split; [|split]].
  - intros i. rewrite scan_rows_Ok. split.
    + intros (j & -> & (row & Hrow & Hm) & Hbefore).
      apply lookup_take_Some in Hrow as [Hrow Hlt]. cbn. split; [done|]. split.
      * exists row. by rewrite <- header_row_spec.
      * intros j' row' Hj' Hrow'. apply Hneg, (Hbefore j'); [done|].
        apply lookup_take_Some. split; [done|lia].
    + intros (Hlt & (row & Hrow & Hm) & Hbefore). exists i. split; [done|]. split.
      * exists row. split; [by apply lookup_take_Some|by apply header_row_spec].
      * intros j' row' Hj' [Hrow' _]%lookup_take_Some. by apply Hneg, (Hbefore j').
  - rewrite scan_rows_Raise. split.
    + intros [_ H] j row Hj Hrow. apply Hneg, (H j). by apply lookup_take_Some.
    + intros H. split; [done|]. intros j row [Hrow Hj]%lookup_take_Some.
      by apply Hneg, (H j).
  - by intros e [-> _]%scan_rows_Raise.
  - split; [|split; [|split; [|split]]].
    + apply (ascii_forall (λ c, upper [c] = _)).
      apply (bool_decide_unpack _). by vm_compute.
    + apply (ascii_forall (λ c, strip_punct [c] = _)).
      apply (bool_decide_unpack _). by vm_compute.
    + intros s t. unfold upper. by rewrite bind_app.
    + intros s t. unfold strip_punct. by rewrite filter_app.
    + repeat split; by vm_compute.
Qed.

(** A sheet whose row 2 holds the cell "isbn-13 (new)". *)
Lemma detect_header_first_match_witness :
  detect_header (workbook sheet_lower_header) = Ok 2.
Proof.
  destruct (detect_header_first_match (workbook sheet_lower_header) sheet_lower_header)
    as [Hok _]; [reflexivity|].
  apply Hok. split; [lia|]. split.
  - eexists. split; [reflexivity|]. apply header_row_spec. evaluate.
  - intros j row Hj Hrow Hm. apply header_row_spec in Hm.
    destruct j as [|[|j]]; [| |lia]; injection Hrow as <-; vm_compute in Hm;
      discriminate.
Defined.

(** ** ExclusionSetLoader *)

(** C9. [extract_isbns] always returns a set. When the sheet is read, the
    set holds exactly the normalised values of the cells whose string form
    is purely numeric, and nothing is logged; when the reader raises, the
    set is empty and the exception is logged, not raised.

    A string is purely numeric when it is not empty and all its characters
    are numeric; among the ASCII characters these are the digits; a
    missing cell has the string form "nan". The sample sheet holds the
    cells "123", " 456", a missing cell, "abc", "9780134685991" and
    "12.5": the set holds the padded "123" and "9780134685991" and nothing
    for the other four. The other sample is a file that the reader
    rejects. *)
Theorem extract_isbns_total (f : file_obj) :
  (∃ rset, (extract_isbns f).1 = Ok rset) ∧
  match sheet f read_excel with
  | Ok df =>
    ∃ rset, extract_isbns f = (Ok rset, []) ∧
      ∀ x, x ∈ rset ↔
           ∃ v, v ∈ concat df ∧ isnumeric (astype_str v) = true ∧ x = clean_isbn v
  | Raise e =>
    extract_isbns f = (Ok ∅, [log_error "Error reading ISBN removal file" e])
  end ∧
  (∀ s, isnumeric s = true ↔ s ≠ [] ∧ Forall (λ c, isnumeric_char c = true) s) ∧
  (∀ c, (c < 128)%N → isnumeric_char c = bool_decide (48 ≤ c ∧ c ≤ 57)%N) ∧
  astype_str None = py "nan" ∧
  (∃ rset, extract_isbns (workbook removal_mixed_sheet) = (Ok rset, []) ∧
     ∀ x, x ∈ rset ↔ x = py "0000000000123" ∨ x = py "9780134685991") ∧
  extract_isbns unreadable_file =
    (Ok ∅, [log_error "Error reading ISBN removal file"
              (ValueError "Excel file format cannot be determined")]).
Proof.
  split; [|split; [|split; [apply isnumeric_spec|split; [|split; [done|split]]]]].
  - unfold extract_isbns, read_rows. destruct (sheet f read_excel); cbn; by eexists.
  - unfold extract_isbns, read_rows. destruct (sheet f read_excel) as [df|e]; cbn; [|done].
    eexists. split; [done|]. intros x.
    rewrite elem_of_list_to_set, list_elem_of_fmap.
    setoid_rewrite list_elem_of_filter. split.
    + intros (v & -> & Hn & Hin). by exists v.
    + intros (v & Hin & Hn & ->). by exists v.
  - apply (ascii_forall (λ c, isnumeric_char c = _)).
    apply (bool_decide_unpack _). by vm_compute.
  - exists (list_to_set [py "0000000000123"; py "9780134685991"]).
    split; [evaluate|]. intros x.
    rewrite elem_of_list_to_set, !elem_of_cons, elem_of_nil. tauto.
  - by vm_compute.
Qed.

(** ** Rows and columns *)

Lemma row_get_zip_with {A B} (k : label → A → B) x cols (row : list A) :
  row_get x cols (zip_with k cols row) = k x <$> row_get x cols row.
Proof.
  revert row. induction cols as [|l cols IH]; intros [|v row]; cbn; try done.
  destruct (decide (l = x)) as [->|]; [done|apply IH].
Qed.

Lemma row_get_fmap {A B} (g : A → B) x cols (row : list A) :
  row_get x cols (g <$> row) = g <$> row_get x cols row.
Proof.
  revert row. induction cols as [|l cols IH]; intros [|v row]; cbn; try done.
  destruct (decide (l = x)); [done|apply IH].
Qed.

Lemma row_get_None {A} x cols (row : list A) : x ∉ cols → row_get x cols row = None.
Proof.
  revert row. induction cols as [|l cols IH]; intros [|v row] Hx; cbn; try done.
  apply not_elem_of_cons in Hx as [Hne Hx]. rewrite decide_False by done. by apply IH.
Qed.

Lemma row_get_is_Some {A} x cols (row : list A) :
  x ∈ cols → length row = length cols → is_Some (row_get x cols row).
Proof.
  revert row. induction cols as [|l cols IH]; intros row Hx Hlen.
  - by apply elem_of_nil in Hx.
  - destruct row as [|v row]; [done|]. cbn. destruct (decide (l = x)); [by eexists|].
    apply IH; [|by injection Hlen]. apply elem_of_cons in Hx as [->|]; done.
Qed.

(** Behind a block of columns that does not carry the label. *)
Lemma row_get_app_skip {A} x cols1 cols2 (row1 row2 : list A) :
  x ∉ cols1 → length row1 = length cols1 →
  row_get x (cols1 ++ cols2) (row1 ++ row2) = row_get x cols2 row2.
Proof.
  revert row1. induction cols1 as [|l cols1 IH]; intros [|v row1] Hx Hlen; try done.
  apply not_elem_of_cons in Hx as [Hne Hx]. cbn. rewrite decide_False by done.
  apply IH; [done|by injection Hlen].
Qed.

(** Inside a block of columns that carries the label. *)
Lemma row_get_app_here {A} x cols1 cols2 (row1 row2 : list A) (v : A) :
  row_get x cols1 row1 = Some v →
  row_get x (cols1 ++ cols2) (row1 ++ row2) = Some v.
Proof.
  revert row1. induction cols1 as [|l cols1 IH]; intros [|w row1]; cbn; try done.
  destruct (decide (l = x)); [done|apply IH].
Qed.

(** Selecting by a mask computed row by row is filtering the rows. *)
Lemma select_rows_filter {A} (q : list A → bool) (df : DataFrame A) :
  select_rows (q <$> rows df) df =
    mkDataFrame (columns df) (filter (λ row, q row = true) (rows df)).
Proof.
  unfold select_rows. f_equal. induction (rows df) as [|row rs IH]; [done|].
  cbn [fmap list_fmap zip zip_with]. rewrite !filter_cons. cbn.
  destruct (decide (q row = true)); cbn; by rewrite IH.
Qed.

Lemma length_pick {B C} keep cols (xs : list B) (ys : list C) :
  length xs = length ys → length (pick keep cols xs) = length (pick keep cols ys).
Proof.
  intros Hlen. unfold pick. induction keep as [|x keep IH]; [done|].
  cbn. rewrite !length_app, IH. f_equal. rewrite !length_fmap.
  clear IH. revert xs ys Hlen.
  induction cols as [|l cols IHc]; intros [|a xs] [|b ys] Hlen; try done.
  cbn [zip_with]. rewrite !filter_cons. cbn [fst]. injection Hlen as Hlen.
  destruct (decide (l = Some x)); cbn [length]; by rewrite (IHc xs ys).
Qed.

Lemma elem_of_pick_columns keep cols l :
  l ∈ pick keep cols cols ↔ l ∈ cols ∧ ∃ x, l = Some x ∧ x ∈ keep.
Proof.
  unfold pick. rewrite list_elem_of_bind. split.
  - intros (x & Hl & Hx).
    apply list_elem_of_fmap in Hl as ([l1 l2] & -> & Hin).
    apply list_elem_of_filter in Hin as [Heq Hin]. cbn in *. subst l1.
    apply elem_of_zip_same in Hin as [<- Hin]. split; [done|by exists x].
  - intros (Hl & x & -> & Hx). exists x. split; [|done].
    apply (list_elem_of_fmap_2' _ _ (Some x, Some x)); [|done].
    apply list_elem_of_filter. split; [done|].
    clear Hx. induction cols as [|c cols IH]; [by apply elem_of_nil in Hl|].
    cbn [zip_with]. apply elem_of_cons in Hl as [<-|Hl]; [left|right; by apply IH].
Qed.

Lemma result_bind_Ok {A B} (m : result A) (k : A → result B) b :
  m ≫= k = Ok b ↔ ∃ a, m = Ok a ∧ k a = Ok b.
Proof.
  destruct m as [a|e]; cbn; [|by split; [|intros (? & ? & _)]].
  split; [by exists a|]. by intros (a' & [= <-] & ?).
Qed.

(** ** SchemaResolver *)

(** A cleaned label holds word characters and whitespace only, so it is
    never the label "EAN #". *)
Lemma clean_label_not_ean_hash (l : label) : clean_label l ≠ Some (py "EAN #").
Proof.
  destruct l as [s|]; [|done]. cbn. intros [= H].
  assert (35%N ∈ strip_punct (upper (strip s))) as Hin.
  { rewrite H. vm_compute. do 4 right. left. }
  unfold strip_punct in Hin. apply list_elem_of_filter in Hin as [Hin _].
  vm_compute in Hin. done.
Qed.

Lemma next_col_Some p cols c :
  next_col p cols = Ok (Some c) → Some c ∈ cols ∧ p c = true.
Proof.
  induction cols as [|[col|] cols IH]; cbn; [done| |done].
  destruct (p col) eqn:Hp.
  - intros [= ->]. split; [left|done].
  - intros [? ?]%IH. split; [by right|done].
Qed.

(** The first cell of the block picked for a label is the first cell
    under that label. *)
Lemma row_get_block {A} x cols (row : list A) restc (restr : list A) :
  Some x ∈ cols → length row = length cols →
  row_get (Some x)
    (((λ p : label * label, p.2) <$> filter (λ p, p.1 = Some x) (zip cols cols)) ++ restc)
    (((λ p : label * A, p.2) <$> filter (λ p, p.1 = Some x) (zip cols row)) ++ restr) =
  row_get (Some x) cols row.
Proof.
  revert row. induction cols as [|l cols IHc]; intros [|v row] Hcols Hlen; try done.
  { by apply elem_of_nil in Hcols. }
  cbn [zip_with]. rewrite !filter_cons. cbn [fst].
  destruct (decide (l = Some x)) as [->|Hl]; cbn.
  - by rewrite !decide_True.
  - rewrite decide_False by done. apply elem_of_cons in Hcols as [?|Hcols]; [done|].
    apply IHc; [done|by injection Hlen].
Qed.

(** The first cell under a label survives the cut to the kept columns. *)
Lemma row_get_pick {A} x keep cols (row : list A) :
  x ∈ keep → Some x ∈ cols → length row = length cols →
  row_get (Some x) (pick keep cols cols) (pick keep cols row) = row_get (Some x) cols row.
Proof.
  intros Hkeep Hcols Hlen. unfold pick.
  induction keep as [|y keep IH]; [by apply elem_of_nil in Hkeep|].
  cbn [mbind list_bind]. destruct (decide (y = x)) as [->|Hne].
  - by apply row_get_block.
  - apply elem_of_cons in Hkeep as [?|Hkeep]; [done|].
    rewrite row_get_app_skip; [by apply IH| |].
    + intros ([l1 l2] & Hx & Hin)%list_elem_of_fmap.
      apply list_elem_of_filter in Hin as [Heq Hin]. cbn in *. subst l1 l2.
      apply elem_of_zip_same in Hin as [Heq _]. congruence.
    + rewrite !length_fmap. clear -Hlen. revert row Hlen.
      induction cols as [|l cols IHc]; intros [|v row] Hlen; try done.
      cbn [zip_with]. rewrite !filter_cons. cbn [fst]. injection Hlen as Hlen.
      destruct (decide (l = Some y)); cbn [length]; by rewrite IHc.
Qed.

Section FrameProperties.
Context {number : Type} `{!EqDecision number}.
Context (to_number : pystr → option number).
Implicit Types (df : DataFrame (cell number)) (raw : DataFrame (option pystr)).

(** What a successful [process_file] returns: the labels are the cleaned
    labels of the parsed frame, [c] is the first of them that names an
    identifier, and the rows are the parsed rows, each rewritten by one
    function [F] that keeps the length of the row and, unless the
    identifier column is also the quantity column, puts the normalised
    identifier under [c]. *)
Lemma process_file_Ok f df c :
  process_file to_number f = Ok (df, c) →
  ∃ h raw, detect_header f = Ok h ∧ table f (reader_of f) h = Ok raw ∧
    let src := clean_label <$> columns raw in
    columns df = src ∧ next_col is_id_name src = Ok (Some c) ∧
    ∃ F, rows df = F <$> rows raw ∧
      (∀ row, length row = length src → length (F row) = length src) ∧
      (next_col is_qty_name src ≠ Ok (Some c) →
       ∀ row, row_get (Some c) src (F row) =
              (λ v, Str (clean_isbn v)) <$> row_get (Some c) src row).
Proof.
  unfold process_file. intros (h & Hh & H)%result_bind_Ok.
  apply result_bind_Ok in H as (raw & Hraw & H).
  exists h, raw. split; [done|]. split; [done|]. cbv zeta in *.
  set (src := clean_label <$> columns raw) in *.
  apply result_bind_Ok in H as (oc & Hc & H). cbn [columns] in Hc.
  destruct oc as [c'|]; [|done].
  destruct (truthy (Some c')); [|done]. cbn [negb] in H.
  apply result_bind_Ok in H as (df1 & Hdf1 & H).
  set (k1 := λ (l : label) (v : option pystr),
               if decide (l = Some c') then Some (clean_isbn v) else id v).
  assert (columns df1 = src ∧ rows df1 = zip_with k1 src <$> rows raw) as [Hcols1 Hrows1].
  { unfold apply_clean_isbn in Hdf1. cbn [columns rows] in Hdf1.
    destruct (decide (occurrences (Some c') src = 1)); [by injection Hdf1 as <-|].
    destruct (decide (rows raw = [])) as [Hnil|]; [|done].
    injection Hdf1 as <-. by rewrite Hnil. }
  apply result_bind_Ok in H as (os & Hs & H). rewrite Hcols1 in Hs.
  assert (∀ row, length row = length src → length (zip_with k1 src row) = length src)
    as Hlen1 by (intros row Hrow; by apply length_zip_with_l_eq).
  assert (∀ row, row_get (Some c') src (zip_with k1 src row) =
                 (λ v, Some (clean_isbn v)) <$> row_get (Some c') src row) as Hget1.
  { intros row. rewrite row_get_zip_with. destruct (row_get _ _ row); [|done].
    cbn. unfold k1. by rewrite decide_True. }
  assert (os = None ∨ truthy os = false →
          Ok (as_cells df1, c') = Ok (df, c) →
    columns df = src ∧ next_col is_id_name src = Ok (Some c) ∧
    ∃ F, rows df = F <$> rows raw ∧
      (∀ row, length row = length src → length (F row) = length src) ∧
      (next_col is_qty_name src ≠ Ok (Some c) →
       ∀ row, row_get (Some c) src (F row) =
              (λ v, Str (clean_isbn v)) <$> row_get (Some c) src row)) as Hplain.
  { intros _ [= <- <-]. split; [done|]. split; [done|].
    exists (λ row, of_raw <$> zip_with k1 src row). cbn [as_cells rows]. split.
    { by rewrite Hrows1, <- list_fmap_compose. }
    split; [intros row Hrow; by rewrite length_fmap, Hlen1|].
    intros _ row. rewrite row_get_fmap, Hget1. by destruct (row_get _ _ row). }
  destruct os as [s|]; [|apply Hplain; [by left|exact H]].
  destruct (truthy (Some s)) eqn:Hts; [|apply Hplain; [by right|exact H]].
  apply result_bind_Ok in H as (df2 & Hdf2 & [= <- <-]).
  unfold to_numeric_column in Hdf2. rewrite Hcols1 in Hdf2.
  destruct (decide (occurrences (Some s) src = 1)); [|done].
  injection Hdf2 as <-. cbn [map_column columns rows]. rewrite Hcols1.
  split; [done|]. split; [done|].
  set (k2 := λ (l : label) (v : option pystr),
               if decide (l = Some s) then to_numeric to_number v else of_raw v).
  exists (λ row, zip_with k2 src (zip_with k1 src row)). split.
  { by rewrite Hrows1, <- list_fmap_compose. }
  split.
  { intros row Hrow. rewrite length_zip_with_l_eq; [done|]. by rewrite Hlen1. }
  intros Hne row. rewrite row_get_zip_with, Hget1.
  destruct (row_get _ _ row); [|done]. cbn. unfold k2.
  by rewrite decide_False by congruence.
Qed.

(** ** FileCleaner *)

Lemma reindex_Ok req fill df out :
  reindex req fill df = Ok out →
  out = mkDataFrame (Some <$> req)
          ((λ row, (λ x, default fill (row_get (Some x) (columns df) row)) <$> req)
             <$> rows df).
Proof. unfold reindex. case_decide; [by intros [= <-]|done]. Qed.

(** Lines 93-97 act row by row, in a way fixed by the labels of the
    frame alone. The resulting frame has a currency column, holding [cur]
    in every row, next to columns that the frame had and that are
    required; these keep their cells. *)
Lemma keep_required_shape req cur df :
  ∃ cols3 (h : list (cell number) → list (cell number)),
    (∀ df', columns df' = columns df →
            keep_required req cur df' = mkDataFrame cols3 (h <$> rows df')) ∧
    Some (py "CUR") ∈ cols3 ∧
    (∀ l, l ∈ cols3 →
          l = Some (py "CUR") ∨ (l ∈ columns df ∧ ∃ x, l = Some x ∧ x ∈ req)) ∧
    (∀ row, length row = length (columns df) →
            length (h row) = length cols3 ∧
            row_get (Some (py "CUR")) cols3 (h row) = Some (Str cur)) ∧
    (∀ x row, x ≠ py "CUR" → x ∈ req → Some x ∈ columns df →
              length row = length (columns df) →
              row_get (Some x) cols3 (h row) = row_get (Some x) (columns df) row).
Proof.
  set (cols := columns df).
  set (keep := filter (λ x, Some x ∈ cols) req).
  set (cols1 := pick keep cols cols).
  set (k := λ (l : label) (v : cell number),
              if decide (l = Some (py "CUR")) then Str cur else id v).
  assert (∀ l, l ∈ cols1 → l ∈ cols ∧ ∃ x, l = Some x ∧ x ∈ req) as Hcols1.
  { intros l (Hl & x & -> & [_ Hx]%list_elem_of_filter)%elem_of_pick_columns.
    split; [done|by exists x]. }
  assert (∀ row : list (cell number),
            length row = length cols → length (pick keep cols row) = length cols1)
    as Hlen1 by (intros row Hrow; by apply length_pick).
  assert (∀ x (row : list (cell number)), x ∈ req → Some x ∈ cols →
            length row = length cols →
            row_get (Some x) cols1 (pick keep cols row) = row_get (Some x) cols row)
    as Hget1.
  { intros x row Hx Hin Hrow. apply row_get_pick; [|done..].
    by apply list_elem_of_filter. }
  assert (∀ x l, x ≠ py "CUR" → k (Some x) l = l) as Hk.
  { intros x l Hx. unfold k. rewrite decide_False; [done|congruence]. }
  destruct (decide (Some (py "CUR") ∉ cols1)) as [Hno|Hyes].
  - exists (cols1 ++ [Some (py "CUR")]),
           (λ row, zip_with k (cols1 ++ [Some (py "CUR")])
                     (pick keep cols row ++ [Str (py "")])).
    split; [|split; [|split; [|split]]].
    + intros [cols' rows'] Hc. cbn in Hc. subst cols'.
      unfold keep_required, project. cbn [columns rows].
      fold cols keep cols1. rewrite decide_True by done.
      unfold setitem at 2. cbn [columns rows]. rewrite decide_False by done.
      unfold setitem. cbn [columns rows].
      rewrite decide_True by (apply elem_of_app; right; left).
      unfold map_column. cbn [columns rows]. f_equal.
      by rewrite <- !list_fmap_compose.
    + apply elem_of_app. right. left.
    + intros l [Hl|Hl%list_elem_of_singleton]%elem_of_app; [right; by apply Hcols1|by left].
    + intros row Hrow. split.
      * rewrite length_zip_with_l_eq; [done|]. rewrite !length_app. cbn.
        by rewrite Hlen1.
      * rewrite row_get_zip_with, row_get_app_skip; [|done|by apply Hlen1].
        cbn. rewrite decide_True by done. cbn. unfold k. by rewrite decide_True.
    + intros x row Hx Hreq Hin Hrow. rewrite row_get_zip_with.
      destruct (row_get_is_Some (Some x) cols row Hin Hrow) as [v Hv].
      rewrite (row_get_app_here _ _ _ _ _ v); [|by rewrite Hget1].
      cbn. by rewrite Hk, Hv.
  - apply dec_stable in Hyes.
    exists cols1, (λ row, zip_with k cols1 (pick keep cols row)).
    split; [|split; [|split; [|split]]].
    + intros [cols' rows'] Hc. cbn in Hc. subst cols'.
      unfold keep_required, project. cbn [columns rows].
      fold cols keep cols1. rewrite decide_False by (by intros ?).
      unfold setitem. cbn [columns rows]. rewrite decide_True by done.
      unfold map_column. cbn [columns rows]. f_equal.
      by rewrite <- !list_fmap_compose.
    + done.
    + intros l Hl. right. by apply Hcols1.
    + intros row Hrow. split.
      * rewrite length_zip_with_l_eq; [done|]. by rewrite Hlen1.
      * rewrite row_get_zip_with.
        destruct (row_get_is_Some (Some (py "CUR")) cols1 (pick keep cols row))
          as [v ->]; [done|by apply Hlen1|].
        cbn. unfold k. by rewrite decide_True.
    + intros x row Hx Hreq Hin Hrow. rewrite row_get_zip_with, Hget1 by done.
      destruct (row_get (Some x) cols row); [|done]. cbn. by rewrite Hk.
Qed.

(** [clean_file] written out for a file on which [process_file]
    succeeds. Every row of the parsed frame goes through one function
    [g], whatever the removal file is; the removal file only decides
    which rows are kept, by the cell [key row] that [process_file] left
    under the identifier column; and [final], the last step, either lays
    out any rows on the required columns or always refuses. *)
Lemma clean_file_eq f cur h raw df c :
  detect_header f = Ok h → table f (reader_of f) h = Ok raw → rectangular raw →
  process_file to_number f = Ok (df, c) →
  let src := clean_label <$> columns raw in
  let req := if decide (Some (py "ISBN13") ∈ src)
             then REQUIRED_COLUMNS_ISBN else REQUIRED_COLUMNS_EAN in
  next_col is_id_name src = Ok (Some c) ∧
  ∃ (g : list (option pystr) → list (cell number))
    (key : list (option pystr) → cell number)
    (final : list (list (cell number)) → result (DataFrame (cell number))),
    (∀ row, row ∈ rows raw →
       length (g row) = 12 ∧
       (∀ i x, req !! i = Some x →
          (x = py "CUR" → g row !! i = Some (Str cur)) ∧
          (x ≠ py "CUR" → Some x ∉ src → g row !! i = Some (Str (py "")))) ∧
       (next_col is_qty_name src ≠ Ok (Some c) →
          key row = Str (clean_isbn (mjoin (row_get (Some c) src row))) ∧
          (c = py "ISBN13" → g row !! 0 = Some (key row)))) ∧
    ((∀ rs, final rs = Ok (mkDataFrame (Some <$> req) rs)) ∨
     (∃ e, ∀ rs, final rs = Raise e)) ∧
    ∀ rem, clean_file to_number f cur rem =
      match rem with
      | None => (final (g <$> rows raw), [])
      | Some r =>
        match extract_isbns r with
        | (Ok rset, log) =>
          (final (g <$> filter (λ row, in_set rset (key row) = false) (rows raw)), log)
        | (Raise e, log) => (Raise e, log)
        end
      end.
Proof.
  intros Hh Hraw Hrect Hpf src req.
  destruct (process_file_Ok _ _ _ Hpf)
    as (h' & raw' & Hh' & Hraw' & Hcols & Hc & F & Hrows & HlenF & HgetF).
  rewrite Hh in Hh'. injection Hh' as <-. rewrite Hraw in Hraw'. injection Hraw' as <-.
  cbv zeta in Hcols, Hc, HlenF, HgetF. fold src in Hcols, Hc, HlenF, HgetF.
  split; [done|].
  destruct (keep_required_shape req cur df) as (cols3 & hh & Hkr & HCUR & Hcols3 & Hcur & Hkeep).
  rewrite Hcols in Hcols3, Hcur, Hkeep.
  set (R := λ row3 : list (cell number),
              (λ x, default (Str (py "")) (row_get (Some x) cols3 row3)) <$> req).
  exists (λ row, R (hh (F row))),
         (λ row, default NaN (row_get (Some c) src (F row))),
         (λ rs, if decide (NoDup cols3) then Ok (mkDataFrame (Some <$> req) rs)
                else Raise (ValueError "cannot reindex on an axis with duplicate labels")).
  assert (length req = 12) as Hreq by (unfold req; by case_decide).
  assert (∀ row, row ∈ rows raw → length row = length src) as Hrow_len.
  { intros row Hrow. unfold rectangular in Hrect. rewrite Forall_forall in Hrect.
    unfold src. rewrite length_fmap. by apply Hrect. }
  split; [|split].
  - intros row Hrow%Hrow_len. split; [by unfold R; rewrite length_fmap|]. split.
    + intros i x Hx. unfold R. rewrite list_lookup_fmap, Hx. cbn. split.
      * intros ->. by destruct (Hcur (F row) (HlenF row Hrow)) as [_ ->].
      * intros Hne Hsrc. rewrite row_get_None; [done|].
        intros [[= ?]|[? _]]%Hcols3; done.
    + intros Hqty. specialize (HgetF Hqty row).
      destruct (next_col_Some _ _ _ Hc) as [Hcin _].
      destruct (row_get_is_Some (Some c) src row Hcin Hrow) as [v Hv].
      rewrite HgetF, Hv. cbn. split; [done|]. intros ->.
      assert (req = REQUIRED_COLUMNS_ISBN) as Hisbn by (unfold req; by rewrite decide_True).
      unfold R. rewrite list_lookup_fmap, Hisbn. cbn.
      rewrite Hkeep, HgetF, Hv; [done|done|rewrite Hisbn; left|done|by apply HlenF].
  - destruct (decide (NoDup cols3)); [left; done|right; by eexists].
  - assert (∀ dff, columns dff = columns df →
              reindex req (Str (py "")) (keep_required req cur dff) =
                (if decide (NoDup cols3)
                 then Ok (mkDataFrame (Some <$> req) (R <$> (hh <$> rows dff)))
                 else Raise (ValueError "cannot reindex on an axis with duplicate labels")))
      as Hfinal.
    { intros dff Hdff. rewrite (Hkr dff Hdff). unfold reindex. cbn [columns rows].
      by case_decide. }
    intros rem. unfold clean_file. rewrite Hpf. cbv zeta. rewrite Hcols. fold req.
    destruct rem as [r|].
    + destruct (extract_isbns r) as [[rset|e] log]; [|done]. cbn [mbind result_bind].
      unfold isin_set, getitem. rewrite <- !list_fmap_compose, select_rows_filter.
      rewrite Hfinal by done. cbn [rows]. rewrite Hrows, filter_fmap_commute.
      rewrite <- !list_fmap_compose.
      rewrite (list_filter_iff _
                 (λ row, in_set rset (default NaN (row_get (Some c) src (F row))) = false));
        [done|].
      intros row. cbn. rewrite Hcols. by rewrite negb_true_iff.
    + cbn [mbind result_bind]. rewrite Hfinal by done. rewrite Hrows.
      by rewrite <- !list_fmap_compose.
Qed.

(** A successful run of [clean_file], read off [clean_file_eq]. *)
Lemma clean_file_Ok f cur rem h raw out log :
  detect_header f = Ok h → table f (reader_of f) h = Ok raw → rectangular raw →
  clean_file to_number f cur rem = (Ok out, log) →
  let src := clean_label <$> columns raw in
  let req := if decide (Some (py "ISBN13") ∈ src)
             then REQUIRED_COLUMNS_ISBN else REQUIRED_COLUMNS_EAN in
  ∃ c (g : list (option pystr) → list (cell number))
      (key : list (option pystr) → cell number),
    next_col is_id_name src = Ok (Some c) ∧
    (∀ row, row ∈ rows raw →
       length (g row) = 12 ∧
       (∀ i x, req !! i = Some x →
          (x = py "CUR" → g row !! i = Some (Str cur)) ∧
          (x ≠ py "CUR" → Some x ∉ src → g row !! i = Some (Str (py "")))) ∧
       (next_col is_qty_name src ≠ Ok (Some c) →
          key row = Str (clean_isbn (mjoin (row_get (Some c) src row))) ∧
          (c = py "ISBN13" → g row !! 0 = Some (key row)))) ∧
    clean_file to_number f cur None =
      (Ok (mkDataFrame (Some <$> req) (g <$> rows raw)), []) ∧
    match rem with
    | None => out = mkDataFrame (Some <$> req) (g <$> rows raw) ∧ log = []
    | Some r =>
      ∃ rset, extract_isbns r = (Ok rset, log) ∧
        out = mkDataFrame (Some <$> req)
                (g <$> filter (λ row, in_set rset (key row) = false) (rows raw))
    end.
Proof.
  intros Hh Hraw Hrect Hcf src req.
  assert (∃ df c, process_file to_number f = Ok (df, c)) as (df & c & Hpf).
  { unfold clean_file in Hcf. destruct (process_file to_number f) as [[df c]|e]; [eauto|done]. }
  destruct (clean_file_eq f cur h raw df c Hh Hraw Hrect Hpf)
    as (Hc & g & key & final & Hcells & Hfinal & Heq).
  fold src in Hc, Hcells, Hfinal, Heq. fold req in Hcells, Hfinal, Heq.
  exists c, g, key. split; [done|]. split; [done|].
  destruct Hfinal as [Hfinal|[e Hfinal]].
  - split; [by rewrite (Heq None), Hfinal|].
    rewrite Heq in Hcf. destruct rem as [r|].
    + destruct (extract_isbns r) as [[rset|e] log']; [|done].
      rewrite Hfinal in Hcf. injection Hcf as <- <-. by exists rset.
    + rewrite Hfinal in Hcf. by injection Hcf as <- <-.
  - rewrite Heq in Hcf. destruct rem as [r|].
    + destruct (extract_isbns r) as [[rset|e'] log']; [|done]. by rewrite Hfinal in Hcf.
    + by rewrite Hfinal in Hcf.
Qed.

(** The rows of a cleaned table come from rows of the parsed frame. *)
Lemma clean_file_rows_from f cur rem h raw out log :
  detect_header f = Ok h → table f (reader_of f) h = Ok raw → rectangular raw →
  clean_file to_number f cur rem = (Ok out, log) →
  let src := clean_label <$> columns raw in
  let req := if decide (Some (py "ISBN13") ∈ src)
             then REQUIRED_COLUMNS_ISBN else REQUIRED_COLUMNS_EAN in
  ∃ c (g : list (option pystr) → list (cell number)) rs,
    next_col is_id_name src = Ok (Some c) ∧
    columns out = Some <$> req ∧ rows out = g <$> rs ∧ rs `sublist_of` rows raw ∧
    (rem = None → rs = rows raw) ∧
    ∀ row, row ∈ rs →
       length (g row) = 12 ∧
       (∀ i x, req !! i = Some x →
          (x = py "CUR" → g row !! i = Some (Str cur)) ∧
          (x ≠ py "CUR" → Some x ∉ src → g row !! i = Some (Str (py "")))) ∧
       (c = py "ISBN13" →
          g row !! 0 = Some (Str (clean_isbn (mjoin (row_get (Some c) src row))))).
Proof.
  intros Hh Hraw Hrect Hcf src req.
  destruct (clean_file_Ok f cur rem h raw out log Hh Hraw Hrect Hcf)
    as (c & g & key & Hc & Hcells & _ & Hout).
  fold src in Hc, Hcells, Hout. fold req in Hcells, Hout.
  assert (∃ rs, out = mkDataFrame (Some <$> req) (g <$> rs) ∧
                rs `sublist_of` rows raw ∧ (rem = None → rs = rows raw))
    as (rs & -> & Hsub & Hnone).
  { destruct rem as [r|].
    - destruct Hout as (rset & _ & ->). eexists. split; [done|].
      split; [apply sublist_filter|done].
    - destruct Hout as [-> _]. by eexists. }
  exists c, g, rs. do 5 (split; [done|]).
  intros row Hrow. assert (row ∈ rows raw) as Hin.
  { eapply elem_of_submseteq; [done|by apply sublist_submseteq]. }
  destruct (Hcells row Hin) as (Hlen & Hfill & Hkey). split; [done|]. split; [done|].
  intros ->. destruct Hkey as [Hk1 Hk2]; [|by rewrite Hk2, Hk1].
  intros [_ Hq]%next_col_Some. vm_compute in Hq. done.
Qed.

(** C2, as the code has it. A cleaned table has exactly the 12 columns
    of the template chosen by the label "ISBN13", in template order; the
    currency column holds the chosen currency in every row, also when the
    source has no such column; every other template column that the
    source lacks holds the empty string in every row. *)
Theorem clean_file_template f cur rem h raw out log :
  detect_header f = Ok h → table f (reader_of f) h = Ok raw → rectangular raw →
  clean_file to_number f cur rem = (Ok out, log) →
  let src := clean_label <$> columns raw in
  let req := if decide (Some (py "ISBN13") ∈ src)
             then REQUIRED_COLUMNS_ISBN else REQUIRED_COLUMNS_EAN in
  columns out = Some <$> req ∧ length req = 12 ∧
  Forall (λ row,
    length row = 12 ∧
    ∀ i x, req !! i = Some x →
      (x = py "CUR" → row !! i = Some (Str cur)) ∧
      (x ≠ py "CUR" → Some x ∉ src → row !! i = Some (Str (py "")))) (rows out).
Proof.
  intros Hh Hraw Hrect Hcf src req.
  destruct (clean_file_rows_from f cur rem h raw out log Hh Hraw Hrect Hcf)
    as (c & g & rs & _ & Hcols & Hrows & _ & _ & Hcells).
  fold src in Hcols, Hcells. fold req in Hcols, Hcells.
  split; [done|]. split; [unfold req; by case_decide|].
  rewrite Hrows. apply Forall_fmap, Forall_forall. intros row Hrow. cbn.
  by destruct (Hcells row Hrow) as (? & ? & _).
Qed.

(** What [clean_file] returns is a cleaned table. *)
Lemma clean_file_cleaned f cur rem h raw out log :
  detect_header f = Ok h → table f (reader_of f) h = Ok raw → rectangular raw →
  clean_file to_number f cur rem = (Ok out, log) →
  CleanedTable out.
Proof.
  intros Hh Hraw Hrect Hcf.
  destruct (clean_file_rows_from f cur rem h raw out log Hh Hraw Hrect Hcf)
    as (c & g & rs & _ & Hcols & Hrows & _ & _ & Hcells).
  split; [rewrite Hcols; case_decide; [by left|by right]|].
  rewrite Hrows. apply Forall_fmap, Forall_forall. intros row Hrow. cbn.
  by destruct (Hcells row Hrow) as [? _].
Qed.

(** With the EAN template, the first column of the cleaned table is
    "EAN #" and holds the empty string in every row. *)
Lemma clean_file_ean_key f cur rem h raw out log :
  detect_header f = Ok h → table f (reader_of f) h = Ok raw → rectangular raw →
  clean_file to_number f cur rem = (Ok out, log) →
  Some (py "ISBN13") ∉ clean_label <$> columns raw →
  columns out !! 0 = Some (Some (py "EAN #")) ∧
  Forall (λ row, row !! 0 = Some (Str (py ""))) (rows out).
Proof.
  intros Hh Hraw Hrect Hcf Hean.
  destruct (clean_file_rows_from f cur rem h raw out log Hh Hraw Hrect Hcf)
    as (c & g & rs & _ & Hcols & Hrows & _ & _ & Hcells).
  rewrite decide_False in Hcols, Hcells by done.
  split; [by rewrite Hcols|].
  rewrite Hrows. apply Forall_fmap, Forall_forall. intros row Hrow. cbn.
  destruct (Hcells row Hrow) as (_ & Hfill & _).
  apply (Hfill 0 (py "EAN #")); [done|done|].
  intros (l & Hl & _)%list_elem_of_fmap. symmetry in Hl.
  by apply clean_label_not_ean_hash in Hl.
Qed.

(** With the ISBN template, when "ISBN13" is also the first label that
    names an identifier, the first column of the cleaned table holds the
    normalised identifiers of the rows that were kept. *)
Lemma clean_file_isbn_key f cur rem h raw out log :
  detect_header f = Ok h → table f (reader_of f) h = Ok raw → rectangular raw →
  clean_file to_number f cur rem = (Ok out, log) →
  let src := clean_label <$> columns raw in
  next_col is_id_name src = Ok (Some (py "ISBN13")) →
  columns out !! 0 = Some (Some (py "ISBN13")) ∧
  ∃ rs, rs `sublist_of` rows raw ∧ (rem = None → rs = rows raw) ∧
    Forall2 (λ orow srow,
               orow !! 0 =
                 Some (Str (clean_isbn (mjoin (row_get (Some (py "ISBN13")) src srow)))))
            (rows out) rs.
Proof.
  intros Hh Hraw Hrect Hcf src Hc.
  destruct (clean_file_rows_from f cur rem h raw out log Hh Hraw Hrect Hcf)
    as (c & g & rs & Hc' & Hcols & Hrows & Hsub & Hnone & Hcells).
  fold src in Hc', Hcols, Hcells. rewrite Hc in Hc'. injection Hc' as <-.
  destruct (next_col_Some _ _ _ Hc) as [Hin _].
  rewrite decide_True in Hcols by done. split; [by rewrite Hcols|].
  exists rs. split; [done|]. split; [done|].
  rewrite Hrows. apply Forall2_fmap_l, Forall_Forall2_diag, Forall_forall.
  intros row Hrow. destruct (Hcells row Hrow) as (_ & _ & Hkey). by apply Hkey.
Qed.

(** Where the exclusion works. Unless the identifier column is also the
    column taken for the quantity, a run with a removal file returns, in
    their order, the rows of the run without removal file that come from
    the source rows whose normalised identifier is not in the loaded set.
    The sample is the catalogue with the identifiers 0000000000123 and
    0000000000456 and the set loaded from the cell "123". *)
Lemma clean_file_exclusion f cur r h raw out log :
  detect_header f = Ok h → table f (reader_of f) h = Ok raw → rectangular raw →
  let src := clean_label <$> columns raw in
  next_col is_qty_name src ≠ next_col is_id_name src →
  clean_file to_number f cur (Some r) = (Ok out, log) →
  (∃ c rset (g : list (option pystr) → list (cell number)),
     next_col is_id_name src = Ok (Some c) ∧
     extract_isbns r = (Ok rset, log) ∧
     clean_file to_number f cur None =
       (Ok (mkDataFrame (columns out) (g <$> rows raw)), []) ∧
     rows out =
       g <$> filter (λ row, clean_isbn (mjoin (row_get (Some c) src row)) ∉ rset)
               (rows raw)) ∧
  rows <$> (clean_file to_number (workbook isbn_book) cur
              (Some (workbook removal_sheet))).1 =
    Ok [ Str (py "0000000000456") :: Str (py "Second") :: Str (py "") ::
         Str (py "") :: Str (py "") :: Str cur :: replicate 6 (Str (py "")) ].
Proof.
  intros Hh Hraw Hrect src Hne Hcf. split; [|by vm_compute].
  destruct (clean_file_Ok f cur (Some r) h raw out log Hh Hraw Hrect Hcf)
    as (c & g & key & Hc & Hcells & Hnone & rset & Hrset & ->).
  fold src in Hc, Hcells. exists c, rset, g. do 2 (split; [done|]).
  split; [done|]. cbn [rows]. f_equal. apply filter_ext_in. intros row Hrow.
  destruct (Hcells row Hrow) as (_ & _ & Hkey).
  destruct Hkey as [-> _]; [by rewrite <- Hc|].
  cbn [in_set]. by rewrite bool_decide_eq_false.
Qed.

(** ** Comparator *)

(** On a cleaned table the key column is the column of the first cells. *)
Lemma getitem_first (d : DataFrame (cell number)) k :
  CleanedTable d → first_column d = Ok k →
  getitem k d = (λ row, default NaN (head row)) <$> rows d.
Proof.
  intros [Hcols Hrows] Hk. unfold getitem. apply list_fmap_ext.
  intros i row Hrow. rewrite Forall_forall in Hrows.
  specialize (Hrows row (list_elem_of_lookup_2 _ _ _ Hrow)).
  unfold first_column in Hk. destruct (columns d) as [|k' cols]; [done|].
  injection Hk as ->. destruct row as [|v row]; [done|]. cbn. by rewrite decide_True.
Qed.

Lemma first_column_cleaned (d : DataFrame (cell number)) :
  CleanedTable d → ∃ k, first_column d = Ok k.
Proof. intros [[Hc|Hc] _]; unfold first_column; rewrite Hc; by eexists. Qed.

(** The comparison written out on cleaned tables: a row of one table is
    kept when its first cell is not among the first cells of the other. *)
Lemma compare_cleaned (d1 d2 : DataFrame (cell number)) :
  CleanedTable d1 → CleanedTable d2 →
  let keys (d : DataFrame (cell number)) := (λ row, default NaN (head row)) <$> rows d in
  compare d1 d2 =
    Ok (mkDataFrame (columns d2)
          (filter (λ row, default NaN (head row) ∉ keys d1) (rows d2)),
        mkDataFrame (columns d1)
          (filter (λ row, default NaN (head row) ∉ keys d2) (rows d1))).
Proof.
  intros H1 H2 keys. unfold compare.
  destruct (first_column_cleaned d1 H1) as [k1 Hk1].
  destruct (first_column_cleaned d2 H2) as [k2 Hk2].
  rewrite Hk1, Hk2. cbn [mbind result_bind mret result_ret].
  rewrite !(getitem_first d1 k1), !(getitem_first d2 k2) by done.
  unfold isin. rewrite <- !list_fmap_compose, !select_rows_filter.
  do 3 f_equal; apply list_filter_iff; intros row; cbn;
    by rewrite negb_true_iff, bool_decide_eq_false.
Qed.

(** Two cleaned tables whose key columns hold one and the same value,
    as the EAN tables do with the empty string, compare as equal as soon
    as both have a row: nothing is new and nothing is inactive. *)
Lemma compare_constant_keys (d1 d2 : DataFrame (cell number)) (v : cell number) :
  CleanedTable d1 → CleanedTable d2 →
  rows d1 ≠ [] → rows d2 ≠ [] →
  Forall (λ row, head row = Some v) (rows d1) →
  Forall (λ row, head row = Some v) (rows d2) →
  compare d1 d2 = Ok (mkDataFrame (columns d2) [], mkDataFrame (columns d1) []).
Proof.
  intros H1 H2 Hne1 Hne2 Hk1 Hk2. rewrite compare_cleaned by done. cbv zeta.
  assert (∀ rs rs' : list (list (cell number)),
            rs ≠ [] → Forall (λ row, head row = Some v) rs →
            Forall (λ row, head row = Some v) rs' →
            filter (λ row, default NaN (head row) ∉
                             (λ row, default NaN (head row)) <$> rs) rs' = []) as Hnone.
  { intros rs rs' Hne Hrs Hrs'. destruct rs as [|r rs]; [done|].
    apply Forall_cons in Hrs as [Hr _].
    induction Hrs' as [|row rs' Hrow _ IH]; [done|].
    rewrite filter_cons_False; [done|]. intros Hnot. apply Hnot.
    cbn. rewrite Hrow, Hr. left. }
  by rewrite !Hnone.
Qed.

(** C7. The new items of comparing [A] with [B] are the inactive items
    of comparing [B] with [A]: both are the rows of [B] whose key does not
    occur in the key column of [A]. *)
Theorem compare_swap (A B : DataFrame (cell number)) :
  CleanedTable A → CleanedTable B →
  (λ p, p.1) <$> compare A B = (λ p, p.2) <$> compare B A ∧
  (λ p, p.1) <$> compare A B =
    Ok (mkDataFrame (columns B)
          (filter (λ row, default NaN (head row) ∉
                            (λ row, default NaN (head row)) <$> rows A) (rows B))).
Proof.
  intros HA HB. by rewrite (compare_cleaned A B), (compare_cleaned B A).
Qed.

(** C8. The comparison of two cleaned tables returns two tables; the new
    items have the columns of the second table and a subsequence of its
    rows, the inactive items the columns of the first table and a
    subsequence of its rows. *)
Theorem compare_subsequence (clean1 clean2 : DataFrame (cell number)) :
  CleanedTable clean1 → CleanedTable clean2 →
  ∃ new_items inactive_items,
    compare clean1 clean2 = Ok (new_items, inactive_items) ∧
    columns new_items = columns clean2 ∧
    rows new_items `sublist_of` rows clean2 ∧
    columns inactive_items = columns clean1 ∧
    rows inactive_items `sublist_of` rows clean1.
Proof.
  intros H1 H2. rewrite (compare_cleaned clean1 clean2) by done.
  do 2 eexists. split; [done|]. cbn [columns rows].
  repeat split; apply sublist_filter.
Qed.

End FrameProperties.

(** ** The samples *)

(** The ISBN catalogue has no currency column; its cleaned table has the
    ISBN template and holds "USD" in the currency column. *)
Lemma clean_file_template_witness :
  ∃ out, clean_file read_decimal (workbook isbn_book) (py "USD") None = (Ok out, []) ∧
    columns out = Some <$> REQUIRED_COLUMNS_ISBN ∧
    Forall (λ row, length row = 12 ∧ row !! 5 = Some (Str (py "USD"))) (rows out).
Proof.
  eexists. split; [evaluate|].
  edestruct (clean_file_template read_decimal (workbook isbn_book) (py "USD") None 0)
    as (Hcols & _ & Hrows);
    [evaluate|evaluate|
     repeat constructor|evaluate|].
  split; [exact Hcols|].
  eapply Forall_impl; [exact Hrows|]. intros row [Hlen Hcells]. split; [done|].
  by apply (Hcells 5 (py "CUR")).
Defined.

(** C2 as stated fails on the ISBN catalogue: "CUR" is a template column
    that the source lacks, and the cleaned table holds "USD" there, not
    the empty string. *)
Lemma clean_file_template_currency :
  ∃ out, clean_file read_decimal (workbook isbn_book) (py "USD") None = (Ok out, []) ∧
    REQUIRED_COLUMNS_ISBN !! 5 = Some (py "CUR") ∧
    (Some (py "CUR") ∉ clean_label <$> [Some (py "ISBN13"); Some (py "Title")]) ∧
    ¬ (Forall (λ row, row !! 5 = Some (Str (py ""))) (rows out)).
Proof.
  eexists. split; [evaluate|]. split; [done|]. split.
  - vm_compute. intros [[= ?]|[[= ?]|[]%elem_of_nil]%elem_of_cons]%elem_of_cons.
  - intros [H _]%Forall_cons. vm_compute in H. discriminate.
Qed.

(** C1 fails on the EAN catalogue. The label "EAN #" is cleaned to
    "EAN " before the column is looked up, so the template column "EAN #"
    is not found among the source columns and is filled in empty: the
    first column of the cleaned table holds the empty string, where the
    normalised identifier of the source row is 0000000000123. *)
Theorem clean_file_ean_first_column :
  ∃ out, clean_file read_decimal (workbook ean_book) (py "USD") None = (Ok out, []) ∧
    clean_label <$> [Some (py "EAN #"); Some (py "Title")] =
      [Some (py "EAN "); Some (py "TITLE")] ∧
    columns out = Some <$> REQUIRED_COLUMNS_EAN ∧
    rows out = [ Str (py "") :: Str (py "A book") :: Str (py "") :: Str (py "USD") ::
                 replicate 8 (Str (py "")) ] ∧
    clean_isbn (Some (py "123")) = py "0000000000123".
Proof. eexists. by vm_compute. Qed.

(** The sample of the exclusion, through the lemma. *)
Lemma clean_file_exclusion_witness :
  rows <$> (clean_file read_decimal (workbook isbn_book) (py "USD")
              (Some (workbook removal_sheet))).1 =
    Ok [ Str (py "0000000000456") :: Str (py "Second") :: Str (py "") ::
         Str (py "") :: Str (py "") :: Str (py "USD") :: replicate 6 (Str (py "")) ].
Proof.
  edestruct (clean_file_exclusion read_decimal (workbook isbn_book) (py "USD")
               (workbook removal_sheet) 0) as [_ H];
    [evaluate|evaluate|repeat constructor|
     vm_compute; discriminate|evaluate|exact H].
Defined.

(** C3 fails when the first header names both the identifier and the
    quantity, as "EAN QTYAV" does. Line 66 normalises the column, line 70
    then turns the same column into numbers, and line 92 looks these
    numbers up in the set of strings, where a number is never found. The
    source row with the identifier "123" is kept although its normalised
    identifier, 0000000000123, is in the set loaded from the removal
    sheet. *)
Theorem clean_file_exclusion_overlap :
  ∃ rset out,
    extract_isbns (workbook removal_sheet) = (Ok rset, []) ∧
    clean_file read_decimal (workbook overlap_book) (py "USD")
      (Some (workbook removal_sheet)) = (Ok out, []) ∧
    next_col is_id_name (clean_label <$> [Some (py "EAN QTYAV"); Some (py "Title")]) =
      Ok (Some (py "EAN QTYAV")) ∧
    clean_isbn (Some (py "123")) ∈ rset ∧
    length (rows out) = 1 ∧
    next_col is_qty_name (clean_label <$> [Some (py "EAN QTYAV"); Some (py "Title")]) =
      Ok (Some (py "EAN QTYAV")) ∧
    process_file read_decimal (workbook overlap_book) =
      Ok (mkDataFrame [Some (py "EAN QTYAV"); Some (py "TITLE")]
            [[Num 123%N; Str (py "A book")]], py "EAN QTYAV") ∧
    rows out = [ Str (py "") :: Str (py "A book") :: Str (py "") :: Str (py "USD") ::
                 replicate 8 (Str (py "")) ] ∧
    clean_file read_decimal (workbook overlap_book) (py "USD") None = (Ok out, []).
Proof.
  exists (list_to_set [py "0000000000123"]). eexists.
  split; [by vm_compute|]. split; [evaluate|].
  split; [by vm_compute|]. split; [|by vm_compute].
  apply elem_of_list_to_set. replace (clean_isbn (Some (py "123")))
    with (py "0000000000123") by by vm_compute. left.
Qed.

Lemma catalogue_cleaned keys : CleanedTable (catalogue keys).
Proof.
  split; [by left|]. apply Forall_fmap, Forall_forall. by intros k _.
Qed.

(** Keys 100, 200, 300 against keys 200, 300, 400. *)
Lemma compare_swap_witness :
  (λ p, p.1) <$> compare (catalogue ["100"; "200"; "300"]) (catalogue ["200"; "300"; "400"]) =
    Ok (catalogue ["400"]) ∧
  (λ p, p.2) <$> compare (catalogue ["200"; "300"; "400"]) (catalogue ["100"; "200"; "300"]) =
    Ok (catalogue ["400"]).
Proof.
  destruct (compare_swap (catalogue ["100"; "200"; "300"]) (catalogue ["200"; "300"; "400"]))
    as [Hswap Hnew]; [apply catalogue_cleaned..|].
  rewrite <- Hswap, Hnew. by vm_compute.
Defined.

Lemma compare_subsequence_witness :
  ∃ new_items inactive_items,
    compare (catalogue ["100"; "200"; "300"]) (catalogue ["200"; "300"; "400"]) =
      Ok (new_items, inactive_items) ∧
    rows new_items `sublist_of` rows (catalogue ["200"; "300"; "400"]) ∧
    rows inactive_items `sublist_of` rows (catalogue ["100"; "200"; "300"]).
Proof.
  destruct (compare_subsequence (catalogue ["100"; "200"; "300"])
              (catalogue ["200"; "300"; "400"]))
    as (n & i & Hcmp & _ & Hn & _ & Hi); [apply catalogue_cleaned..|].
  by exists n, i.
Defined.

(** * Further properties *)

(** ** IdentifierNormalizer: fixed points, padding and whitespace *)

Lemma strip_invisible_sub v c : c ∈ strip_invisible v → c ∈ v.
Proof.
  rewrite strip_invisible_filter, !list_elem_of_filter. intros (_ & _ & _ & Hc).
  destruct (strip_spec v) as (a & b & Hv & _). rewrite Hv.
  apply elem_of_app. right. apply elem_of_app. by left.
Qed.

(** On a string that is already cleaned of the invisible characters only
    the stripping is left. *)
Lemma strip_invisible_again v :
  strip_invisible (strip_invisible v) = strip (strip_invisible v).
Proof.
  rewrite (strip_invisible_filter (strip_invisible v)).
  assert (∀ c, c ∈ strip (strip_invisible v) → c ≠ ZWSP ∧ c ≠ NBSP ∧ c ≠ BOM) as Hin.
  { intros c Hc. apply (strip_invisible_absent v).
    destruct (strip_spec (strip_invisible v)) as (a & b & Hv & _). rewrite Hv.
    apply elem_of_app. right. apply elem_of_app. by left. }
  rewrite (filter_all (λ c, c ≠ ZWSP)) by (intros c Hc; by apply Hin).
  rewrite (filter_all (λ c, c ≠ NBSP)) by (intros c Hc; by apply Hin).
  apply filter_all. intros c Hc. by apply Hin.
Qed.

Lemma isnumeric_padded k x :
  isnumeric x = true → isnumeric (replicate k 48%N ++ x) = true.
Proof.
  rewrite !isnumeric_spec. intros [Hne Hall]. split.
  - intros [_ ?]%app_eq_nil. done.
  - apply Forall_app. split; [|done]. by apply Forall_replicate.
Qed.

Lemma isnumeric_strip_invisible x : isnumeric x = true → strip_invisible x = x.
Proof. intros [_ H]%isnumeric_spec. by apply strip_invisible_numeric. Qed.

(** X1. A result of [clean_isbn] that is purely numeric has at least 13
    characters: a shorter one has been padded. *)
Theorem clean_isbn_numeric_width (isbn : option pystr) :
  isnumeric (clean_isbn isbn) = true → 13 ≤ length (clean_isbn isbn).
Proof.
  destruct isbn as [v|]; [|by vm_compute].
  rewrite clean_isbn_unfold. cbv zeta.
  destruct (isnumeric (strip_invisible v)) eqn:Hn; cbn [andb].
  - case_bool_decide as Hlen; [|lia].
    intros _. rewrite length_app, length_replicate. lia.
  - congruence.
Qed.

(** A string that [clean_isbn] returns as it is has nothing to strip and,
    when purely numeric, nothing to pad. *)
Lemma clean_isbn_fixed v :
  clean_isbn (Some v) = v →
  strip_invisible v = v ∧ (isnumeric v = true → 13 ≤ length v).
Proof.
  rewrite clean_isbn_unfold. cbv zeta.
  destruct (isnumeric (strip_invisible v)) eqn:Hn; cbn [andb].
  - case_bool_decide as Hlen.
    + intros Hv. exfalso.
      assert (isnumeric v = true) as Hnv by (rewrite <- Hv; by apply isnumeric_padded).
      rewrite (isnumeric_strip_invisible v Hnv) in Hv, Hlen.
      apply (f_equal length) in Hv. rewrite length_app, length_replicate in Hv. lia.
    + intros Hv. split; [done|]. intros _. rewrite <- Hv. lia.
  - intros Hv. split; [done|]. rewrite <- Hv, Hn. done.
Qed.

(** X2. The fixed points of [clean_isbn] are the strings that the
    stripping and the removal of the invisible characters leave alone and
    that, when purely numeric, have at least 13 characters. *)
Theorem clean_isbn_fixed_points (v : pystr) :
  clean_isbn (Some v) = v ↔
    strip_invisible v = v ∧ (isnumeric v = true → 13 ≤ length v).
Proof.
  split; [apply clean_isbn_fixed|].
  intros [Hv Hlen]. rewrite clean_isbn_unfold. cbv zeta. rewrite Hv.
  destruct (isnumeric v) eqn:Hn; [|done]. cbn [andb].
  rewrite bool_decide_eq_false_2; [done|]. specialize (Hlen eq_refl). lia.
Qed.

(** X3. A second pass of [clean_isbn] changes nothing exactly when the
    removal of the invisible characters has left no whitespace at the ends
    of the string. *)
Theorem clean_isbn_idempotent_iff (v : pystr) :
  clean_isbn (Some (clean_isbn (Some v))) = clean_isbn (Some v) ↔
    strip (strip_invisible v) = strip_invisible v.
Proof.
  split; [|apply clean_isbn_stable].
  rewrite (clean_isbn_unfold v). cbv zeta.
  destruct (isnumeric (strip_invisible v)) eqn:Hn; cbn [andb].
  - intros _. apply isnumeric_spec in Hn as [_ Hall].
    apply strip_id, Forall_forall. intros c Hc. rewrite Forall_forall in Hall.
    by apply numeric_not_space, Hall.
  - intros [Hfix _]%clean_isbn_fixed.
    by rewrite strip_invisible_again in Hfix.
Qed.

(** X4. Two passes are enough: the third pass of [clean_isbn] returns
    what the second returned, on every input. *)
Theorem clean_isbn_third_pass (isbn : option pystr) :
  clean_isbn (Some (clean_isbn (Some (clean_isbn isbn)))) =
    clean_isbn (Some (clean_isbn isbn)).
Proof.
  destruct isbn as [v|]; [apply clean_isbn_settles|by vm_compute].
Qed.

(** X5. The result of [clean_isbn] holds none of U+200B, U+00A0 and
    U+FEFF, wherever they stood in the input. *)
Theorem clean_isbn_no_invisible (isbn : option pystr) :
  Forall (λ c, c ≠ ZWSP ∧ c ≠ NBSP ∧ c ≠ BOM) (clean_isbn isbn).
Proof.
  destruct isbn as [v|]; [|constructor].
  apply Forall_forall. intros c. apply clean_isbn_visible.
Qed.

(** X6. Leading zeros make no difference: a numeric string and the same
    string behind [k] zeros, up to 13 characters in all, are normalised to
    the same identifier. *)
Theorem clean_isbn_leading_zeros (k : nat) (v : pystr) :
  isnumeric v = true → k + length v ≤ 13 →
  clean_isbn (Some (replicate k 48%N ++ v)) = clean_isbn (Some v).
Proof.
  intros Hn Hlen. rewrite !clean_isbn_unfold. cbv zeta.
  rewrite (isnumeric_strip_invisible v Hn).
  rewrite (isnumeric_strip_invisible _ (isnumeric_padded k v Hn)).
  rewrite (isnumeric_padded k v Hn), Hn. cbn [andb].
  rewrite length_app, length_replicate.
  repeat case_bool_decide; try lia.
  - rewrite app_assoc, <- replicate_add. do 2 f_equal. lia.
  - replace (13 - length v) with k by lia. done.
  - destruct k; [done|exfalso; lia].
Qed.

Lemma lstrip_app_space a s :
  Forall (λ c, isspace c = true) a → lstrip (a ++ s) = lstrip s.
Proof. induction 1 as [|c a Hc _ IH]; [done|]. cbn [app lstrip]. by rewrite Hc. Qed.

Lemma rstrip_app_space s b :
  Forall (λ c, isspace c = true) b → rstrip (s ++ b) = rstrip s.
Proof.
  intros Hb. unfold rstrip. rewrite reverse_app, lstrip_app_space; [done|].
  by apply Forall_reverse.
Qed.

(** Whitespace around a string does not change what [strip] returns. *)
Lemma strip_app_space a s b :
  Forall (λ c, isspace c = true) a → Forall (λ c, isspace c = true) b →
  strip (a ++ s ++ b) = strip s.
Proof.
  intros Ha Hb. unfold strip. rewrite lstrip_app_space by done.
  induction s as [|c s IH].
  - cbn [app]. rewrite <- (app_nil_r b) at 1. by rewrite lstrip_app_space.
  - cbn [app lstrip]. destruct (isspace c); [done|].
    exact (rstrip_app_space (c :: s) b Hb).
Qed.

(** X7. Whitespace around the identifier makes no difference. *)
Theorem clean_isbn_surrounding_space (a v b : pystr) :
  Forall (λ c, isspace c = true) a → Forall (λ c, isspace c = true) b →
  clean_isbn (Some (a ++ v ++ b)) = clean_isbn (Some v).
Proof.
  intros Ha Hb. unfold clean_isbn, strip_invisible.
  by rewrite strip_app_space.
Qed.

(** ** ExclusionSetLoader: what the set holds *)

Lemma clean_isbn_of_numeric s :
  isnumeric s = true →
  isnumeric (clean_isbn (Some s)) = true ∧ 13 ≤ length (clean_isbn (Some s)).
Proof.
  intros Hn. rewrite clean_isbn_unfold. cbv zeta.
  rewrite (isnumeric_strip_invisible s Hn), Hn. cbn [andb].
  case_bool_decide.
  - split; [by apply isnumeric_padded|]. rewrite length_app, length_replicate. lia.
  - split; [done|lia].
Qed.

Lemma extract_isbns_elem rem x :
  x ∈ removal_set (Some rem) → isnumeric x = true ∧ 13 ≤ length x.
Proof.
  unfold removal_set, extract_isbns, read_rows.
  destruct (sheet rem read_excel) as [df|e]; cbn; [|by intros ?%elem_of_empty].
  rewrite elem_of_list_to_set. intros (v & -> & Hv)%list_elem_of_fmap.
  apply list_elem_of_filter in Hv as [Hn _].
  destruct v as [s|]; [by apply clean_isbn_of_numeric|by vm_compute in Hn].
Qed.

Lemma extract_isbns_pair rem :
  extract_isbns rem = (Ok (removal_set (Some rem)), removal_log (Some rem)).
Proof.
  unfold removal_set, removal_log, extract_isbns.
  by destruct (_ ≫= _).
Qed.

(** X8. Every member of the set that [extract_isbns] returns is purely
    numeric and has at least 13 characters. When the sheet is read, the
    members are exactly the normalised values of the string cells that
    are purely numeric, so that a missing cell and a cell that is not
    purely numeric contribute nothing; when the reader raises, the set is
    empty. *)
Theorem extract_isbns_members (rem : file_obj) (rset : gset pystr) (log : list log_record) :
  extract_isbns rem = (Ok rset, log) →
  (∀ x, x ∈ rset → isnumeric x = true ∧ 13 ≤ length x) ∧
  (∀ df, sheet rem read_excel = Ok df →
     ∀ x, x ∈ rset ↔
          ∃ s, Some s ∈ concat df ∧ isnumeric s = true ∧ x = clean_isbn (Some s)) ∧
  (∀ e, sheet rem read_excel = Raise e → rset = ∅).
Proof.
  rewrite extract_isbns_pair. intros [= <- _].
  split; [intros x; apply extract_isbns_elem|].
  unfold removal_set, extract_isbns, read_rows. split.
  - intros df ->. cbn. intros x.
    rewrite elem_of_list_to_set, list_elem_of_fmap.
    setoid_rewrite list_elem_of_filter. split.
    + intros ([s|] & -> & Hn & Hin); [by exists s|by vm_compute in Hn].
    + intros (s & Hin & Hn & ->). by exists (Some s).
  - by intros e ->.
Qed.

(** ** Rows, columns and results, continued *)

Lemma fmap_zip_with_compose {A B C D} (g : C → D) (k : A → B → C) l1 l2 :
  g <$> zip_with k l1 l2 = zip_with (λ x y, g (k x y)) l1 l2.
Proof.
  revert l2. induction l1 as [|x l1 IH]; intros [|y l2]; cbn; [done..|].
  by rewrite <- IH.
Qed.

Lemma zip_with_twice {A B C D} (k1 : A → B → C) (k2 : A → C → D) l row :
  zip_with k2 l (zip_with k1 l row) = zip_with (λ x y, k2 x (k1 x y)) l row.
Proof.
  revert row. induction l as [|x l IH]; intros [|y row]; cbn; [done..|].
  by rewrite IH.
Qed.

Lemma frame_eta {A} (df : DataFrame A) : mkDataFrame (columns df) (rows df) = df.
Proof. by destruct df. Qed.

(** The label that [next] returns is the first one that passes the
    test, and the labels before it are strings. *)
Lemma next_col_first p cols c :
  next_col p cols = Ok (Some c) →
  ∃ before after, cols = (Some <$> before) ++ Some c :: after ∧
    Forall (λ l, p l = false) before ∧ p c = true.
Proof.
  induction cols as [|[col|] cols IH]; cbn; [done| |done].
  destruct (p col) eqn:Hp.
  - intros [= ->]. by exists [], cols.
  - intros (before & after & -> & Hb & Hc)%IH.
    exists (col :: before), after. split; [done|]. split; [by constructor|done].
Qed.

Lemma next_col_None p cols :
  next_col p cols = Ok None ↔ Forall (λ l, ∃ s, l = Some s ∧ p s = false) cols.
Proof.
  induction cols as [|[col|] cols IH]; cbn.
  - by split.
  - destruct (p col) eqn:Hp.
    + split; [done|]. intros [(s & [= <-] & Hs) _]%Forall_cons. congruence.
    + rewrite IH, Forall_cons. split; [|by intros [_ ?]].
      intros H. split; [by exists col|done].
  - split; [done|]. by intros [(s & ? & _) _]%Forall_cons.
Qed.

(** A label that passes one of the two tests is not empty. *)
Lemma is_id_name_truthy c : is_id_name c = true → truthy (Some c) = true.
Proof. by destruct c. Qed.

Lemma is_qty_name_truthy s : is_qty_name s = true → truthy (Some s) = true.
Proof. by destruct s. Qed.




Section MoreFrameProperties.
Context {number : Type} `{!EqDecision number}.
Context (to_number : pystr → option number).
Implicit Types (df : DataFrame (cell number)) (raw : DataFrame (option pystr)).

(** ** SchemaResolver: the processed frame cell by cell *)

(** A successful [process_file], written out: every parsed row is
    rewritten cell by cell, by a function of the label. *)
Lemma process_file_rows f df c :
  process_file to_number f = Ok (df, c) →
  ∃ h raw s, detect_header f = Ok h ∧ table f (reader_of f) h = Ok raw ∧
    let src := clean_label <$> columns raw in
    columns df = src ∧ next_col is_id_name src = Ok (Some c) ∧
    next_col is_qty_name src = Ok s ∧
    rows df = (λ row, zip_with (processed_cell to_number c s) src row) <$> rows raw.
Proof.
  unfold process_file. intros (h & Hh & H)%result_bind_Ok.
  apply result_bind_Ok in H as (raw & Hraw & H). cbv zeta in *.
  set (src := clean_label <$> columns raw) in *.
  apply result_bind_Ok in H as (oc & Hc & H). cbn [columns] in Hc.
  destruct oc as [c'|]; [|done].
  destruct (truthy (Some c')); [|done]. cbn [negb] in H.
  apply result_bind_Ok in H as (df1 & Hdf1 & H).
  set (k1 := λ (l : label) (v : option pystr),
               if decide (l = Some c') then Some (clean_isbn v) else id v).
  assert (columns df1 = src ∧ rows df1 = zip_with k1 src <$> rows raw) as [Hcols1 Hrows1].
  { unfold apply_clean_isbn in Hdf1. cbn [columns rows] in Hdf1.
    destruct (decide (occurrences (Some c') src = 1)); [by injection Hdf1 as <-|].
    destruct (decide (rows raw = [])) as [Hnil|]; [|done].
    injection Hdf1 as <-. by rewrite Hnil. }
  apply result_bind_Ok in H as (os & Hs & H). rewrite Hcols1 in Hs.
  assert (os = None ∨ (∃ s, os = Some s ∧ truthy os = false) →
          Ok (as_cells df1, c') = Ok (df, c) →
          ∃ s, columns df = src ∧ next_col is_id_name src = Ok (Some c) ∧
            next_col is_qty_name src = Ok s ∧
            rows df = (λ row, zip_with (processed_cell to_number c s) src row) <$> rows raw)
    as Hplain.
  { intros Hos [= <- <-]. destruct Hos as [->|(s & -> & Hts)].
    - exists None. do 3 (split; [done|]). cbn [as_cells rows].
      rewrite Hrows1, <- list_fmap_compose. apply list_fmap_ext. intros i row _. cbn.
      by rewrite fmap_zip_with_compose.
    - apply next_col_Some in Hs as [_ Hq]. apply is_qty_name_truthy in Hq. congruence. }
  destruct os as [s|]; [|destruct Hplain as (s & ?); [by left|exact H|by exists h, raw, s]].
  destruct (truthy (Some s)) eqn:Hts;
    [|destruct Hplain as (s' & ?); [right; by exists s|exact H|by exists h, raw, s']].
  apply result_bind_Ok in H as (df2 & Hdf2 & [= <- <-]).
  unfold to_numeric_column in Hdf2. rewrite Hcols1 in Hdf2.
  destruct (decide (occurrences (Some s) src = 1)); [|done].
  injection Hdf2 as <-. cbn [map_column columns rows]. rewrite Hcols1.
  exists h, raw, (Some s). do 5 (split; [done|]).
  rewrite Hrows1, <- list_fmap_compose. apply list_fmap_ext. intros i row _. cbn.
  by rewrite zip_with_twice.
Qed.

(** X9. What a successful [process_file] returns: the frame has the
    cleaned labels of the parsed frame and as many rows; a frame with one
    cell per column stays one; and [c] is the first label that names an
    identifier, behind labels that are strings and name none. *)
Theorem process_file_frame f h raw df c :
  detect_header f = Ok h → table f (reader_of f) h = Ok raw →
  process_file to_number f = Ok (df, c) →
  let src := clean_label <$> columns raw in
  columns df = src ∧ length (rows df) = length (rows raw) ∧
  (rectangular raw → rectangular df) ∧
  ∃ before after, src = (Some <$> before) ++ Some c :: after ∧
    Forall (λ l, is_id_name l = false) before ∧ is_id_name c = true.
Proof.
  intros Hh Hraw Hpf src.
  destruct (process_file_rows _ _ _ Hpf) as (h' & raw' & s & Hh' & Hraw' & Hcols & Hc & _ & Hrows).
  rewrite Hh in Hh'. injection Hh' as <-. rewrite Hraw in Hraw'. injection Hraw' as <-.
  cbv zeta in Hcols, Hc, Hrows. fold src in Hcols, Hc, Hrows.
  split; [done|]. split; [by rewrite Hrows, length_fmap|].
  split; [|by apply next_col_first].
  unfold rectangular. rewrite Hrows, Hcols. intros Hrect.
  apply Forall_fmap. eapply Forall_impl; [exact Hrect|]. intros row Hrow. cbn.
  apply length_zip_with_l_eq. unfold src. by rewrite length_fmap.
Qed.

(** X10. The cells of the processed frame. Where the parsed frame has
    [v] under a label, the processed frame has [processed_cell]: under the
    quantity label a number or the missing value, never a string; under
    [c] the normalised identifier, unless [c] is also the quantity label,
    in which case it is the number read from the normalised identifier;
    and the parsed cell itself under any other label. *)
Theorem process_file_cells f h raw df c :
  detect_header f = Ok h → table f (reader_of f) h = Ok raw →
  process_file to_number f = Ok (df, c) →
  let src := clean_label <$> columns raw in
  ∃ s, next_col is_qty_name src = Ok s ∧
    (∀ i j row l v, rows raw !! i = Some row → src !! j = Some l → row !! j = Some v →
       ∃ out, rows df !! i = Some out ∧
              out !! j = Some (processed_cell to_number c s l v)) ∧
    (∀ l v, l ≠ Some c → (∀ q, s = Some q → l ≠ Some q) →
       processed_cell to_number c s l v = of_raw v) ∧
    (∀ v, s ≠ Some c →
       processed_cell to_number c s (Some c) v = Str (clean_isbn v)) ∧
    (∀ q v t, s = Some q → processed_cell to_number c s (Some q) v ≠ Str t) ∧
    (∀ v, s = Some c →
       processed_cell to_number c s (Some c) v =
         to_numeric to_number (Some (clean_isbn v))).
Proof.
  intros Hh Hraw Hpf src.
  destruct (process_file_rows _ _ _ Hpf) as (h' & raw' & s & Hh' & Hraw' & Hcols & Hc & Hs & Hrows).
  rewrite Hh in Hh'. injection Hh' as <-. rewrite Hraw in Hraw'. injection Hraw' as <-.
  cbv zeta in Hcols, Hc, Hs, Hrows. fold src in Hcols, Hc, Hs, Hrows.
  exists s. split; [done|]. split; [|split; [|split; [|split]]].
  - intros i j row l v Hrow Hl Hv. eexists. split.
    + by rewrite Hrows, list_lookup_fmap, Hrow.
    + apply lookup_zip_with_Some. by exists l, v.
  - intros l v Hl Hq. unfold processed_cell. rewrite decide_False by done.
    destruct s as [q|]; [|done]. rewrite decide_False; [done|by apply Hq].
  - intros v Hne. unfold processed_cell. rewrite decide_True by done.
    destruct s as [q|]; [|done]. rewrite decide_False; [done|congruence].
  - intros q v t ->. unfold processed_cell, to_numeric.
    rewrite (decide_True (P := Some q = Some q)) by done.
    by destruct (_ ≫= to_number).
  - intros v ->. unfold processed_cell. by rewrite !decide_True.
Qed.

(** X11. When every label of the parsed frame is a string and none of
    them, cleaned, names an identifier, [process_file] raises the
    no-column error. *)
Theorem process_file_no_identifier f h raw :
  detect_header f = Ok h → table f (reader_of f) h = Ok raw →
  Forall (λ l, ∃ t, l = Some t ∧ is_id_name (strip_punct (upper (strip t))) = false)
    (columns raw) →
  process_file to_number f = Raise (KeyError "No ISBN/EAN column found.").
Proof.
  intros Hh Hraw Hall. unfold process_file. rewrite Hh. cbn. rewrite Hraw. cbn.
  assert (next_col is_id_name (clean_label <$> columns raw) = Ok None) as ->; [|done].
  apply next_col_None, Forall_fmap. eapply Forall_impl; [exact Hall|].
  intros l (t & -> & Ht). cbn. by eexists.
Qed.

(** X12. Labels that are cleaned to the same string make [process_file]
    fail: an identifier label that stands over several columns of a frame
    with rows gives the error of the truth value of a Series, and, when
    that does not happen, a quantity label that stands over several
    columns gives the type error of [pd.to_numeric]. *)
Theorem process_file_duplicate_labels f h raw c :
  detect_header f = Ok h → table f (reader_of f) h = Ok raw →
  let src := clean_label <$> columns raw in
  next_col is_id_name src = Ok (Some c) →
  (occurrences (Some c) src ≠ 1 → rows raw ≠ [] →
   process_file to_number f =
     Raise (ValueError "The truth value of a Series is ambiguous")) ∧
  (∀ s, occurrences (Some c) src = 1 ∨ rows raw = [] →
        next_col is_qty_name src = Ok (Some s) → occurrences (Some s) src ≠ 1 →
        process_file to_number f =
          Raise (TypeError "arg must be a list, tuple, 1-d array, or Series")).
Proof.
  intros Hh Hraw src Hc.
  assert (truthy (Some c) = true) as Htc.
  { apply next_col_Some in Hc as [_ Hc']. by apply is_id_name_truthy. }
  assert (process_file to_number f =
            df ← apply_clean_isbn c (mkDataFrame src (rows raw));
            s ← next_col is_qty_name (columns df);
            match s with
            | Some s =>
              if truthy (Some s) then
                df ← to_numeric_column to_number s df; mret (df, c)
              else mret (as_cells df, c)
            | None => mret (as_cells df, c)
            end) as Hstart.
  { unfold process_file. rewrite Hh. cbn [mbind result_bind]. rewrite Hraw.
    cbn [mbind result_bind]. cbv zeta. cbn [columns rows]. fold src. rewrite Hc.
    cbn [mbind result_bind]. by rewrite Htc. }
  split.
  - intros Hocc Hrows. rewrite Hstart.
    unfold apply_clean_isbn. cbn [columns rows].
    by rewrite !decide_False by done.
  - intros s Hocc Hs Hdup.
    assert (truthy (Some s) = true) as Hts.
    { apply next_col_Some in Hs as [_ Hs]. by apply is_qty_name_truthy. }
    rewrite Hstart.
    assert (∃ t1, apply_clean_isbn c (mkDataFrame src (rows raw)) = Ok t1 ∧
                  columns t1 = src) as (t1 & -> & Hcols1).
    { unfold apply_clean_isbn. cbn [columns rows].
      destruct Hocc as [Hocc|Hnil].
      - rewrite decide_True by done. by eexists.
      - case_decide; [by eexists|]. rewrite decide_True by done. by eexists. }
    cbn [mbind result_bind]. rewrite Hcols1, Hs. cbn [mbind result_bind]. rewrite Hts.
    unfold to_numeric_column. rewrite Hcols1. by rewrite decide_False by done.
Qed.

(** ** FileCleaner: the cleaned table in closed form *)

Lemma columns_keep_required req cur df :
  columns (keep_required req cur df) = kept_columns req (columns df).
Proof.
  unfold keep_required, kept_columns, project. cbv zeta. cbn [columns rows].
  set (cols1 := pick _ _ _).
  destruct (decide (Some (py "CUR") ∉ cols1)) as [Hno|Hyes].
  - unfold setitem at 2. cbn [columns rows]. rewrite decide_False by done.
    unfold setitem. cbn [columns rows].
    by rewrite decide_True by (apply elem_of_app; right; left).
  - apply dec_stable in Hyes. unfold setitem. cbn [columns rows].
    by rewrite decide_True.
Qed.

Lemma in_set_empty (v : cell number) : in_set ∅ v = false.
Proof. destruct v; [|done..]. cbn. by rewrite bool_decide_eq_false. Qed.

(** [clean_file] in closed form, for a file on which [process_file]
    succeeds: the run succeeds when lines 93-97 leave no duplicate label,
    and the cleaned table then holds a [cleaned_row] for every parsed row
    whose identifier cell is not in the removal set. *)
Lemma clean_file_closed f h raw df c :
  detect_header f = Ok h → table f (reader_of f) h = Ok raw → rectangular raw →
  process_file to_number f = Ok (df, c) →
  let src := clean_label <$> columns raw in
  let req := if decide (Some (py "ISBN13") ∈ src)
             then REQUIRED_COLUMNS_ISBN else REQUIRED_COLUMNS_EAN in
  ∃ s, next_col is_id_name src = Ok (Some c) ∧ next_col is_qty_name src = Ok s ∧
    ∀ cur rem, clean_file to_number f cur rem =
      (if decide (NoDup (kept_columns req src))
       then Ok (mkDataFrame (Some <$> req)
                  (cleaned_row to_number req cur c s src <$>
                     filter (λ row, in_set (removal_set rem)
                                      (key_cell to_number c s src row) = false)
                            (rows raw)))
       else Raise (ValueError "cannot reindex on an axis with duplicate labels"),
       removal_log rem).
Proof.
  intros Hh Hraw Hrect Hpf src req.
  destruct (process_file_rows _ _ _ Hpf)
    as (h' & raw' & s & Hh' & Hraw' & Hcols & Hc & Hs & Hrows).
  rewrite Hh in Hh'. injection Hh' as <-. rewrite Hraw in Hraw'. injection Hraw' as <-.
  cbv zeta in Hcols, Hc, Hs, Hrows. fold src in Hcols, Hc, Hs, Hrows.
  exists s. split; [done|]. split; [done|]. intros cur rem.
  destruct (keep_required_shape req cur df)
    as (cols3 & hh & Hkr & HCUR & Hcols3 & Hcur & Hkeep).
  assert (cols3 = kept_columns req src) as Hk3.
  { rewrite <- Hcols, <- (columns_keep_required req cur). by rewrite (Hkr df eq_refl). }
  destruct df as [dcols drows]. cbn [columns rows] in *. subst dcols drows.
  set (Fx := λ row : list (option pystr), zip_with (processed_cell to_number c s) src row) in *.
  set (R := λ row3 : list (cell number),
              (λ x, default (Str (py "")) (row_get (Some x) cols3 row3)) <$> req).
  assert (∀ row, row ∈ rows raw → length row = length src) as Hrow_len.
  { intros row Hrow. unfold rectangular in Hrect. rewrite Forall_forall in Hrect.
    unfold src. rewrite length_fmap. by apply Hrect. }
  assert (∀ row, length row = length src → length (Fx row) = length src) as HlenF.
  { intros row Hrow. by apply length_zip_with_l_eq. }
  assert (∀ row, row ∈ rows raw →
            R (hh (Fx row)) = cleaned_row to_number req cur c s src row) as Hcell.
  { intros row Hrow%Hrow_len. unfold R, cleaned_row. apply list_fmap_ext.
    intros i x Hx. apply list_elem_of_lookup_2 in Hx.
    destruct (decide (x = py "CUR")) as [->|Hne].
    - by destruct (Hcur (Fx row) (HlenF row Hrow)) as [_ ->].
    - destruct (decide (Some x ∈ src)) as [Hin|Hnin].
      + rewrite Hkeep by (done || by apply HlenF). unfold Fx.
        by rewrite row_get_zip_with.
      + rewrite !row_get_None; [done|done|]. intros [[= ?]|[? _]]%Hcols3; done. }
  assert (∀ rs, (∀ row, row ∈ rs → row ∈ rows raw) →
            reindex req (Str (py ""))
              (keep_required req cur (mkDataFrame src (Fx <$> rs))) =
            if decide (NoDup (kept_columns req src))
            then Ok (mkDataFrame (Some <$> req)
                       (cleaned_row to_number req cur c s src <$> rs))
            else Raise (ValueError "cannot reindex on an axis with duplicate labels"))
    as Hfinal.
  { intros rs Hsub. rewrite (Hkr (mkDataFrame src (Fx <$> rs)) eq_refl). unfold reindex. cbn [columns rows].
    rewrite <- Hk3. case_decide; [|done]. do 2 f_equal.
    rewrite <- !list_fmap_compose. apply list_fmap_ext. intros i row Hrow.
    apply (Hcell row), Hsub. by eapply list_elem_of_lookup_2. }
  unfold clean_file. rewrite Hpf. cbv zeta. cbn [columns rows]. fold req.
  destruct rem as [r|].
  - rewrite extract_isbns_pair. cbn [mbind result_bind].
    unfold isin_set, getitem. rewrite <- !list_fmap_compose, select_rows_filter.
    cbn [columns rows]. rewrite filter_fmap_commute.
    rewrite (list_filter_iff _
               (λ row, in_set (removal_set (Some r))
                         (key_cell to_number c s src row) = false)).
    + rewrite Hfinal; [done|]. by intros row [_ ?]%list_elem_of_filter.
    + intros row. cbn. unfold Fx, key_cell.
      by rewrite row_get_zip_with, negb_true_iff.
  - cbn [mbind result_bind removal_set removal_log].
    rewrite Hfinal by done. rewrite (filter_all _ (rows raw)); [done|].
    intros row _. apply in_set_empty.
Qed.

Lemma clean_file_process f cur rem out log :
  clean_file to_number f cur rem = (Ok out, log) →
  ∃ df c, process_file to_number f = Ok (df, c).
Proof.
  unfold clean_file. destruct (process_file to_number f) as [[df c]|e]; [eauto|done].
Qed.

(** X13. The cleaned table, row by row. A run of [clean_file] that
    succeeds returns the template columns and, for every parsed row whose
    identifier cell is not in the removal set, in their order, one row
    that holds the chosen currency under "CUR", the processed cell of the
    first source column with that label under every other template label
    that the source has, and the empty string under the others; the log
    holds what the loading of the removal file wrote. *)
Theorem clean_file_rows f cur rem h raw out log :
  detect_header f = Ok h → table f (reader_of f) h = Ok raw → rectangular raw →
  clean_file to_number f cur rem = (Ok out, log) →
  let src := clean_label <$> columns raw in
  let req := if decide (Some (py "ISBN13") ∈ src)
             then REQUIRED_COLUMNS_ISBN else REQUIRED_COLUMNS_EAN in
  ∃ c s, next_col is_id_name src = Ok (Some c) ∧ next_col is_qty_name src = Ok s ∧
    columns out = Some <$> req ∧
    rows out =
      cleaned_row to_number req cur c s src <$>
        filter (λ row, in_set (removal_set rem) (key_cell to_number c s src row) = false)
               (rows raw) ∧
    log = removal_log rem.
Proof.
  intros Hh Hraw Hrect Hcf src req.
  destruct (clean_file_process _ _ _ _ _ Hcf) as (df & c & Hpf).
  destruct (clean_file_closed f h raw df c Hh Hraw Hrect Hpf) as (s & Hc & Hs & Heq).
  fold src in Hc, Hs, Heq. fold req in Heq.
  exists c, s. do 2 (split; [done|]). rewrite Heq in Hcf.
  case_decide; [|done]. by injection Hcf as <- <-.
Qed.

(** X14. The currency is written to the "CUR" column and touches nothing
    else: a run with another currency succeeds as well, writes the same
    log and returns the same columns and the same rows but for the cells
    under "CUR". *)
Theorem clean_file_currency_only f cur1 cur2 rem h raw out1 log :
  detect_header f = Ok h → table f (reader_of f) h = Ok raw → rectangular raw →
  clean_file to_number f cur1 rem = (Ok out1, log) →
  let src := clean_label <$> columns raw in
  let req := if decide (Some (py "ISBN13") ∈ src)
             then REQUIRED_COLUMNS_ISBN else REQUIRED_COLUMNS_EAN in
  ∃ out2, clean_file to_number f cur2 rem = (Ok out2, log) ∧
    columns out2 = columns out1 ∧
    Forall2 (λ row1 row2, ∀ i x, req !! i = Some x →
               if decide (x = py "CUR")
               then row1 !! i = Some (Str cur1) ∧ row2 !! i = Some (Str cur2)
               else row1 !! i = row2 !! i)
            (rows out1) (rows out2).
Proof.
  intros Hh Hraw Hrect Hcf src req.
  destruct (clean_file_process _ _ _ _ _ Hcf) as (df & c & Hpf).
  destruct (clean_file_closed f h raw df c Hh Hraw Hrect Hpf) as (s & Hc & Hs & Heq).
  fold src in Hc, Hs, Heq. fold req in Heq.
  rewrite Heq in Hcf. rewrite (Heq cur2 rem).
  case_decide; [|done]. injection Hcf as <- <-.
  eexists. split; [done|]. split; [done|]. cbn [rows].
  apply Forall2_fmap, Forall_Forall2_diag, Forall_forall. intros row _ i x Hx.
  unfold cleaned_row. rewrite !list_lookup_fmap, Hx. cbn. by case_decide.
Qed.







(** X18. The removal file only drops rows: a run with a removal file
    that succeeds returns the columns of the run without one, which
    succeeds as well and has a row for every parsed row, and a subsequence
    of its rows. *)
Theorem clean_file_removal_drops_rows f cur r h raw out log :
  detect_header f = Ok h → table f (reader_of f) h = Ok raw → rectangular raw →
  clean_file to_number f cur (Some r) = (Ok out, log) →
  ∃ out0, clean_file to_number f cur None = (Ok out0, []) ∧
    columns out = columns out0 ∧ rows out `sublist_of` rows out0 ∧
    length (rows out0) = length (rows raw).
Proof.
  intros Hh Hraw Hrect Hcf.
  destruct (clean_file_process _ _ _ _ _ Hcf) as (df & c & Hpf).
  destruct (clean_file_closed f h raw df c Hh Hraw Hrect Hpf) as (s & Hc & Hs & Heq).
  rewrite Heq in Hcf. pose proof (Heq cur None) as Hnone.
  cbn [removal_set removal_log] in Hnone.
  rewrite (filter_all _ (rows raw)) in Hnone by (intros row _; apply in_set_empty).
  rewrite Hnone. case_decide; [|done]. injection Hcf as <- <-.
  eexists. split; [done|]. cbn [columns rows].
  split; [done|]. split; [|by rewrite length_fmap].
  apply fmap_sublist, sublist_filter.
Qed.

(** ** Comparator: membership and empty tables *)

Lemma filter_none {A} (P : A → Prop) `{!∀ x, Decision (P x)} (l : list A) :
  (∀ x, x ∈ l → ¬ P x) → filter P l = [].
Proof.
  induction l as [|a l IH]; intros Hall; [done|].
  rewrite filter_cons_False by (apply Hall; left).
  apply IH. intros x Hx. apply Hall. by right.
Qed.

Lemma cleaned_head (d : DataFrame (cell number)) row :
  CleanedTable d → row ∈ rows d → ∃ v, head row = Some v.
Proof.
  intros [_ Hrows] Hrow. rewrite Forall_forall in Hrows.
  specialize (Hrows row Hrow). destruct row; [done|by eexists].
Qed.

(** The key of a row is among the keys of a cleaned table exactly when
    one of its rows starts with the same cell. *)
Lemma key_among (d : DataFrame (cell number)) row :
  CleanedTable d → (∃ v, head row = Some v) →
  default NaN (head row) ∈ (λ row, default NaN (head row)) <$> rows d ↔
    ∃ row', row' ∈ rows d ∧ head row' = head row.
Proof.
  intros Hd [v Hv]. rewrite list_elem_of_fmap. split.
  - intros (row' & Heq & Hin). exists row'. split; [done|].
    destruct (cleaned_head d row' Hd Hin) as [v' Hv'].
    rewrite Hv, Hv' in Heq |- *. cbn in Heq. by rewrite Heq.
  - intros (row' & Hin & Heq). exists row'. by rewrite Heq.
Qed.

(** X19. A cleaned table compared with itself has no new and no inactive
    items. *)
Theorem compare_same_table (A : DataFrame (cell number)) :
  CleanedTable A →
  compare A A = Ok (mkDataFrame (columns A) [], mkDataFrame (columns A) []).
Proof.
  intros HA. rewrite compare_cleaned by done. cbv zeta.
  rewrite filter_none; [done|]. intros row Hrow Hnot. apply Hnot.
  by apply (list_elem_of_fmap_2 (λ row, default NaN (head row))).
Qed.

(** X20. The rows of the two results. A row is a new item exactly when it
    is a row of the second table and no row of the first starts with the
    same cell; it is an inactive item exactly when it is a row of the first
    table and no row of the second starts with the same cell. *)
Theorem compare_membership (d1 d2 : DataFrame (cell number)) :
  CleanedTable d1 → CleanedTable d2 →
  ∃ new_items inactive_items,
    compare d1 d2 = Ok (new_items, inactive_items) ∧
    (∀ row, row ∈ rows new_items ↔
       row ∈ rows d2 ∧ ∀ row', row' ∈ rows d1 → head row' ≠ head row) ∧
    (∀ row, row ∈ rows inactive_items ↔
       row ∈ rows d1 ∧ ∀ row', row' ∈ rows d2 → head row' ≠ head row).
Proof.
  intros H1 H2. rewrite (compare_cleaned d1 d2) by done. cbv zeta.
  do 2 eexists. split; [done|]. cbn [rows].
  assert (∀ (d d' : DataFrame (cell number)) row,
            CleanedTable d → CleanedTable d' →
            row ∈ filter (λ row, default NaN (head row) ∉
                                   (λ row, default NaN (head row)) <$> rows d) (rows d') ↔
            row ∈ rows d' ∧ ∀ row', row' ∈ rows d → head row' ≠ head row) as Hmem.
  { intros d d' row Hd Hd'. rewrite list_elem_of_filter. split.
    - intros [Hnot Hin]. split; [done|]. intros row' Hin' Heq. apply Hnot.
      apply key_among; [done|by apply (cleaned_head d')|by exists row'].
    - intros [Hin Hnone]. split; [|done].
      intros (row' & Hin' & Heq)%key_among; [|done|by apply (cleaned_head d')].
      by apply (Hnone row'). }
  split; intros row; by apply Hmem.
Qed.

(** X21. When one of the two cleaned tables has no rows, the whole second
    table is new and the whole first table is inactive. *)
Theorem compare_empty_table (d1 d2 : DataFrame (cell number)) :
  CleanedTable d1 → CleanedTable d2 →
  rows d1 = [] ∨ rows d2 = [] →
  compare d1 d2 = Ok (d2, d1).
Proof.
  intros H1 H2 Hnil. rewrite compare_cleaned by done. cbv zeta.
  assert (∀ d d' : DataFrame (cell number),
            rows d = [] ∨ rows d' = [] →
            mkDataFrame (columns d')
              (filter (λ row, default NaN (head row) ∉
                                (λ row, default NaN (head row)) <$> rows d) (rows d')) = d')
    as Hall.
  { intros d d' [Hd|Hd'].
    - rewrite Hd. cbn [fmap list_fmap].
      rewrite filter_all; [apply frame_eta|]. by intros row _ ?%elem_of_nil.
    - rewrite <- (frame_eta d') at 3. by rewrite Hd'. }
  rewrite (Hall d1 d2) by done. rewrite (Hall d2 d1) by tauto. done.
Qed.

(** ** The comparison run *)

Lemma clean_and_compare_Ok f1 f2 cur rem d1 d2 p log :
  clean_and_compare to_number f1 f2 cur rem = (Ok (d1, d2, p), log) →
  ∃ log1 log2,
    clean_file to_number f1 cur rem = (Ok d1, log1) ∧
    clean_file to_number f2 cur rem = (Ok d2, log2) ∧
    compare d1 d2 = Ok p ∧ log = log1 ++ log2.
Proof.
  unfold clean_and_compare.
  destruct (clean_file to_number f1 cur rem) as [[t1|e1] log1]; [|done].
  destruct (clean_file to_number f2 cur rem) as [[t2|e2] log2]; [|done].
  destruct (compare t1 t2) as [q|e] eqn:Hcmp; [|done]. cbn.
  intros [= <- <- <- <-]. by exists log1, log2.
Qed.

(** X22. The outcome of a run. An exception of the cleaning of the first
    file ends the run before the second file is touched; an exception of
    the cleaning of the second file ends it with the log of both; and once
    both files are cleaned the comparison itself cannot fail: it returns
    the columns of the second table with a subsequence of its rows, and
    the columns of the first table with a subsequence of its rows. *)
Theorem clean_and_compare_outcome f1 f2 cur rem :
  parsed_rectangular f1 → parsed_rectangular f2 →
  match clean_file to_number f1 cur rem, clean_file to_number f2 cur rem with
  | (Raise e, log1), _ =>
    clean_and_compare to_number f1 f2 cur rem = (Raise e, log1)
  | (Ok d1, log1), (Raise e, log2) =>
    clean_and_compare to_number f1 f2 cur rem = (Raise e, log1 ++ log2)
  | (Ok d1, log1), (Ok d2, log2) =>
    ∃ new_items inactive_items,
      clean_and_compare to_number f1 f2 cur rem =
        (Ok (d1, d2, (new_items, inactive_items)), log1 ++ log2) ∧
      columns new_items = columns d2 ∧ rows new_items `sublist_of` rows d2 ∧
      columns inactive_items = columns d1 ∧ rows inactive_items `sublist_of` rows d1
  end.
Proof.
  intros Hr1 Hr2. unfold clean_and_compare.
  destruct (clean_file to_number f1 cur rem) as [[d1|e1] log1] eqn:H1; [|done].
  destruct (clean_file to_number f2 cur rem) as [[d2|e2] log2] eqn:H2; [|done].
  assert (∀ f d log, parsed_rectangular f →
            clean_file to_number f cur rem = (Ok d, log) → CleanedTable d) as Hclean.
  { intros f d log Hr Hcf.
    destruct (clean_file_process _ _ _ _ _ Hcf) as (df & c & Hpf).
    destruct (process_file_rows _ _ _ Hpf) as (h & raw & _ & Hh & Hraw & _).
    eapply clean_file_cleaned; [exact Hh|exact Hraw|by eapply Hr|exact Hcf]. }
  rewrite (compare_cleaned d1 d2 (Hclean f1 d1 log1 Hr1 H1) (Hclean f2 d2 log2 Hr2 H2)).
  cbv zeta. cbn.
  do 2 eexists. split; [done|]. cbn [columns rows].
  repeat split; apply sublist_filter.
Qed.

(** The identifier cell of a row under an "ISBN13" column that is the
    identifier column: it heads the cleaned row, and it is the cell that
    is looked up in the removal set. *)
Lemma isbn_key_cell cur s src row :
  next_col is_id_name src = Ok (Some (py "ISBN13")) →
  next_col is_qty_name src = Ok s → length row = length src →
  let x := clean_isbn (mjoin (row_get (Some (py "ISBN13")) src row)) in
  head (cleaned_row to_number REQUIRED_COLUMNS_ISBN cur (py "ISBN13") s src row) =
    Some (Str x) ∧
  key_cell to_number (py "ISBN13") s src row = Str x.
Proof.
  intros Hc Hs Hlen x. destruct (next_col_Some _ _ _ Hc) as [Hin _].
  destruct (row_get_is_Some (Some (py "ISBN13")) src row Hin Hlen) as [v Hv].
  assert (processed_cell to_number (py "ISBN13") s (Some (py "ISBN13")) v =
            Str (clean_isbn v)) as Hcell.
  { unfold processed_cell. rewrite decide_True by done.
    destruct s as [q|]; [|done]. rewrite decide_False; [done|].
    intros [= <-]. apply next_col_Some in Hs as [_ Hq]. by vm_compute in Hq. }
  unfold x, key_cell. rewrite Hv. split; [|by cbn; rewrite Hcell].
  change (head (cleaned_row to_number REQUIRED_COLUMNS_ISBN cur (py "ISBN13") s src row))
    with (Some (default (Str (py ""))
             (processed_cell to_number (py "ISBN13") s (Some (py "ISBN13")) <$>
                row_get (Some (py "ISBN13")) src row))).
  rewrite Hv. cbn. by rewrite Hcell.
Qed.

(** X23. The run on two ISBN catalogues, from the parsed rows to the
    results. Of each file the rows are kept whose normalised identifier is
    not in the removal set; the new items are the cleaned rows of the
    second file whose normalised identifier is not among those of the kept
    rows of the first, and the inactive items the other way round. *)
Theorem isbn_comparison f1 f2 cur rem h1 raw1 h2 raw2 d1 d2 new_items inactive_items log :
  detect_header f1 = Ok h1 → table f1 (reader_of f1) h1 = Ok raw1 → rectangular raw1 →
  detect_header f2 = Ok h2 → table f2 (reader_of f2) h2 = Ok raw2 → rectangular raw2 →
  let src1 := clean_label <$> columns raw1 in
  let src2 := clean_label <$> columns raw2 in
  next_col is_id_name src1 = Ok (Some (py "ISBN13")) →
  next_col is_id_name src2 = Ok (Some (py "ISBN13")) →
  clean_and_compare to_number f1 f2 cur rem =
    (Ok (d1, d2, (new_items, inactive_items)), log) →
  let id (src : list label) (row : list (option pystr)) :=
    clean_isbn (mjoin (row_get (Some (py "ISBN13")) src row)) in
  let kept src (raw : DataFrame (option pystr)) :=
    filter (λ row, id src row ∉ removal_set rem) (rows raw) in
  ∃ s1 s2,
    next_col is_qty_name src1 = Ok s1 ∧ next_col is_qty_name src2 = Ok s2 ∧
    let g1 := cleaned_row to_number REQUIRED_COLUMNS_ISBN cur (py "ISBN13") s1 src1 in
    let g2 := cleaned_row to_number REQUIRED_COLUMNS_ISBN cur (py "ISBN13") s2 src2 in
    rows d1 = g1 <$> kept src1 raw1 ∧ rows d2 = g2 <$> kept src2 raw2 ∧
    rows new_items =
      g2 <$> filter (λ row, id src2 row ∉ id src1 <$> kept src1 raw1) (kept src2 raw2) ∧
    rows inactive_items =
      g1 <$> filter (λ row, id src1 row ∉ id src2 <$> kept src2 raw2) (kept src1 raw1).
Proof.
  intros Hh1 Hraw1 Hrect1 Hh2 Hraw2 Hrect2 src1 src2 Hc1 Hc2 Hrun id kept.
  apply clean_and_compare_Ok in Hrun as (log1 & log2 & Hcf1 & Hcf2 & Hcmp & _).
  assert (∀ f h raw d log',
            detect_header f = Ok h → table f (reader_of f) h = Ok raw → rectangular raw →
            next_col is_id_name (clean_label <$> columns raw) = Ok (Some (py "ISBN13")) →
            clean_file to_number f cur rem = (Ok d, log') →
            ∃ s, next_col is_qty_name (clean_label <$> columns raw) = Ok s ∧
              rows d = cleaned_row to_number REQUIRED_COLUMNS_ISBN cur (py "ISBN13") s
                         (clean_label <$> columns raw) <$>
                       kept (clean_label <$> columns raw) raw) as Hrows.
  { intros f h raw d log' Hh Hraw Hrect Hc Hcf.
    destruct (clean_file_process _ _ _ _ _ Hcf) as (df & c & Hpf).
    destruct (clean_file_closed f h raw df c Hh Hraw Hrect Hpf) as (s & Hc' & Hs & Heq).
    rewrite Hc in Hc'. injection Hc' as <-.
    rewrite decide_True in Heq by by apply next_col_Some in Hc as [? _].
    rewrite Heq in Hcf. case_decide; [|done]. injection Hcf as <- _.
    exists s. split; [done|]. cbn [rows]. f_equal. apply filter_ext_in.
    intros row Hrow. unfold rectangular in Hrect. rewrite Forall_forall in Hrect.
    destruct (isbn_key_cell cur s (clean_label <$> columns raw) row Hc Hs) as [_ ->].
    { rewrite length_fmap. by apply Hrect. }
    cbn [in_set]. by rewrite bool_decide_eq_false. }
  destruct (Hrows f1 h1 raw1 d1 log1 Hh1 Hraw1 Hrect1 Hc1 Hcf1) as (s1 & Hs1 & Hd1).
  destruct (Hrows f2 h2 raw2 d2 log2 Hh2 Hraw2 Hrect2 Hc2 Hcf2) as (s2 & Hs2 & Hd2).
  fold src1 in Hs1, Hd1. fold src2 in Hs2, Hd2.
  exists s1, s2. cbv zeta. do 4 (split; [done|]).
  rewrite (compare_cleaned d1 d2
             (clean_file_cleaned to_number f1 cur rem h1 raw1 d1 log1 Hh1 Hraw1 Hrect1 Hcf1)
             (clean_file_cleaned to_number f2 cur rem h2 raw2 d2 log2 Hh2 Hraw2 Hrect2 Hcf2))
    in Hcmp.
  injection Hcmp as <- <-. cbn [rows]. cbv zeta.
  assert (∀ s src (raw : DataFrame (option pystr)) s' src' (raw' : DataFrame (option pystr)),
            rectangular raw → rectangular raw' →
            src = clean_label <$> columns raw → src' = clean_label <$> columns raw' →
            next_col is_id_name src = Ok (Some (py "ISBN13")) →
            next_col is_qty_name src = Ok s →
            next_col is_id_name src' = Ok (Some (py "ISBN13")) →
            next_col is_qty_name src' = Ok s' →
            let g := cleaned_row to_number REQUIRED_COLUMNS_ISBN cur (py "ISBN13") s src in
            let g' := cleaned_row to_number REQUIRED_COLUMNS_ISBN cur (py "ISBN13") s' src' in
            filter (λ row, default NaN (head row) ∉
                             (λ row, default NaN (head row)) <$> (g <$> kept src raw))
                   (g' <$> kept src' raw') =
            g' <$> filter (λ row, id src' row ∉ id src <$> kept src raw) (kept src' raw'))
    as Hside.
  { intros s src raw s' src' raw' Hrect Hrect' -> -> Hc Hs Hc' Hs' g g'.
    assert (∀ row, row ∈ kept (clean_label <$> columns raw) raw →
              default NaN (head (g row)) = Str (id (clean_label <$> columns raw) row)) as Hg.
    { intros row [_ Hrow]%list_elem_of_filter.
      unfold rectangular in Hrect. rewrite Forall_forall in Hrect.
      destruct (isbn_key_cell cur s (clean_label <$> columns raw) row Hc Hs) as [Hhead _].
      { rewrite length_fmap. by apply Hrect. }
      unfold g. by rewrite Hhead. }
    assert (∀ row, row ∈ kept (clean_label <$> columns raw') raw' →
              default NaN (head (g' row)) = Str (id (clean_label <$> columns raw') row)) as Hg'.
    { intros row [_ Hrow]%list_elem_of_filter.
      unfold rectangular in Hrect'. rewrite Forall_forall in Hrect'.
      destruct (isbn_key_cell cur s' (clean_label <$> columns raw') row Hc' Hs') as [Hhead _].
      { rewrite length_fmap. by apply Hrect'. }
      unfold g'. by rewrite Hhead. }
    rewrite filter_fmap_commute. f_equal. apply filter_ext_in. intros row Hrow.
    rewrite (Hg' row Hrow), <- list_fmap_compose.
    rewrite !list_elem_of_fmap. split.
    - intros Hnot (row' & Heq & Hin). apply Hnot. exists row'. split; [|done].
      unfold compose. by rewrite (Hg row' Hin), Heq.
    - intros Hnot (row' & Heq & Hin). apply Hnot. exists row'. split; [|done].
      unfold compose in Heq. rewrite (Hg row' Hin) in Heq. by injection Heq. }
  rewrite Hd1, Hd2. split.
  - by apply (Hside s1 src1 raw1 s2 src2 raw2).
  - by apply (Hside s2 src2 raw2 s1 src1 raw1).
Qed.

(** X24. The run on two EAN catalogues. The key column of both cleaned
    tables is the column "EAN #", which holds the empty string in every
    row; so, as soon as both cleaned tables have a row, the run reports no
    new item and no inactive item, whatever the files hold. *)
Theorem ean_comparison_empty f1 f2 cur rem h1 raw1 h2 raw2 d1 d2 new_items inactive_items log :
  detect_header f1 = Ok h1 → table f1 (reader_of f1) h1 = Ok raw1 → rectangular raw1 →
  detect_header f2 = Ok h2 → table f2 (reader_of f2) h2 = Ok raw2 → rectangular raw2 →
  Some (py "ISBN13") ∉ clean_label <$> columns raw1 →
  Some (py "ISBN13") ∉ clean_label <$> columns raw2 →
  clean_and_compare to_number f1 f2 cur rem =
    (Ok (d1, d2, (new_items, inactive_items)), log) →
  rows d1 ≠ [] → rows d2 ≠ [] →
  rows new_items = [] ∧ rows inactive_items = [].
Proof.
  intros Hh1 Hraw1 Hrect1 Hh2 Hraw2 Hrect2 He1 He2 Hrun Hne1 Hne2.
  apply clean_and_compare_Ok in Hrun as (log1 & log2 & Hcf1 & Hcf2 & Hcmp & _).
  destruct (clean_file_ean_key to_number f1 cur rem h1 raw1 d1 log1) as [_ Hk1]; [done..|].
  destruct (clean_file_ean_key to_number f2 cur rem h2 raw2 d2 log2) as [_ Hk2]; [done..|].
  rewrite (compare_constant_keys d1 d2 (Str (py ""))) in Hcmp.
  - by injection Hcmp as <- <-.
  - exact (clean_file_cleaned to_number f1 cur rem h1 raw1 d1 log1 Hh1 Hraw1 Hrect1 Hcf1).
  - exact (clean_file_cleaned to_number f2 cur rem h2 raw2 d2 log2 Hh2 Hraw2 Hrect2 Hcf2).
  - done.
  - done.
  - eapply Forall_impl; [exact Hk1|]. intros row Hrow. by rewrite head_lookup.
  - eapply Forall_impl; [exact Hk2|]. intros row Hrow. by rewrite head_lookup.
Qed.

End MoreFrameProperties.

(** ** HeaderDetector and SchemaResolver: one test for cells and labels *)

(** Whitespace has no uppercase form of its own. *)
Lemma upper_char_space c : isspace c = true → upper_char c = [c].
Proof.
  intros H%isspace_cases.
  repeat (apply elem_of_cons in H as [->|H]); [by vm_compute..|].
  by apply elem_of_nil in H.
Qed.

Lemma upper_space a : Forall (λ c, isspace c = true) a → upper a = a.
Proof.
  unfold upper. induction 1 as [|c a Hc _ IH]; [done|].
  cbn [mbind list_bind]. by rewrite upper_char_space, IH.
Qed.

(** A string without whitespace that occurs in a string between two runs
    of whitespace occurs in that string. *)
Lemma substring_skip_prefix pat A M y :
  pat ≠ [] → Forall (λ c, isspace c = false) pat → Forall (λ c, isspace c = true) A →
  ∀ x, A ++ M = x ++ pat ++ y → ∃ x', M = x' ++ pat ++ y.
Proof.
  intros Hne Hpat HA. induction HA as [|c A Hc _ IH]; intros x Heq; [by exists x|].
  destruct x as [|c' x].
  - destruct pat as [|p pat]; [done|]. injection Heq as -> _.
    apply Forall_cons in Hpat as [Hp _]. congruence.
  - injection Heq as _ Heq. by apply (IH x).
Qed.

Lemma substring_middle pat A M B :
  pat ≠ [] → Forall (λ c, isspace c = false) pat →
  Forall (λ c, isspace c = true) A → Forall (λ c, isspace c = true) B →
  substring pat (A ++ M ++ B) ↔ substring pat M.
Proof.
  intros Hne Hpat HA HB. split.
  - intros (x & y & Heq).
    destruct (substring_skip_prefix pat A (M ++ B) y Hne Hpat HA x Heq) as (x' & Heq').
    apply (f_equal reverse) in Heq'. rewrite !reverse_app in Heq'.
    rewrite <- (assoc_L (++)) in Heq'.
    destruct (substring_skip_prefix (reverse pat) (reverse B) (reverse M) (reverse x'))
      with (x := reverse y) as (y' & HM).
    + by intros ?%(f_equal length); destruct pat; rewrite ?length_reverse in *.
    + by apply Forall_reverse.
    + by apply Forall_reverse.
    + done.
    + exists x', (reverse y'). apply (f_equal reverse) in HM.
      rewrite !reverse_app, !reverse_involutive in HM.
      by rewrite HM, <- (assoc_L (++)).
  - intros (x & y & ->). exists (A ++ x), (y ++ B). by rewrite <- !(assoc_L (++)).
Qed.

(** Stripping the whitespace around a string first makes no difference
    to whether it names an identifier. *)
Lemma is_id_name_strip (s : pystr) :
  is_id_name (strip_punct (upper (strip s))) = is_id_name (strip_punct (upper s)).
Proof.
  apply Bool.eq_true_iff_eq. rewrite !is_id_name_spec. cbv zeta.
  destruct (strip_spec s) as (a & b & Hs & Ha & Hb & _).
  set (T := λ u : pystr, filter (λ c, c ≠ SPACE) (strip_punct (upper u))).
  assert (∀ w, Forall (λ c, isspace c = true) w → Forall (λ c, isspace c = true) (T w))
    as Hspace.
  { intros w Hw. unfold T. rewrite upper_space by done. rewrite Forall_forall in Hw |- *.
    intros c [_ [_ Hc]%list_elem_of_filter]%list_elem_of_filter. by apply Hw. }
  assert (T s = T a ++ T (strip s) ++ T b) as HT.
  { rewrite Hs at 1. unfold T, strip_punct, upper.
    by rewrite !bind_app, !filter_app. }
  fold (T (strip s)) (T s). rewrite HT.
  rewrite !(substring_middle _ (T a) (T (strip s)) (T b)); [done|..];
    try (by apply Hspace); try done;
    apply (bool_decide_unpack _); by vm_compute.
Qed.

(** X25. The test of [detect_header] on a cell and the test of
    [process_file] on the label made from it agree: a row with the one
    cell [s] is accepted as header row exactly when the label cleaned from
    [s] is found as the identifier column. *)
Theorem header_cell_label_agree (s : pystr) :
  header_row [Some s] = true ↔
    next_col is_id_name [clean_label (Some s)] = Ok (clean_label (Some s)).
Proof.
  unfold header_row. cbn [fmap list_fmap existsb astype_str default].
  change (clean_label (Some s)) with (Some (strip_punct (upper (strip s)))).
  cbn [next_col]. rewrite orb_false_r, is_id_name_strip.
  change (id s) with s.
  destruct (is_id_name (strip_punct (upper s))); by split.
Qed.

Lemma next_col_Raise p cols e :
  next_col p cols = Raise e →
  e = AttributeError "'float' object has no attribute 'replace'".
Proof.
  induction cols as [|[col|] cols IH]; cbn; [done| |by intros [= <-]].
  destruct (p col); [done|apply IH].
Qed.

Section Consistency.
Context {number : Type} `{!EqDecision number}.
Context (to_number : pystr → option number).

(** X26. When the string cells of the detected header row are the labels
    of the frame read below it, [process_file] never raises the no-column
    error: a cell that made [detect_header] accept the row gives a label
    that names an identifier. What [process_file] can still raise is the
    attribute error on a label that is no string, and the errors on
    duplicate labels. *)
Theorem process_file_finds_identifier f h sh hrow raw :
  sheet f (reader_of f) = Ok sh → detect_header f = Ok h → sh !! h = Some hrow →
  table f (reader_of f) h = Ok raw →
  (∀ j s, hrow !! j = Some (Some s) → columns raw !! j = Some (Some s)) →
  let src := clean_label <$> columns raw in
  (next_col is_id_name src =
     Raise (AttributeError "'float' object has no attribute 'replace'") ∨
   ∃ c, next_col is_id_name src = Ok (Some c)) ∧
  ∀ e, process_file to_number f = Raise e →
    ∃ msg, e = AttributeError msg ∨ e = ValueError msg ∨ e = TypeError msg.
Proof.
  intros Hsh Hh Hrow Hraw Hlabels src.
  assert (header_row hrow = true) as Hhead.
  { unfold detect_header, read_rows in Hh. rewrite Hsh in Hh.
    cbn [mbind result_bind mret result_ret] in Hh.
    apply scan_rows_Ok in Hh as (j & -> & (row & Hj & Hm) & _).
    apply lookup_take_Some in Hj as [Hj _]. cbn in Hrow. congruence. }
  assert (∃ t, Some t ∈ src ∧ is_id_name t = true) as (t & Ht & Hid).
  { unfold header_row in Hhead. apply existsb_exists in Hhead as (u & Hu & Hid).
    apply list_elem_of_In, list_elem_of_fmap in Hu as (v & -> & Hv).
    destruct v as [s|]; [|by vm_compute in Hid].
    apply list_elem_of_lookup in Hv as [j Hj]. apply Hlabels in Hj.
    exists (strip_punct (upper (strip s))). split; [|by rewrite is_id_name_strip].
    apply (list_elem_of_fmap_2' clean_label _ (Some s)); [|done].
    by eapply list_elem_of_lookup_2. }
  assert (next_col is_id_name src ≠ Ok None) as Hsome.
  { intros Hnone%next_col_None. rewrite Forall_forall in Hnone.
    destruct (Hnone _ Ht) as (t' & [= <-] & Hf). congruence. }
  split.
  - destruct (next_col is_id_name src) as [[c|]|e] eqn:Hc; [right; by exists c|done|].
    left. by rewrite (next_col_Raise _ _ _ Hc).
  - intros e. unfold process_file. rewrite Hh. cbn [mbind result_bind]. rewrite Hraw.
    cbn [mbind result_bind]. cbv zeta. cbn [columns rows]. fold src.
    destruct (next_col is_id_name src) as [[c|]|e'] eqn:Hc; cbn [mbind result_bind];
      [|done|intros [= <-]; rewrite (next_col_Raise _ _ _ Hc); by eexists; left].
    rewrite (is_id_name_truthy c) by by apply next_col_Some in Hc as [_ ?].
    cbn [negb]. unfold apply_clean_isbn. cbn [columns rows].
    assert (∀ t1 : DataFrame (option pystr),
              (s ← next_col is_qty_name (columns t1);
               match s with
               | Some s =>
                 if truthy (Some s) then
                   t2 ← to_numeric_column to_number s t1; mret (t2, c)
                 else mret (as_cells t1, c)
               | None => mret (as_cells t1, c)
               end) = Raise e →
              ∃ msg, e = AttributeError msg ∨ e = ValueError msg ∨ e = TypeError msg)
      as Hrest.
    { intros t1. destruct (next_col is_qty_name (columns t1)) as [[s|]|e'] eqn:Hs;
        cbn [mbind result_bind];
        [|done|intros [= <-]; rewrite (next_col_Raise _ _ _ Hs); by eexists; left].
      destruct (truthy (Some s)); [|done]. unfold to_numeric_column.
      case_decide; [done|]. cbn [mbind result_bind]. intros [= <-].
      eexists. by do 2 right. }
    repeat case_decide; cbn [mbind result_bind]; [apply Hrest..|].
    intros [= <-]. eexists. right. by left.
Qed.

End Consistency.

(** ** The samples, continued *)

(** "123" is padded to 13 characters. *)
Lemma clean_isbn_numeric_width_witness :
  13 ≤ length (clean_isbn (Some (py "123"))).
Proof. apply clean_isbn_numeric_width. evaluate. Defined.

(** "00123" and "123" are the same identifier. *)
Lemma clean_isbn_leading_zeros_witness :
  clean_isbn (Some (replicate 2 48%N ++ py "123")) = clean_isbn (Some (py "123")).
Proof. apply clean_isbn_leading_zeros; [evaluate|vm_compute; lia]. Defined.

(** Two blanks in front, a tab and a line feed behind. *)
Lemma clean_isbn_surrounding_space_witness :
  clean_isbn (Some (py "  " ++ py "123" ++ [9; 10]%N)) = clean_isbn (Some (py "123")).
Proof.
  apply clean_isbn_surrounding_space; repeat (constructor; [evaluate|]); constructor.
Defined.

(** The removal sheet with the cell "123" gives the set of
    "0000000000123". *)
Lemma extract_isbns_members_witness :
  (isnumeric (py "0000000000123") = true ∧ 13 ≤ length (py "0000000000123")) ∧
  ∃ rset, extract_isbns (workbook removal_mixed_sheet) = (Ok rset, []) ∧
    py "9780134685991" ∈ rset.
Proof.
  split.
  - edestruct (extract_isbns_members (workbook removal_sheet)
                 (list_to_set [py "0000000000123"]) []) as [H _]; [evaluate|].
    apply H, elem_of_list_to_set. left.
  - exists (list_to_set [py "0000000000123"; py "9780134685991"]).
    split; [evaluate|].
    edestruct (extract_isbns_members (workbook removal_mixed_sheet)
                 (list_to_set [py "0000000000123"; py "9780134685991"]) [])
      as (_ & H & _); [evaluate|].
    apply (H removal_mixed_sheet eq_refl). exists (py "9780134685991").
    split; [|split; evaluate]. do 4 right. left.
Defined.

Lemma workbook_rectangular sh :
  Forall (λ row, length row = length (default [] (head sh))) sh →
  header_row (default [] (head sh)) = true →
  parsed_rectangular (workbook sh).
Proof.
  intros Hall Hhead h raw Hh Hraw.
  destruct sh as [|labels sh]; [done|].
  change (header_row labels = true) in Hhead.
  change (Forall (λ row, length row = length labels) (labels :: sh)) in Hall.
  assert (h = 0) as ->.
  { unfold detect_header, read_rows in Hh.
    cbn [workbook sheet mbind result_bind mret result_ret] in Hh.
    change (take 20 (labels :: sh)) with (labels :: take 19 sh) in Hh.
    cbn [scan_rows] in Hh. rewrite Hhead in Hh. by injection Hh. }
  cbn [workbook table lookup list_lookup] in Hraw. injection Hraw as <-.
  unfold rectangular. cbn [columns rows drop].
  by apply Forall_cons in Hall as [_ ?].
Qed.

(** The ISBN catalogue: two columns, two rows, and "ISBN13" as the
    identifier column. *)
Lemma process_file_frame_witness :
  ∃ df, process_file read_decimal (workbook isbn_book) = Ok (df, py "ISBN13") ∧
    columns df = [Some (py "ISBN13"); Some (py "TITLE")] ∧ length (rows df) = 2.
Proof.
  eexists. split; [evaluate|].
  edestruct (process_file_frame read_decimal (workbook isbn_book) 0) as (Hcols & Hlen & _);
    [evaluate|evaluate|evaluate|].
  split; [exact Hcols|exact Hlen].
Defined.

(** In the catalogue with a quantity column the cell "n/a" of the second
    row becomes the missing value. *)
Lemma process_file_cells_witness :
  ∃ df out, process_file read_decimal (workbook stock_book) = Ok (df, py "ISBN13") ∧
    rows df !! 1 = Some out ∧ out !! 2 = Some NaN.
Proof.
  eexists.
  edestruct (process_file_cells read_decimal (workbook stock_book) 0)
    as (s & Hs & Hcells & _); [evaluate|evaluate|evaluate|].
  vm_compute in Hs. injection Hs as <-.
  destruct (Hcells 1 2 [Some (py "456"); Some (py "Second"); Some (py "n/a")]
              (Some (py "STOCK")) (Some (py "n/a")) eq_refl eq_refl eq_refl)
    as (out & Hout & Hcell).
  exists out. split; [evaluate|]. split; [exact Hout|exact Hcell].
Defined.

(** The labels "Code" and "Title" name no identifier. *)
Lemma process_file_no_identifier_witness :
  process_file read_decimal mislabelled_book =
    Raise (KeyError "No ISBN/EAN column found.").
Proof.
  eapply (process_file_no_identifier read_decimal mislabelled_book 0);
    [evaluate|evaluate|].
  repeat (constructor; [eexists; split; [reflexivity|evaluate]|]). constructor.
Defined.

(** "ISBN13" and "isbn13 " are cleaned to one label, and so are "Stock"
    and "STOCK.". *)
Lemma process_file_duplicate_labels_witness :
  process_file read_decimal (workbook twin_id_book) =
    Raise (ValueError "The truth value of a Series is ambiguous") ∧
  process_file read_decimal (workbook twin_stock_book) =
    Raise (TypeError "arg must be a list, tuple, 1-d array, or Series").
Proof.
  split.
  - edestruct (process_file_duplicate_labels read_decimal (workbook twin_id_book) 0)
      as [H _]; [evaluate|evaluate|evaluate|].
    apply H; by vm_compute.
  - edestruct (process_file_duplicate_labels read_decimal (workbook twin_stock_book) 0)
      as [_ H]; [evaluate|evaluate|evaluate|].
    apply (H (py "STOCK")); [left; evaluate|evaluate|by vm_compute].
Defined.

(** The catalogue with a quantity column, cleaned with the removal sheet
    that holds "123": the row of the item 456 is left. *)
Lemma clean_file_rows_witness :
  ∃ out, clean_file read_decimal (workbook stock_book) (py "GBP")
           (Some (workbook removal_sheet)) = (Ok out, []) ∧
    rows out = [ [Str (py "0000000000456"); Str (py "Second"); Str (py "");
                  Str (py ""); NaN; Str (py "GBP"); Str (py ""); Str (py "");
                  Str (py ""); Str (py ""); Str (py ""); Str (py "")] ].
Proof.
  eexists. split; [evaluate|].
  edestruct (clean_file_rows read_decimal (workbook stock_book) (py "GBP")
               (Some (workbook removal_sheet)) 0)
    as (c & s & Hc & Hs & _ & Hrows & _);
    [evaluate|evaluate|repeat constructor|evaluate|].
  vm_compute in Hc. injection Hc as <-. vm_compute in Hs. injection Hs as <-.
  rewrite Hrows. evaluate.
Defined.

(** The ISBN catalogue cleaned for "USD" and for "GBP". *)
Lemma clean_file_currency_only_witness :
  ∃ out1 out2,
    clean_file read_decimal (workbook isbn_book) (py "USD") None = (Ok out1, []) ∧
    clean_file read_decimal (workbook isbn_book) (py "GBP") None = (Ok out2, []) ∧
    columns out2 = columns out1.
Proof.
  eexists.
  edestruct (clean_file_currency_only read_decimal (workbook isbn_book)
               (py "USD") (py "GBP") None 0)
    as (out2 & H2 & Hcols & _); [evaluate|evaluate|repeat constructor|evaluate|].
  exists out2. split; [evaluate|]. split; [exact H2|exact Hcols].
Defined.




(** The ISBN catalogue with the removal sheet that holds "123". *)
Lemma clean_file_removal_drops_rows_witness :
  ∃ out out0,
    clean_file read_decimal (workbook isbn_book) (py "USD")
      (Some (workbook removal_sheet)) = (Ok out, []) ∧
    clean_file read_decimal (workbook isbn_book) (py "USD") None = (Ok out0, []) ∧
    rows out `sublist_of` rows out0.
Proof.
  eexists.
  edestruct (clean_file_removal_drops_rows read_decimal (workbook isbn_book) (py "USD")
               (workbook removal_sheet) 0)
    as (out0 & H0 & _ & Hsub & _); [evaluate|evaluate|repeat constructor|evaluate|].
  exists out0. split; [evaluate|]. split; [exact H0|exact Hsub].
Defined.

Lemma compare_same_table_witness :
  compare (catalogue ["100"; "200"]) (catalogue ["100"; "200"]) =
    Ok (catalogue [], catalogue []).
Proof. apply compare_same_table, catalogue_cleaned. Defined.

(** Keys 100, 200 against keys 200, 300: the row of 300 is new. *)
Lemma compare_membership_witness :
  ∃ new_items inactive_items,
    compare (catalogue ["100"; "200"]) (catalogue ["200"; "300"]) =
      Ok (new_items, inactive_items) ∧
    (Str (py "300") :: replicate 11 (Str (py ""))) ∈ rows new_items.
Proof.
  destruct (compare_membership (catalogue ["100"; "200"]) (catalogue ["200"; "300"]))
    as (n & i & Hcmp & Hnew & _); [apply catalogue_cleaned..|].
  exists n, i. split; [exact Hcmp|]. apply Hnew. split.
  - right. left.
  - intros row' [->|[->|[]%elem_of_nil]%elem_of_cons]%elem_of_cons; discriminate.
Defined.

(** An empty catalogue against one item. *)
Lemma compare_empty_table_witness :
  compare (catalogue []) (catalogue ["100"]) = Ok (catalogue ["100"], catalogue []).
Proof. apply compare_empty_table; [apply catalogue_cleaned..|by left]. Defined.

(** The two ISBN catalogues: the run succeeds. *)
Lemma clean_and_compare_outcome_witness :
  ∃ d1 d2 new_items inactive_items log,
    clean_and_compare read_decimal (workbook isbn_book) (workbook isbn_book2)
      (py "USD") None = (Ok (d1, d2, (new_items, inactive_items)), log) ∧
    rows new_items `sublist_of` rows d2.
Proof.
  assert (∃ d1, clean_file read_decimal (workbook isbn_book) (py "USD") None = (Ok d1, []))
    as [d1 E1] by (eexists; evaluate).
  assert (∃ d2, clean_file read_decimal (workbook isbn_book2) (py "USD") None = (Ok d2, []))
    as [d2 E2] by (eexists; evaluate).
  pose proof (clean_and_compare_outcome read_decimal (workbook isbn_book)
                (workbook isbn_book2) (py "USD") None) as H.
  rewrite E1, E2 in H. destruct H as (n & i & Hrun & _ & Hn & _).
  - apply workbook_rectangular; [repeat constructor|evaluate].
  - apply workbook_rectangular; [repeat constructor|evaluate].
  - exists d1, d2, n, i, ([] ++ []). split; [exact Hrun|exact Hn].
Defined.

(** The two ISBN catalogues: the item 789 is new and the item 123 is
    inactive. *)
Lemma isbn_comparison_witness :
  ∃ d1 d2 new_items inactive_items,
    clean_and_compare read_decimal (workbook isbn_book) (workbook isbn_book2)
      (py "USD") None = (Ok (d1, d2, (new_items, inactive_items)), []) ∧
    (head <$> rows new_items) = [Some (Str (py "0000000000789"))] ∧
    (head <$> rows inactive_items) = [Some (Str (py "0000000000123"))].
Proof.
  do 4 eexists. split; [evaluate|].
  edestruct (isbn_comparison read_decimal (workbook isbn_book) (workbook isbn_book2)
               (py "USD") None
               0 (mkDataFrame [Some (py "ISBN13"); Some (py "Title")] (drop 1 isbn_book))
               0 (mkDataFrame [Some (py "ISBN13"); Some (py "Title")] (drop 1 isbn_book2)))
    as (s1 & s2 & Hs1 & Hs2 & _ & _ & Hn & Hi);
    [evaluate|evaluate|repeat constructor|evaluate|evaluate|repeat constructor|
     evaluate|evaluate|evaluate|].
  vm_compute in Hs1. injection Hs1 as <-. vm_compute in Hs2. injection Hs2 as <-.
  cbv zeta in Hn, Hi. rewrite Hn, Hi, <- !list_fmap_compose. split; evaluate.
Defined.

(** Two EAN catalogues with different items: nothing is reported. *)
Lemma ean_comparison_empty_witness :
  ∃ d1 d2 new_items inactive_items,
    clean_and_compare read_decimal (workbook ean_book) (workbook ean_book2)
      (py "USD") None = (Ok (d1, d2, (new_items, inactive_items)), []) ∧
    rows new_items = [] ∧ rows inactive_items = [].
Proof.
  do 4 eexists. split; [evaluate|].
  eapply (ean_comparison_empty read_decimal (workbook ean_book) (workbook ean_book2)
            (py "USD") None
            0 (mkDataFrame [Some (py "EAN #"); Some (py "Title")] (drop 1 ean_book))
            0 (mkDataFrame [Some (py "EAN #"); Some (py "Title")] (drop 1 ean_book2)));
    [evaluate|evaluate|repeat constructor|evaluate|evaluate|repeat constructor|
     apply (bool_decide_unpack _); by vm_compute|
     apply (bool_decide_unpack _); by vm_compute|
     evaluate|done|done].
Defined.

(** The ISBN catalogue: the header cell "ISBN13" is the label of the
    first column. *)
Lemma process_file_finds_identifier_witness :
  ∃ c, next_col is_id_name (clean_label <$> [Some (py "ISBN13"); Some (py "Title")]) =
         Ok (Some c).
Proof.
  edestruct (process_file_finds_identifier read_decimal (workbook isbn_book) 0 isbn_book)
    as [[H|H] _]; [evaluate|evaluate|reflexivity|evaluate| | |exact H].
  - intros j s Hj. exact Hj.
  - vm_compute in H. discriminate.
Defined.
